(** * A forwarding HTTP/HTTPS proxy: shallow embedding of [server.py]

    The development follows the source file top to bottom:

    - byte strings and the Python string primitives the handlers call
      ([split], [strip], [in], [partition], [int], [decode]);
    - [hashlib.md5] (RFC 1321) and [get_cache_filename];
    - the part of [urllib.parse.urlparse] the handlers reach;
    - sockets, the cache directory and logging as an explicit world with
      an event trace, and a state-and-exception monad over it;
    - [handle_https_request], [handle_client_request] and the listener
      loop of [start_proxy_server];
    - the properties of the dispatcher, the cache, the forwarder, the
      tunnel relay and the listener.

    A Python [bytes] value is a [string] (one [ascii] per byte).  A Python
    [str] is represented by its UTF-8 encoding, so [str.encode()] is the
    identity and [bytes.decode()] is the identity on well-formed UTF-8 and
    raises otherwise. *)

From Stdlib Require Import ZArith NArith List Ascii String Bool Lia.
From Stdlib Require DecimalString DecimalPos.
From stdpp Require Import gmap strings.
Import ListNotations.

Local Open Scope Z_scope.

(* ===================================================================== *)
(** * Byte strings *)
(* ===================================================================== *)

Module Bytes.

Definition bytes := string.

Definition code (c : ascii) : Z := Z.of_N (N_of_ascii c).
Definition chr (z : Z) : ascii := ascii_of_N (Z.to_N z).

Definition CR : ascii := chr 13.
Definition LF : ascii := chr 10.
Definition CRLF : bytes := String CR (String LF EmptyString).
Definition CRLFCRLF : bytes := CRLF +:+ CRLF.

Definition is_empty (s : bytes) : bool :=
  match s with EmptyString => true | _ => false end.

(** ** Searching *)

(** [p.startswith]: Stdlib's [String.prefix p s]. *)
Definition startswith (s p : bytes) : bool := String.prefix p s.

(** [sub in s] *)
Fixpoint contains (sub s : bytes) : bool :=
  String.prefix sub s ||
  match s with
  | EmptyString => false
  | String _ s' => contains sub s'
  end.

(** [c in s] for a single character. *)
Fixpoint mem (c : ascii) (s : bytes) : bool :=
  match s with
  | EmptyString => false
  | String d s' => Ascii.eqb c d || mem c s'
  end.

Fixpoint all (p : ascii -> bool) (s : bytes) : bool :=
  match s with
  | EmptyString => true
  | String c s' => p c && all p s'
  end.

Fixpoint filter (p : ascii -> bool) (s : bytes) : bytes :=
  match s with
  | EmptyString => EmptyString
  | String c s' => if p c then String c (filter p s') else filter p s'
  end.

(** ** Splitting *)

(** [s.split(sep)] for a non-empty separator: left to right, matches do
    not overlap.  [skip] counts the characters of a matched separator
    still to be dropped; the head of the result is the segment being
    built. *)
Fixpoint split_go (sep : bytes) (skip : nat) (s : bytes) : list bytes :=
  match s with
  | EmptyString => [EmptyString]
  | String c s' =>
      match skip with
      | S k => split_go sep k s'
      | O =>
          if String.prefix sep s
          then EmptyString :: split_go sep (Nat.pred (String.length sep)) s'
          else match split_go sep 0 s' with
               | seg :: rest => String c seg :: rest
               | [] => [String c EmptyString]
               end
      end
  end.

Definition split (sep s : bytes) : list bytes := split_go sep 0 s.

(** ASCII whitespace as [bytes.split()] and [bytes.strip()] see it:
    space, TAB, LF, VT, FF, CR. *)
Definition is_space (c : ascii) : bool :=
  let n := code c in (n =? 32) || ((9 <=? n) && (n <=? 13)).

Definition push_token (cur : bytes) (rest : list bytes) : list bytes :=
  if is_empty cur then rest else cur :: rest.

Fixpoint split_ws_go (s : bytes) : bytes * list bytes :=
  match s with
  | EmptyString => (EmptyString, [])
  | String c s' =>
      let '(cur, rest) := split_ws_go s' in
      if is_space c then (EmptyString, push_token cur rest)
      else (String c cur, rest)
  end.

(** [s.split()] with no argument: runs of whitespace separate the
    tokens, empty tokens are dropped. *)
Definition split_ws (s : bytes) : list bytes :=
  let '(cur, rest) := split_ws_go s in push_token cur rest.

(** [s.partition(c)]: text before the first [c], whether [c] was found,
    text after it. *)
Fixpoint partition (c : ascii) (s : bytes) : bytes * bool * bytes :=
  match s with
  | EmptyString => (EmptyString, false, EmptyString)
  | String d s' =>
      if Ascii.eqb c d then (EmptyString, true, s')
      else let '(a, found, b) := partition c s' in (String d a, found, b)
  end.

(** [s.rpartition(c)]: as [partition] at the last [c]; when [c] is
    absent the whole text is the third component. *)
Fixpoint rpartition (c : ascii) (s : bytes) : bytes * bool * bytes :=
  match s with
  | EmptyString => (EmptyString, false, EmptyString)
  | String d s' =>
      let '(a, found, b) := rpartition c s' in
      if found then (String d a, true, b)
      else if Ascii.eqb c d then (EmptyString, true, s')
      else (EmptyString, false, String d b)
  end.

(** ** Stripping *)

Fixpoint lstrip (p : ascii -> bool) (s : bytes) : bytes :=
  match s with
  | EmptyString => EmptyString
  | String c s' => if p c then lstrip p s' else s
  end.

Fixpoint rstrip (p : ascii -> bool) (s : bytes) : bytes :=
  match s with
  | EmptyString => EmptyString
  | String c s' =>
      let r := rstrip p s' in
      if p c && is_empty r then EmptyString else String c r
  end.

Definition strip (s : bytes) : bytes := rstrip is_space (lstrip is_space s).

(** ** Character classes and case *)

Definition is_digit (c : ascii) : bool :=
  let n := code c in (48 <=? n) && (n <=? 57).

Definition is_ascii (c : ascii) : bool := code c <? 128.

Definition is_ascii_alpha (c : ascii) : bool :=
  let n := code c in
  ((65 <=? n) && (n <=? 90)) || ((97 <=? n) && (n <=? 122)).

Definition lower_char (c : ascii) : ascii :=
  let n := code c in
  if (65 <=? n) && (n <=? 90) then chr (n + 32) else c.

Fixpoint map_chars (f : ascii -> ascii) (s : bytes) : bytes :=
  match s with
  | EmptyString => EmptyString
  | String c s' => String (f c) (map_chars f s')
  end.

Definition ascii_lower (s : bytes) : bytes := map_chars lower_char s.

(** ** Numbers *)

(** [str(n)] for an integer, as an f-string renders it. *)
Definition of_Z (z : Z) : bytes :=
  DecimalString.NilZero.string_of_int (Z.to_int z).

(** Digits of an integer literal accepted by [int()]: decimal digits with
    single underscores allowed between digits.  [after_digit] tells
    whether the previous character was a digit. *)
Fixpoint int_digits (after_digit : bool) (acc : Z) (s : bytes) : option Z :=
  match s with
  | EmptyString => if after_digit then Some acc else None
  | String c s' =>
      if is_digit c then int_digits true (10 * acc + (code c - 48)) s'
      else if Ascii.eqb c "_" && after_digit then int_digits false acc s'
      else None
  end.

(** [int(b)] on a byte string: surrounding whitespace is ignored, one
    optional sign, then the digits.  [None] stands for [ValueError]. *)
Definition int_of_bytes (b : bytes) : option Z :=
  match strip b with
  | String "-" s => option_map Z.opp (int_digits false 0 s)
  | String "+" s => int_digits false 0 s
  | s => int_digits false 0 s
  end.

(** ** UTF-8 *)

Definition cont (c : ascii) : bool :=
  let n := code c in (128 <=? n) && (n <=? 191).

Definition between (lo hi : Z) (c : ascii) : bool :=
  let n := code c in (lo <=? n) && (n <=? hi).

(** Well-formed UTF-8 as the strict decoder accepts it: shortest forms
    only, no surrogates, nothing above U+10FFFF. *)
Fixpoint utf8_valid (s : bytes) : bool :=
  match s with
  | EmptyString => true
  | String a s1 =>
      if is_ascii a then utf8_valid s1
      else match s1 with
      | EmptyString => false
      | String b s2 =>
          if between 194 223 a then cont b && utf8_valid s2
          else match s2 with
          | EmptyString => false
          | String c s3 =>
              if between 224 239 a then
                (if code a =? 224 then between 160 191 b
                 else if code a =? 237 then between 128 159 b
                 else cont b)
                && cont c && utf8_valid s3
              else match s3 with
              | EmptyString => false
              | String d s4 =>
                  if between 240 244 a then
                    (if code a =? 240 then between 144 191 b
                     else if code a =? 244 then between 128 143 b
                     else cont b)
                    && cont c && cont d && utf8_valid s4
                  else false
              end
          end
      end
  end.

End Bytes.
Import Bytes.

(* ===================================================================== *)
(** * [hashlib.md5]: the MD5 message digest (RFC 1321) *)
(* ===================================================================== *)

Module MD5.

Definition two32 : Z := 4294967296.

Definition add32 (a b : Z) : Z := (a + b) mod two32.
Definition not32 (a : Z) : Z := Z.lxor a 0xffffffff.
Definition rotl32 (x c : Z) : Z :=
  Z.lor (Z.shiftl x c mod two32) (Z.shiftr x (32 - c)).

(** Per-round shift amounts. *)
Definition S_table : list Z :=
  [7; 12; 17; 22; 7; 12; 17; 22; 7; 12; 17; 22; 7; 12; 17; 22;
   5;  9; 14; 20; 5;  9; 14; 20; 5;  9; 14; 20; 5;  9; 14; 20;
   4; 11; 16; 23; 4; 11; 16; 23; 4; 11; 16; 23; 4; 11; 16; 23;
   6; 10; 15; 21; 6; 10; 15; 21; 6; 10; 15; 21; 6; 10; 15; 21].

(** [K_table[i] = floor(2^32 * abs(sin(i + 1)))]. *)
Definition K_table : list Z :=
  [0xd76aa478; 0xe8c7b756; 0x242070db; 0xc1bdceee;
   0xf57c0faf; 0x4787c62a; 0xa8304613; 0xfd469501;
   0x698098d8; 0x8b44f7af; 0xffff5bb1; 0x895cd7be;
   0x6b901122; 0xfd987193; 0xa679438e; 0x49b40821;
   0xf61e2562; 0xc040b340; 0x265e5a51; 0xe9b6c7aa;
   0xd62f105d; 0x02441453; 0xd8a1e681; 0xe7d3fbc8;
   0x21e1cde6; 0xc33707d6; 0xf4d50d87; 0x455a14ed;
   0xa9e3e905; 0xfcefa3f8; 0x676f02d9; 0x8d2a4c8a;
   0xfffa3942; 0x8771f681; 0x6d9d6122; 0xfde5380c;
   0xa4beea44; 0x4bdecfa9; 0xf6bb4b60; 0xbebfbc70;
   0x289b7ec6; 0xeaa127fa; 0xd4ef3085; 0x04881d05;
   0xd9d4d039; 0xe6db99e5; 0x1fa27cf8; 0xc4ac5665;
   0xf4292244; 0x432aff97; 0xab9423a7; 0xfc93a039;
   0x655b59c3; 0x8f0ccc92; 0xffeff47d; 0x85845dd1;
   0x6fa87e4f; 0xfe2ce6e0; 0xa3014314; 0x4e0811a1;
   0xf7537e82; 0xbd3af235; 0x2ad7d2bb; 0xeb86d391].

Record state := mkState { sA : Z; sB : Z; sC : Z; sD : Z }.

Definition init : state :=
  mkState 0x67452301 0xefcdab89 0x98badcfe 0x10325476.

(** Little-endian words and bytes. *)
Fixpoint le_word (bs : list Z) : Z :=
  match bs with
  | [] => 0
  | b :: bs' => b + 256 * le_word bs'
  end.

Fixpoint le_bytes (n : nat) (w : Z) : list Z :=
  match n with
  | O => []
  | S n' => (w mod 256) :: le_bytes n' (w / 256)
  end.

Fixpoint words (n : nat) (bs : list Z) : list Z :=
  match n with
  | O => []
  | S n' => le_word (firstn 4 bs) :: words n' (skipn 4 bs)
  end.

(** One of the 64 operations on a block whose sixteen words are [M]. *)
Definition step (M : list Z) (st : state) (i : Z) : state :=
  let '(mkState a b c d) := st in
  let '(f, g) :=
    if i <? 16 then (Z.lor (Z.land b c) (Z.land (not32 b) d), i)
    else if i <? 32 then
      (Z.lor (Z.land d b) (Z.land (not32 d) c), (5 * i + 1) mod 16)
    else if i <? 48 then (Z.lxor b (Z.lxor c d), (3 * i + 5) mod 16)
    else (Z.lxor c (Z.lor b (not32 d)), (7 * i) mod 16) in
  let n := Z.to_nat i in
  let f' := add32 (add32 (add32 f a) (nth n K_table 0))
                  (nth (Z.to_nat g) M 0) in
  mkState d (add32 b (rotl32 f' (nth n S_table 0))) b c.

Definition rounds : list Z := map Z.of_nat (seq 0 64).

Definition compress (st : state) (block : list Z) : state :=
  let M := words 16 block in
  let st' := fold_left (step M) rounds st in
  mkState (add32 (sA st) (sA st')) (add32 (sB st) (sB st'))
          (add32 (sC st) (sC st')) (add32 (sD st) (sD st')).

Fixpoint blocks (n : nat) (st : state) (bs : list Z) : state :=
  match n with
  | O => st
  | S n' => blocks n' (compress st (firstn 64 bs)) (skipn 64 bs)
  end.

(** Padding: a [0x80] byte, zero bytes up to 56 modulo 64, then the bit
    length of the message as a 64-bit little-endian number. *)
Definition pad (msg : list Z) : list Z :=
  let len := Z.of_nat (List.length msg) in
  let zeros := Z.to_nat ((55 - len) mod 64) in
  msg ++ [128] ++ repeat 0 zeros ++ le_bytes 8 ((8 * len) mod 2 ^ 64).

Definition digest (msg : list Z) : list Z :=
  let p := pad msg in
  let st := blocks (List.length p / 64) init p in
  le_bytes 4 (sA st) ++ le_bytes 4 (sB st) ++
  le_bytes 4 (sC st) ++ le_bytes 4 (sD st).

Definition hex_digit (n : Z) : ascii :=
  if n <? 10 then chr (48 + n) else chr (87 + n).

Fixpoint hex (bs : list Z) : bytes :=
  match bs with
  | [] => EmptyString
  | b :: bs' => String (hex_digit (b / 16)) (String (hex_digit (b mod 16)) (hex bs'))
  end.

Fixpoint codes (s : bytes) : list Z :=
  match s with
  | EmptyString => []
  | String c s' => code c :: codes s'
  end.

(** [hashlib.md5(data).hexdigest()] *)
Definition hexdigest (data : bytes) : bytes := hex (digest (codes data)).

End MD5.

(* ===================================================================== *)
(** * Exceptions *)
(* ===================================================================== *)

(** The exceptions the handlers can meet; all derive from [Exception],
    so every [except Exception] clause catches each of them. *)
Inductive exn : Type :=
  | ValueError
  | UnicodeDecodeError
  | IndexError
  | TypeError
  | UnboundLocalError
  | OSError.

Inductive result (A : Type) : Type :=
  | Ok (a : A)
  | Raise (e : exn).
Arguments Ok {A} a.
Arguments Raise {A} e.

Definition of_option {A} (e : exn) (o : option A) : result A :=
  match o with Some a => Ok a | None => Raise e end.

(** [b.decode()]: UTF-8, strict. *)
Definition decode (b : bytes) : result bytes :=
  if utf8_valid b then Ok b else Raise UnicodeDecodeError.

(* ===================================================================== *)
(** * [get_cache_filename] *)
(* ===================================================================== *)

Definition cache_dir : bytes := "cache".

(** [os.path.join] of a directory and a relative name (POSIX). *)
Definition path_join (dir name : bytes) : bytes := dir +:+ "/" +:+ name.

Definition get_cache_filename (url : bytes) : bytes :=
  let cache_key := MD5.hexdigest url in
  path_join cache_dir cache_key.

(* ===================================================================== *)
(** * [urllib.parse]: [urlsplit], [urlparse], [hostname], [port] *)
(* ===================================================================== *)

Module Url.

(** Three steps of the library need the interpreter's Unicode and IP
    address tables: [str.lower] on text with non-ASCII characters, the
    validation of a bracketed host, and the NFKC check of a non-ASCII
    network location.  They are a parameter of the model; each is
    consulted only on the inputs named here. *)
Record Platform : Type := mkPlatform {
  unicode_lower : bytes -> bytes;
  bracketed_netloc_ok : bytes -> bool;
  nfkc_netloc_ok : bytes -> bool
}.

Record ParseResult : Type := mkParseResult {
  scheme : bytes;
  netloc : bytes;
  path : bytes;
  params : bytes;
  query : bytes;
  fragment : bytes
}.

Definition uses_params : list bytes :=
  [""; "ftp"; "hdl"; "prospero"; "http"; "imap";
   "https"; "shttp"; "rtsp"; "rtspu"; "sip"; "sips";
   "mms"; "sftp"; "tel"]%string.

(** Characters of [_WHATWG_C0_CONTROL_OR_SPACE]. *)
Definition is_c0_or_space (c : ascii) : bool := code c <=? 32.

(** Characters of [_UNSAFE_URL_BYTES_TO_REMOVE]. *)
Definition is_unsafe (c : ascii) : bool :=
  (code c =? 9) || (code c =? 13) || (code c =? 10).

Definition scheme_char (c : ascii) : bool :=
  is_ascii_alpha c || is_digit c || mem c "+-.".

Definition first_is_ascii_alpha (s : bytes) : bool :=
  match s with
  | EmptyString => false
  | String c _ => is_ascii c && is_ascii_alpha c
  end.

Definition in_list (s : bytes) (l : list bytes) : bool :=
  existsb (String.eqb s) l.

(** [_splitnetloc(url, 2)] on the text after the two slashes: the network
    location runs to the first of [/], [?], [#]. *)
Fixpoint splitnetloc (s : bytes) : bytes * bytes :=
  match s with
  | EmptyString => (EmptyString, EmptyString)
  | String c s' =>
      if mem c "/?#" then (EmptyString, s)
      else let '(n, r) := splitnetloc s' in (String c n, r)
  end.

Definition drop2 (s : bytes) : bytes :=
  match s with
  | String _ (String _ s') => s'
  | _ => EmptyString
  end.

Definition check_brackets (pf : Platform) (nl : bytes) : result unit :=
  if (mem "[" nl && negb (mem "]" nl)) || (mem "]" nl && negb (mem "[" nl))
  then Raise ValueError
  else if mem "[" nl && mem "]" nl && negb (bracketed_netloc_ok pf nl)
  then Raise ValueError
  else Ok tt.

(** [_checknetloc] *)
Definition checknetloc (pf : Platform) (nl : bytes) : result unit :=
  if is_empty nl || all is_ascii nl then Ok tt
  else if nfkc_netloc_ok pf nl then Ok tt
  else Raise ValueError.

(** [urlsplit(url)] on text; the result's [params] is left empty. *)
Definition urlsplit (pf : Platform) (url : bytes) : result ParseResult :=
  let url := lstrip is_c0_or_space url in
  let url := filter (fun c => negb (is_unsafe c)) url in
  let '(pre, found, post) := partition ":" url in
  let '(scheme, url) :=
    if found && negb (is_empty pre) && first_is_ascii_alpha url
       && all scheme_char pre
    then (ascii_lower pre, post)
    else (EmptyString, url) in
  let '(netloc, url) :=
    if String.prefix "//" url then splitnetloc (drop2 url)
    else (EmptyString, url) in
  match check_brackets pf netloc with
  | Raise e => Raise e
  | Ok _ =>
      let '(url, _, fragment) := partition "#" url in
      let '(url, _, query) := partition "?" url in
      match checknetloc pf netloc with
      | Raise e => Raise e
      | Ok _ => Ok (mkParseResult scheme netloc url EmptyString query fragment)
      end
  end.

(** [_splitparams]: the parameters start at the first [;] of the last
    path segment. *)
Definition splitparams (url : bytes) : bytes * bytes :=
  let '(dir, has_slash, last) := rpartition "/" url in
  if has_slash then
    let '(seg, has_semi, prm) := partition ";" last in
    if has_semi then (dir +:+ "/" +:+ seg, prm) else (url, EmptyString)
  else
    let '(seg, _, prm) := partition ";" url in (seg, prm).

(** [urlparse(url)] on text. *)
Definition urlparse (pf : Platform) (url : bytes) : result ParseResult :=
  match urlsplit pf url with
  | Raise e => Raise e
  | Ok r =>
      if in_list (scheme r) uses_params && mem ";" (path r) then
        let '(url, prm) := splitparams (path r) in
        Ok (mkParseResult (scheme r) (netloc r) url prm (query r) (fragment r))
      else Ok r
  end.

(** [urlparse(url)] on bytes: the argument is decoded as ASCII first and
    the fields are encoded back. *)
Definition urlparse_bytes (pf : Platform) (url : bytes) : result ParseResult :=
  if all is_ascii url then urlparse pf url else Raise UnicodeDecodeError.

(** [_hostinfo]: host text and port text of the network location. *)
Definition hostinfo (r : ParseResult) : bytes * option bytes :=
  let '(_, _, hostinfo) := rpartition "@" (netloc r) in
  let '(_, have_open_br, bracketed) := partition "[" hostinfo in
  let '(hostname, port) :=
    if have_open_br then
      let '(hostname, _, port) := partition "]" bracketed in
      let '(_, _, port) := partition ":" port in (hostname, port)
    else
      let '(hostname, _, port) := partition ":" hostinfo in (hostname, port) in
  (hostname, if is_empty port then None else Some port).

(** [text.lower()] *)
Definition lower (pf : Platform) (s : bytes) : bytes :=
  if all is_ascii s then ascii_lower s else unicode_lower pf s.

(** The [hostname] property: [None] when the host text is empty, else
    the host in lower case, a zone after [%] kept as it is. *)
Definition hostname (pf : Platform) (r : ParseResult) : option bytes :=
  let hostname := fst (hostinfo r) in
  if is_empty hostname then None
  else
    let '(hostname, percent, zone) := partition "%" hostname in
    Some (lower pf hostname +:+ (if percent then "%" else "") +:+ zone).

(** Value of a run of ASCII digits. *)
Fixpoint digits_value (acc : Z) (s : bytes) : Z :=
  match s with
  | EmptyString => acc
  | String c s' => digits_value (10 * acc + (code c - 48)) s'
  end.

(** The [port] property. *)
Definition port (r : ParseResult) : result (option Z) :=
  match snd (hostinfo r) with
  | None => Ok None
  | Some port =>
      if all is_digit port then
        let port := digits_value 0 port in
        if (0 <=? port) && (port <=? 65535) then Ok (Some port)
        else Raise ValueError
      else Raise ValueError
  end.

End Url.

(* ===================================================================== *)
(** * The world: sockets, cache directory, log *)
(* ===================================================================== *)

Inductive level : Type := DEBUG | INFO | ERROR.

(** One constructor per logging call of the source, with the values its
    message interpolates. *)
Inductive log_msg : Type :=
  | MsgReceived (request : bytes)
  | MsgCacheHit (url : bytes)
  | MsgConnected (host : bytes)
  | MsgPostBody (first100 : bytes)
  | Msg404
  | Msg403
  | Msg500
  | MsgStoring (url : bytes)
  | MsgSaved (file : bytes)
  | MsgSaveError (e : exn)
  | MsgProcessError (e : exn)
  | MsgTunnelError (host : option bytes) (e : exn).

(** What a run does to its environment, in order.  An [..Err] event is
    a call that raised. *)
Inductive event : Type :=
  | Log (lvl : level) (msg : log_msg)
  | ClientRecv (data : bytes)
  | ClientRecvErr
  | ClientSend (data : bytes)
  | ClientSendErr (data : bytes)
  | ClientClose
  | OriginConnect (host : bytes) (port : Z)
  | OriginConnectErr (host : bytes) (port : Z)
  | OriginTLS
  | OriginTLSErr
  | OriginSend (data : bytes)
  | OriginSendErr (data : bytes)
  | OriginRecv (data : bytes)
  | OriginRecvErr
  | OriginClose
  | CacheRead (file : bytes)
  | CacheReadErr (file : bytes)
  | CacheWrite (file data : bytes)
  | CacheWriteErr (file : bytes).

(** What one [recv] call yields: the bytes read (none at end of stream)
    or an error. *)
Inductive recv_result : Type :=
  | Data (b : bytes)
  | RecvError.

(** How writing a cache file ends: completely; not at all because [open]
    raised; or with [write] raising after the file was truncated and
    [partial] was stored. *)
Inductive write_result : Type :=
  | Written
  | OpenFails
  | WriteFails (partial : bytes).

(** The part of the environment a run cannot change. *)
Record Oracle : Type := mkOracle {
  platform : Url.Platform;
  connect_ok : bool;
  tls_ok : bool;
  read_ok : bool;
  write_res : write_result
}.

(** [client_in] and [origin_in] list what the coming [recv] calls on the
    client and on the origin socket yield (an exhausted list is end of
    stream); [client_out] and [origin_out] tell whether the coming
    [sendall] calls succeed (an exhausted list: they do). *)
Record World : Type := mkWorld {
  env : Oracle;
  fs : gmap string bytes;
  client_in : list recv_result;
  client_out : list bool;
  origin_in : list recv_result;
  origin_out : list bool
}.

Definition set_fs (f : gmap string bytes) (w : World) : World :=
  mkWorld (env w) f (client_in w) (client_out w) (origin_in w) (origin_out w).
Definition set_client_in (l : list recv_result) (w : World) : World :=
  mkWorld (env w) (fs w) l (client_out w) (origin_in w) (origin_out w).
Definition set_client_out (l : list bool) (w : World) : World :=
  mkWorld (env w) (fs w) (client_in w) l (origin_in w) (origin_out w).
Definition set_origin_in (l : list recv_result) (w : World) : World :=
  mkWorld (env w) (fs w) (client_in w) (client_out w) l (origin_out w).
Definition set_origin_out (l : list bool) (w : World) : World :=
  mkWorld (env w) (fs w) (client_in w) (client_out w) (origin_in w) l.

(* ===================================================================== *)
(** * The monad of handlers: state, exceptions, event trace *)
(* ===================================================================== *)

(** A computation ends by returning, by raising, or not at all
    ([Diverges]: a loop whose fuel ran out; the handlers give their loops
    enough fuel, see [dispatcher_outcomes]). *)
Inductive outcome (A : Type) : Type :=
  | Returns (a : A)
  | Raises (e : exn)
  | Diverges.
Arguments Returns {A} a.
Arguments Raises {A} e.
Arguments Diverges {A}.

Definition M (A : Type) : Type := World -> outcome A * World * list event.

Definition ret {A} (a : A) : M A := fun w => (Returns a, w, []).

Definition bind {A B} (m : M A) (k : A -> M B) : M B :=
  fun w =>
    match m w with
    | (Returns a, w1, t1) => let '(r, w2, t2) := k a w1 in (r, w2, t1 ++ t2)
    | (Raises e, w1, t1) => (Raises e, w1, t1)
    | (Diverges, w1, t1) => (Diverges, w1, t1)
    end.

Declare Scope handler_scope.
Delimit Scope handler_scope with handler.
Notation "x <- m ;; k" := (bind m (fun x => k))
  (at level 100, m at next level, right associativity) : handler_scope.
Notation "m ;; k" := (bind m (fun _ => k))
  (at level 100, right associativity) : handler_scope.
Local Open Scope handler_scope.

Definition raise {A} (e : exn) : M A := fun w => (Raises e, w, []).
Definition diverge {A} : M A := fun w => (Diverges, w, []).
Definition get : M World := fun w => (Returns w, w, []).
Definition put (w' : World) : M unit := fun _ => (Returns tt, w', []).
Definition emit (e : event) : M unit := fun w => (Returns tt, w, [e]).

Definition lift {A} (r : result A) : M A :=
  match r with Ok a => ret a | Raise e => raise e end.

(** [try: m  except Exception as e: h e] *)
Definition try_except {A} (m : M A) (h : exn -> M A) : M A :=
  fun w =>
    match m w with
    | (Raises e, w1, t1) => let '(r, w2, t2) := h e w1 in (r, w2, t1 ++ t2)
    | other => other
    end.

(** ** Logging *)

Definition log (lvl : level) (msg : log_msg) : M unit := emit (Log lvl msg).

(** ** The client socket *)

Definition client_recv : M bytes :=
  w <- get ;;
  match client_in w with
  | [] => emit (ClientRecv "") ;; ret EmptyString
  | Data d :: rest => put (set_client_in rest w) ;; emit (ClientRecv d) ;; ret d
  | RecvError :: rest => put (set_client_in rest w) ;; emit ClientRecvErr ;; raise OSError
  end.

Definition client_sendall (data : bytes) : M unit :=
  w <- get ;;
  match client_out w with
  | false :: rest => put (set_client_out rest w) ;; emit (ClientSendErr data) ;; raise OSError
  | ok => put (set_client_out (tl ok) w) ;; emit (ClientSend data)
  end.

Definition client_close : M unit := emit ClientClose.

(** ** The origin socket *)

(** [server_socket.connect((host, port))]: a host that is [None] is a
    [TypeError] before anything reaches the network. *)
Definition origin_connect (host : option bytes) (port : Z) : M unit :=
  match host with
  | None => raise TypeError
  | Some h =>
      w <- get ;;
      if connect_ok (env w) then emit (OriginConnect h port)
      else emit (OriginConnectErr h port) ;; raise OSError
  end.

(** [ssl.wrap_socket(server_socket)] *)
Definition origin_wrap_tls : M unit :=
  w <- get ;;
  if tls_ok (env w) then emit OriginTLS
  else emit OriginTLSErr ;; raise OSError.

Definition origin_recv : M bytes :=
  w <- get ;;
  match origin_in w with
  | [] => emit (OriginRecv "") ;; ret EmptyString
  | Data d :: rest => put (set_origin_in rest w) ;; emit (OriginRecv d) ;; ret d
  | RecvError :: rest => put (set_origin_in rest w) ;; emit OriginRecvErr ;; raise OSError
  end.

Definition origin_sendall (data : bytes) : M unit :=
  w <- get ;;
  match origin_out w with
  | false :: rest => put (set_origin_out rest w) ;; emit (OriginSendErr data) ;; raise OSError
  | ok => put (set_origin_out (tl ok) w) ;; emit (OriginSend data)
  end.

(** [with socket.socket(...) as server_socket: body]: the socket is
    closed when the block is left, however it is left. *)
Definition with_socket {A} (body : M A) : M A :=
  fun w => let '(r, w1, t1) := body w in (r, w1, t1 ++ [OriginClose]).

(** ** The cache directory *)

Definition path_exists (file : bytes) : M bool :=
  w <- get ;; ret (bool_decide (is_Some (fs w !! file))).

(** [open(file, 'rb')] and [read()] *)
Definition read_file (file : bytes) : M bytes :=
  w <- get ;;
  match fs w !! file with
  | Some data =>
      if read_ok (env w) then emit (CacheRead file) ;; ret data
      else emit (CacheReadErr file) ;; raise OSError
  | None => emit (CacheReadErr file) ;; raise OSError
  end.

(** [open(file, 'wb')] and [write(data)] *)
Definition write_file (file data : bytes) : M unit :=
  w <- get ;;
  match write_res (env w) with
  | Written => put (set_fs (<[file := data]> (fs w)) w) ;; emit (CacheWrite file data)
  | OpenFails => emit (CacheWriteErr file) ;; raise OSError
  | WriteFails partial =>
      put (set_fs (<[file := partial]> (fs w)) w) ;;
      emit (CacheWriteErr file) ;; raise OSError
  end.

(* ===================================================================== *)
(** * The handlers *)
(* ===================================================================== *)

Definition RESPONSE_200 : bytes := "HTTP/1.1 200 Connection Established" +:+ CRLFCRLF.
Definition RESPONSE_500 : bytes := "HTTP/1.1 500 Internal Server Error" +:+ CRLFCRLF.
Definition RESPONSE_405 : bytes := "HTTP/1.1 405 Method Not Allowed" +:+ CRLFCRLF.
Definition RESPONSE_400 : bytes := "HTTP/1.1 400 Bad Request" +:+ CRLFCRLF.

(** Fuel that outlasts a loop which calls [recv] once per round on a
    socket with [l] still to come: the round after the last entry reads
    the end of the stream and leaves the loop. *)
Definition fuel_for (l : list recv_result) : nat := S (List.length l).

(** ** [handle_https_request] *)

(** The [while True] loop of the tunnel. *)
Fixpoint relay_loop (fuel : nat) : M unit :=
  match fuel with
  | O => diverge
  | S fuel' =>
      client_data <- client_recv ;;
      if is_empty client_data then ret tt
      else
        origin_sendall client_data ;;
        server_data <- origin_recv ;;
        if is_empty server_data then ret tt
        else
          client_sendall server_data ;;
          relay_loop fuel'
  end.

Definition handle_https_request (method url : bytes) : M unit :=
  w <- get ;;
  parsed_url <- lift (Url.urlparse_bytes (platform (env w)) url) ;;
  let host := Url.hostname (platform (env w)) parsed_url in
  p <- lift (Url.port parsed_url) ;;
  let port := match p with
              | Some n => if n =? 0 then 443 else n
              | None => 443
              end in
  try_except
    (with_socket
       (origin_connect host port ;;
        origin_wrap_tls ;;
        client_sendall RESPONSE_200 ;;
        w <- get ;;
        relay_loop (fuel_for (client_in w))))
    (fun e =>
       log ERROR (MsgTunnelError host e) ;;
       client_sendall RESPONSE_500) ;;
  client_close.

(** ** [handle_client_request] *)

(** How the [try] block of the dispatcher is left when it does not
    raise: by one of its [return] statements, or at its end. *)
Inductive flow : Type := Return | Next.

(** [method, url, _ = first_line.split()] *)
Definition unpack3 (tokens : list bytes) : result (bytes * bytes) :=
  match tokens with
  | [method; url; _] => Ok (method, url)
  | _ => Raise ValueError
  end.

(** The [for header in headers] loop of the POST branch. *)
Fixpoint scan_headers (headers : list bytes) (content_length : Z) : result Z :=
  match headers with
  | [] => Ok content_length
  | header :: rest =>
      if contains "Content-Length" header then
        match nth_error (split ":" header) 1 with
        | None => Raise IndexError
        | Some v =>
            match int_of_bytes (strip v) with
            | None => Raise ValueError
            | Some n => scan_headers rest n
            end
        end
      else scan_headers rest content_length
  end.

Definition get_request (path host : bytes) : bytes :=
  "GET " +:+ path +:+ " HTTP/1.1" +:+ CRLF +:+
  "Host: " +:+ host +:+ CRLF +:+
  "Connection: close" +:+ CRLFCRLF.

Definition post_request (path host : bytes) (content_length : Z) (body : bytes) : bytes :=
  "POST " +:+ path +:+ " HTTP/1.1" +:+ CRLF +:+
  "Host: " +:+ host +:+ CRLF +:+
  "Content-Length: " +:+ of_Z content_length +:+ CRLF +:+
  "Connection: close" +:+ CRLFCRLF +:+ body.

(** Lines 100 to 114: the request written to the origin. *)
Definition build_request (method request path host : bytes) : M bytes :=
  if String.eqb method "GET" then ret (get_request path host)
  else if String.eqb method "POST" then
    let headers := tl (split (String LF EmptyString) request) in
    content_length <- lift (scan_headers headers 0) ;;
    body <- (if 0 <? content_length
             then lift (of_option IndexError (nth_error (split CRLFCRLF request) 1))
             else ret EmptyString) ;;
    log DEBUG (MsgPostBody (String.substring 0 100 body)) ;;
    ret (post_request path host content_length body)
  else raise UnboundLocalError.

(** The [while True] loop that gathers the origin's response. *)
Fixpoint recv_loop (fuel : nat) (response : bytes) : M bytes :=
  match fuel with
  | O => diverge
  | S fuel' =>
      data <- origin_recv ;;
      if is_empty data then ret response
      else recv_loop fuel' (response +:+ data)
  end.

Definition log_status (response : bytes) : M unit :=
  if contains "404 Not Found" response then log ERROR Msg404
  else if contains "403 Forbidden" response then log ERROR Msg403
  else if contains "500 Internal Server Error" response then log ERROR Msg500
  else ret tt.

(** Lines 133 to 141: the response is stored under the cache file name;
    a failure is logged and goes no further. *)
Definition store_response (method url cache_filename response : bytes) : M unit :=
  if Url.in_list method ["GET"; "POST"]%string && negb (is_empty response) then
    try_except
      (u <- lift (decode url) ;;
       log INFO (MsgStoring u) ;;
       write_file cache_filename response ;;
       log INFO (MsgSaved cache_filename))
      (fun e => log ERROR (MsgSaveError e))
  else ret tt.

(** Lines 95 to 143: connect to the origin, forward, gather, store,
    reply. *)
Definition forward (method url request path host cache_filename : bytes) : M unit :=
  with_socket
    (origin_connect (Some host) 80 ;;
     log INFO (MsgConnected host) ;;
     full_request <- build_request method request path host ;;
     origin_sendall full_request ;;
     w <- get ;;
     response <- recv_loop (fuel_for (origin_in w)) EmptyString ;;
     log_status response ;;
     store_response method url cache_filename response ;;
     client_sendall response).

(** Line 75: the text handed to [urlparse]. *)
Definition target_text (url : bytes) : result bytes :=
  if startswith url "http" then decode url
  else match decode url with
       | Ok u => Ok ("http://" +:+ lstrip (Ascii.eqb "/") u)
       | Raise e => Raise e
       end.

(** The first line of a request: the text before the first LF. *)
Definition first_line (request : bytes) : bytes :=
  hd EmptyString (split (String LF EmptyString) request).

(** The body of the [try] block, lines 58 to 143. *)
Definition try_block : M flow :=
  request <- client_recv ;;
  log DEBUG (MsgReceived request) ;;
  mu <- lift (unpack3 (split_ws (first_line request))) ;;
  let '(method, url) := mu in
  if String.eqb method "CONNECT" then
    handle_https_request method url ;;
    ret Return
  else if negb (Url.in_list method ["GET"; "POST"]%string) then
    client_sendall RESPONSE_405 ;;
    client_close ;;
    ret Return
  else
    w <- get ;;
    text <- lift (target_text url) ;;
    parsed_url <- lift (Url.urlparse (platform (env w)) text) ;;
    let path := if is_empty (Url.path parsed_url) then "/"%string
                else Url.path parsed_url in
    match Url.hostname (platform (env w)) parsed_url with
    | None | Some EmptyString =>
        client_sendall RESPONSE_400 ;;
        client_close ;;
        ret Return
    | Some host =>
        u <- lift (decode url) ;;
        let cache_filename := get_cache_filename u in
        cached <- path_exists cache_filename ;;
        if String.eqb method "GET" && cached then
          log INFO (MsgCacheHit u) ;;
          cached_response <- read_file cache_filename ;;
          client_sendall cached_response ;;
          client_close ;;
          ret Return
        else
          forward method url request path host cache_filename ;;
          ret Next
    end.

Definition handle_client_request : M unit :=
  f <- try_except try_block
         (fun e =>
            log ERROR (MsgProcessError e) ;;
            client_sendall RESPONSE_400 ;;
            ret Next) ;;
  match f with
  | Return => ret tt
  | Next => client_close
  end.

(* ===================================================================== *)
(** * [start_proxy_server] *)
(* ===================================================================== *)

(** An accepted connection: the address of the peer, the state of the
    environment while it is served, what the client will send and
    accept, and what the origin reached for it will send and accept. *)
Record Connection : Type := mkConnection {
  peer : bytes * Z;
  conn_env : Oracle;
  conn_in : list recv_result;
  conn_out : list bool;
  upstream_in : list recv_result;
  upstream_out : list bool
}.

(** What one call of [accept] yields. *)
Inductive arrival : Type :=
  | Arrives (c : Connection)
  | AcceptFails.

(** The process as the listener finds it: whether [bind] and [listen]
    succeed, the cache directory, and the connections to come; when they
    are exhausted [accept] blocks. *)
Record Server : Type := mkServer {
  bind_ok : bool;
  listen_ok : bool;
  cache : gmap string bytes;
  arrivals : list arrival
}.

(** What the listener does, in order; [Handled t] is one call of
    [handle_client_request] with the trace [t]. *)
Inductive server_event : Type :=
  | Bound (ip : bytes) (port : Z)
  | BindFailed (ip : bytes) (port : Z)
  | Listening (backlog : Z)
  | ListenFailed (backlog : Z)
  | LogServing (ip : bytes) (port : Z)
  | Accepted (peer : bytes * Z)
  | AcceptFailed
  | LogConnection (peer : bytes * Z)
  | Handled (t : list event)
  | ListenerClosed.

(** The world in which the handler of a connection runs: the cache
    directory is the one the process has at that time. *)
Definition connection_world (files : gmap string bytes) (c : Connection) : World :=
  mkWorld (conn_env c) files (conn_in c) (conn_out c) (upstream_in c) (upstream_out c).

(** The [while True] loop of the listener.  It has no [break] and no
    [try]: it is left only by an exception. *)
Fixpoint accept_loop (files : gmap string bytes) (coming : list arrival)
    : outcome unit * gmap string bytes * list server_event :=
  match coming with
  | [] => (Diverges, files, [])
  | AcceptFails :: _ => (Raises OSError, files, [AcceptFailed])
  | Arrives c :: rest =>
      let '(r, w, t) := handle_client_request (connection_world files c) in
      let served := [Accepted (peer c); LogConnection (peer c); Handled t] in
      match r with
      | Returns _ =>
          let '(r', files', ts) := accept_loop (fs w) rest in
          (r', files', served ++ ts)
      | Raises e => (Raises e, fs w, served)
      | Diverges => (Diverges, fs w, served)
      end
  end.

(** The listening socket is closed when the [with] block is left. *)
Definition start_proxy_server (ip : bytes) (port : Z) (s : Server)
    : outcome unit * gmap string bytes * list server_event :=
  if bind_ok s then
    if listen_ok s then
      let '(r, files, ts) := accept_loop (cache s) (arrivals s) in
      (r, files,
       Bound ip port :: Listening 5 :: LogServing ip port :: ts ++
       match r with Diverges => [] | _ => [ListenerClosed] end)
    else (Raises OSError, cache s, [Bound ip port; ListenFailed 5; ListenerClosed])
  else (Raises OSError, cache s, [BindFailed ip port; ListenerClosed]).

(* ===================================================================== *)
(** * Observing a run *)
(* ===================================================================== *)

Definition outcome_of {A} (r : outcome A * World * list event) : outcome A := fst (fst r).
Definition world_of {A} (r : outcome A * World * list event) : World := snd (fst r).
Definition trace_of {A} (r : outcome A * World * list event) : list event := snd r.

(** The calls that write to or close the client socket. *)
Definition is_client_write (e : event) : bool :=
  match e with
  | ClientSend _ | ClientSendErr _ | ClientClose => true
  | _ => false
  end.

Definition client_view (t : list event) : list event := List.filter is_client_write t.

(** The byte strings the client socket accepted, in order. *)
Fixpoint client_sent (t : list event) : list bytes :=
  match t with
  | [] => []
  | ClientSend d :: t' => d :: client_sent t'
  | _ :: t' => client_sent t'
  end.

(** Attempts to connect to an origin, successful or not. *)
Definition is_connect (e : event) : bool :=
  match e with
  | OriginConnect _ _ | OriginConnectErr _ _ => true
  | _ => false
  end.

Definition origin_contacted (t : list event) : bool := existsb is_connect t.

(** What was written to the origin socket, including a write that
    raised. *)
Fixpoint origin_writes (t : list event) : list bytes :=
  match t with
  | [] => []
  | OriginSend d :: t' => d :: origin_writes t'
  | OriginSendErr d :: t' => d :: origin_writes t'
  | _ :: t' => origin_writes t'
  end.

(** The bytes read from the origin socket, joined. *)
Fixpoint origin_received (t : list event) : bytes :=
  match t with
  | [] => EmptyString
  | OriginRecv d :: t' => d +:+ origin_received t'
  | _ :: t' => origin_received t'
  end.

Definition client_closed (t : list event) : bool :=
  existsb (fun e => match e with ClientClose => true | _ => false end) t.

(** Lower-case hexadecimal digits. *)
Definition is_lower_hex (c : ascii) : bool := is_digit c || between 97 102 c.

(** ** Classes of events *)

Definition is_log (e : event) : bool :=
  match e with Log _ _ => true | _ => false end.

Definition is_origin_recv (e : event) : bool :=
  match e with OriginRecv _ | OriginRecvErr => true | _ => false end.

(** The events of the tunnel's copy loop. *)
Definition is_relay (e : event) : bool :=
  match e with
  | ClientRecv _ | ClientRecvErr | ClientSend _ | ClientSendErr _
  | OriginSend _ | OriginSendErr _ | OriginRecv _ | OriginRecvErr => true
  | _ => false
  end.

Definition is_cache (e : event) : bool :=
  match e with
  | CacheRead _ | CacheReadErr _ | CacheWrite _ _ | CacheWriteErr _ => true
  | _ => false
  end.

Definition is_store (e : event) : bool :=
  match e with CacheWrite _ _ | CacheWriteErr _ => true | _ => false end.

Definition is_close (e : event) : bool :=
  match e with ClientClose => true | _ => false end.

(** Neither a write to the client socket nor an access to the cache. *)
Definition is_quiet (e : event) : bool :=
  negb (is_client_write e) && negb (is_cache e).

(** ** The store step, as the trace and the cache directory show it *)

Definition store_events (wr : write_result) (file response : bytes) : list event :=
  match wr with
  | Written => [CacheWrite file response; Log INFO (MsgSaved file)]
  | _ => [CacheWriteErr file; Log ERROR (MsgSaveError OSError)]
  end.

Definition store_trace (wr : write_result) (url file response : bytes) : list event :=
  if is_empty response then []
  else Log INFO (MsgStoring url) :: store_events wr file response.

Definition store_fs (wr : write_result) (file response : bytes)
    (f : gmap string bytes) : gmap string bytes :=
  if is_empty response then f
  else match wr with
       | Written => <[file := response]> f
       | OpenFails => f
       | WriteFails partial => <[file := partial]> f
       end.

(** ** Requests the dispatcher can resolve *)

(** Lines 75 to 80 as one step: the host and the path the forwarder
    uses for a target, when the target parses and names a host. *)
Definition target_of (pf : Url.Platform) (url : bytes) : option (bytes * bytes) :=
  match target_text url with
  | Ok text =>
      match Url.urlparse pf text with
      | Ok r =>
          match Url.hostname pf r with
          | None | Some EmptyString => None
          | Some host =>
              Some (host, if is_empty (Url.path r) then "/"%string else Url.path r)
          end
      | Raise _ => None
      end
  | Raise _ => None
  end.

(** The cache file an event touches. *)
Definition cache_file_of (e : event) : option bytes :=
  match e with
  | CacheRead f | CacheReadErr f | CacheWrite f _ | CacheWriteErr f => Some f
  | _ => None
  end.

Definition keyed_by (file : bytes) (e : event) : bool :=
  match cache_file_of e with
  | Some f => String.eqb f file
  | None => true
  end.

Definition is_origin_write (e : event) : bool :=
  match e with OriginSend _ | OriginSendErr _ => true | _ => false end.

(** A call that raised. *)
Definition is_error (e : event) : bool :=
  match e with
  | ClientRecvErr | ClientSendErr _ | OriginConnectErr _ _ | OriginTLSErr
  | OriginSendErr _ | OriginRecvErr | CacheReadErr _ | CacheWriteErr _ => true
  | _ => false
  end.

(** The non-empty byte strings read from the origin socket, in order. *)
Fixpoint origin_chunks (t : list event) : list bytes :=
  match t with
  | [] => []
  | OriginRecv d :: t' =>
      if is_empty d then origin_chunks t' else d :: origin_chunks t'
  | _ :: t' => origin_chunks t'
  end.

(** ** The two directions of a tunnel *)

(** The non-empty byte strings read from the client socket, in order. *)
Fixpoint client_chunks (t : list event) : list bytes :=
  match t with
  | [] => []
  | ClientRecv d :: t' =>
      if is_empty d then client_chunks t' else d :: client_chunks t'
  | _ :: t' => client_chunks t'
  end.

(** The calls of [recv] on the origin socket, whatever they yield. *)
Definition origin_reads (t : list event) : list event :=
  List.filter is_origin_recv t.

(** ** Connection attempts and client writes *)

Definition connect_attempts (t : list event) : list event :=
  List.filter is_connect t.

(** An attempt to connect goes to [host] and [port]. *)
Definition dials_to (host : bytes) (port : Z) (e : event) : bool :=
  match e with
  | OriginConnect h p | OriginConnectErr h p => String.eqb h host && (p =? port)
  | _ => true
  end.

Definition is_cache_read (e : event) : bool :=
  match e with CacheRead _ | CacheReadErr _ => true | _ => false end.

(** A write the client socket refused. *)
Definition is_refused (e : event) : bool :=
  match e with ClientSendErr _ => true | _ => false end.


(** ** The listener *)




(** ** Requests that raise while they are parsed *)

Definition raises {A} (r : result A) : bool :=
  match r with Raise _ => true | Ok _ => false end.



(* ===================================================================== *)
(** * Example worlds *)
(* ===================================================================== *)

Module Example.

(** A platform whose Unicode and bracket checks accept everything; the
    examples use ASCII targets without brackets, where they are not
    consulted. *)
Definition platform : Url.Platform :=
  Url.mkPlatform (fun s => s) (fun _ => true) (fun _ => true).

Definition reachable : Oracle := mkOracle platform true true true Written.
Definition unreachable : Oracle := mkOracle platform false true true Written.
Definition read_only_cache : Oracle := mkOracle platform true true true OpenFails.

(** One request arrives; the client accepts every write, and so does
    the origin, which answers with the chunks of [origin]. *)
Definition world (o : Oracle) (files : gmap string bytes) (request : bytes)
    (origin : list recv_result) : World :=
  mkWorld o files [Data request] [] origin [].

(** As [world], for a client whose coming writes end as [sends] says. *)
Definition world_with_client (o : Oracle) (files : gmap string bytes)
    (request : bytes) (sends : list bool) (origin : list recv_result) : World :=
  mkWorld o files [Data request] sends origin [].

Definition url : bytes := "http://example.com/search?q=1".

Definition get : bytes := "GET " +:+ url +:+ " HTTP/1.1" +:+ CRLFCRLF.

Definition post : bytes :=
  "POST " +:+ url +:+ " HTTP/1.1" +:+ CRLF +:+
  "Content-Length: 5" +:+ CRLFCRLF +:+ "hello".

Definition post_with_trailing_bytes : bytes := post +:+ "EXTRA".


Definition connect : bytes := "CONNECT example.com:8443 HTTP/1.1" +:+ CRLFCRLF.

Definition connect_slashes : bytes :=
  "CONNECT //example.com:8443 HTTP/1.1" +:+ CRLFCRLF.

Definition response : bytes := "HTTP/1.1 200 OK" +:+ CRLFCRLF +:+ "hello".

(** A first GET on an empty cache, and the requests that follow it with
    the cache as it left it and the origin out of reach. *)
Definition first_get : World := world reachable ∅ get [Data response].

Definition cache_after_first_get : gmap string bytes :=
  fs (world_of (handle_client_request first_get)).

Definition second_get : World := world unreachable cache_after_first_get get [].
Definition second_post : World := world unreachable cache_after_first_get post [].

(** A GET whose response cannot be stored. *)
Definition failed_store : World := world read_only_cache ∅ get [Data response].



(** CONNECT to [example.com:8443], the origin accepting connections. *)
Definition tunnel_request : World := world reachable ∅ connect [].

(** CONNECT with the target written after two slashes; the client sends
    [ping], the origin answers [pong], then the client's connection is
    reset. *)
Definition broken_tunnel : World :=
  mkWorld reachable ∅ [Data connect_slashes; Data "ping"; RecvError] []
    [Data "pong"] [].

(** A tunnel once its request was read: the client sends [ping], the
    origin answers [pong], and the client closes its side. *)
Definition open_tunnel : World :=
  mkWorld reachable ∅ [Data "ping"] [] [Data "pong"] [].

Definition post_request_with_trailing_bytes : World :=
  world reachable ∅ post_with_trailing_bytes [Data response].

(** A POST with two length headers. *)
Definition post_two_lengths : bytes :=
  "POST " +:+ url +:+ " HTTP/1.1" +:+ CRLF +:+
  "Content-Length: 5" +:+ CRLF +:+
  "Content-Length: 3" +:+ CRLFCRLF +:+ "hello".

Definition post_request_with_two_lengths : World :=
  world reachable ∅ post_two_lengths [Data response].

(** A GET whose client is gone when the response comes back: every
    write to the client raises. *)
Definition client_gone : World :=
  world_with_client reachable ∅ get [false; false] [Data response].

(** A tunnel whose origin refuses the connection. *)
Definition refused_tunnel : World := mkWorld unreachable ∅ [] [] [] [].

(** A GET in origin form: the target is the path alone. *)
Definition root : bytes := "GET / HTTP/1.1" +:+ CRLFCRLF.
Definition root_request : World := world reachable ∅ root [].

(** A GET on an empty cache with the origin out of reach. *)
Definition unreachable_get : World := world unreachable ∅ get [].

(** A GET that hits a cache file which cannot be read. *)
Definition unreadable_cache : Oracle := mkOracle platform true true false Written.
Definition unreadable_get : World :=
  world unreadable_cache cache_after_first_get get [].

(** A GET whose target names a port. *)
Definition url_with_port : bytes := "http://example.com:8080/x".
Definition get_with_port : bytes :=
  "GET " +:+ url_with_port +:+ " HTTP/1.1" +:+ CRLFCRLF.
Definition get_with_port_request : World :=
  world reachable ∅ get_with_port [Data response].

(** A GET whose origin closes the connection without an answer. *)
Definition silent_origin : World := world reachable ∅ get [].

(** A POST whose length header is written in lower case. *)
Definition post_lower_case_length : bytes :=
  "POST " +:+ url +:+ " HTTP/1.1" +:+ CRLF +:+
  "content-length: 5" +:+ CRLFCRLF +:+ "hello".
Definition post_lower_case_request : World :=
  world reachable ∅ post_lower_case_length [Data response].

(** A GET whose response cannot be written in full: the write raises
    after ten bytes; and the GET that follows it. *)
Definition disk_full : Oracle :=
  mkOracle platform true true true (WriteFails "HTTP/1.1 2").
Definition truncated_store : World := world disk_full ∅ get [Data response].
Definition get_after_truncated_store : World :=
  world unreachable (fs (world_of (handle_client_request truncated_store))) get [].

(** A GET whose origin answers in two chunks and closes; what it would
    send after that is never read. *)
Definition chunked_get : World :=
  world reachable ∅ get
    [Data ("HTTP/1.1 200 OK" +:+ CRLFCRLF); Data "hello"; Data ""; Data "late"].

(** A client that connects and closes at once. *)
Definition silent_client : World := mkWorld reachable ∅ [] [] [] [].

Definition second_connection : Connection :=
  mkConnection ("192.0.2.2"%string, 50001) unreachable [Data get] [] [] [].

End Example.

(* ===================================================================== *)
(** * Properties of the cache key *)
(* ===================================================================== *)

Section CacheKey.

Lemma hex_length (bs : list Z) :
  String.length (MD5.hex bs) = (2 * List.length bs)%nat.
Proof.
  induction bs as [|b bs IH]; simpl; [reflexivity|].
  rewrite IH. lia.
Qed.

Lemma le_bytes_length (n : nat) (w : Z) : List.length (MD5.le_bytes n w) = n.
Proof.
  revert w. induction n as [|n IH]; intros w; simpl; [reflexivity|].
  now rewrite IH.
Qed.

Lemma le_bytes_range (n : nat) (w : Z) :
  Forall (fun b => 0 <= b < 256) (MD5.le_bytes n w).
Proof.
  revert w. induction n as [|n IH]; intros w; simpl; constructor.
  - apply Z.mod_pos_bound. lia.
  - apply IH.
Qed.

Lemma digest_length (msg : list Z) : List.length (MD5.digest msg) = 16%nat.
Proof.
  unfold MD5.digest. rewrite !length_app, !le_bytes_length. reflexivity.
Qed.

Lemma digest_range (msg : list Z) :
  Forall (fun b => 0 <= b < 256) (MD5.digest msg).
Proof.
  unfold MD5.digest. repeat (apply Forall_app; split); apply le_bytes_range.
Qed.

Lemma hex_digit_lower (n : Z) :
  0 <= n < 16 -> is_lower_hex (MD5.hex_digit n) = true.
Proof.
  intros Hn.
  assert (Hcases : exists k : nat, (k < 16)%nat /\ n = Z.of_nat k).
  { exists (Z.to_nat n). split; lia. }
  destruct Hcases as (k & Hk & ->).
  do 16 (destruct k as [|k]; [reflexivity|]). lia.
Qed.

Lemma hex_lower (bs : list Z) :
  Forall (fun b => 0 <= b < 256) bs -> all is_lower_hex (MD5.hex bs) = true.
Proof.
  induction 1 as [|b bs Hb _ IH]; simpl; [reflexivity|].
  rewrite !hex_digit_lower, IH; [reflexivity| |].
  - apply Z.mod_pos_bound. lia.
  - split; [apply Z.div_pos; lia | apply Z.div_lt_upper_bound; lia].
Qed.

Lemma hexdigest_format (u : bytes) :
  String.length (MD5.hexdigest u) = 32%nat /\
  all is_lower_hex (MD5.hexdigest u) = true.
Proof.
  unfold MD5.hexdigest. split.
  - rewrite hex_length, digest_length. reflexivity.
  - apply hex_lower, digest_range.
Qed.

(** C9.  The cache file of a target URL [u] is the file of the cache
    directory named by the MD5 digest of [u] in hexadecimal: thirty-two
    lower-case hexadecimal digits, a function of the text of [u] alone.
    The digest is the MD5 of RFC 1321 (its test vectors are reproduced),
    and the two URLs of the test suite get different files. *)
Theorem cache_filename_is_md5_hexdigest :
  (forall u, get_cache_filename u = "cache/" +:+ MD5.hexdigest u) /\
  (forall u, String.length (MD5.hexdigest u) = 32%nat /\
             all is_lower_hex (MD5.hexdigest u) = true) /\
  MD5.hexdigest "" = "d41d8cd98f00b204e9800998ecf8427e" /\
  MD5.hexdigest "abc" = "900150983cd24fb0d6963f7d28e17f72" /\
  MD5.hexdigest "message digest" = "f96b697d7cb7938d525a2f31aaf161d0" /\
  MD5.hexdigest "12345678901234567890123456789012345678901234567890123456789012345678901234567890"
    = "57edf4a22be3c955ac49da2e2107b67a" /\
  get_cache_filename "http://a.example/x" = "cache/3b0f361c22e1755442ab57b07ab1e3b9" /\
  get_cache_filename "http://a.example/y" = "cache/c753bb6cbe6914eb64fe9b7aa4c9f77e" /\
  get_cache_filename "http://a.example/x" <> get_cache_filename "http://a.example/y".
Proof.
  split; [reflexivity|].
  split; [exact hexdigest_format|].
  do 6 (split; [vm_compute; reflexivity|]).
  vm_compute. discriminate.
Qed.

End CacheKey.

(* ===================================================================== *)
(** * Running the handlers symbolically *)
(* ===================================================================== *)

(** The parsing functions stay folded while a handler is executed on a
    symbolic request. *)
Arguments split : simpl never.
Arguments split_ws : simpl never.
Arguments first_line : simpl never.
Arguments contains : simpl never.
Arguments strip : simpl never.
Arguments int_of_bytes : simpl never.
Arguments of_Z : simpl never.
Arguments decode : simpl never.
Arguments target_text : simpl never.
Arguments scan_headers : simpl never.
Arguments get_cache_filename : simpl never.
Arguments get_request : simpl never.
Arguments post_request : simpl never.
Arguments Url.urlparse : simpl never.
Arguments Url.urlparse_bytes : simpl never.
Arguments Url.hostname : simpl never.
Arguments Url.port : simpl never.
Arguments RESPONSE_200 : simpl never.
Arguments RESPONSE_400 : simpl never.
Arguments RESPONSE_405 : simpl never.
Arguments RESPONSE_500 : simpl never.
Arguments String.substring : simpl never.
Arguments nth_error : simpl never.

(** ** Byte strings and lists of events *)

Lemma append_nil_r (s : bytes) : s +:+ "" = s.
Proof.
  induction s as [|c s IH]; [reflexivity|].
  change (String c (s +:+ "") = String c s). f_equal. exact IH.
Qed.

Lemma append_assoc (a b c : bytes) : (a +:+ b) +:+ c = a +:+ (b +:+ c).
Proof.
  induction a as [|x a IH]; [reflexivity|].
  change (String x ((a +:+ b) +:+ c) = String x (a +:+ (b +:+ c))).
  f_equal. exact IH.
Qed.

Lemma is_empty_true (s : bytes) : is_empty s = true <-> s = ""%string.
Proof. destruct s; simpl; split; congruence. Qed.

Lemma is_empty_false (s : bytes) : is_empty s = false -> s <> ""%string.
Proof. destruct s; simpl; congruence. Qed.

Lemma decode_ok (b u : bytes) : decode b = Ok u -> u = b.
Proof. unfold decode. destruct (utf8_valid b); congruence. Qed.

Lemma forallb_weaken {A} (p q : A -> bool) (l : list A) :
  (forall x, p x = true -> q x = true) -> forallb p l = true -> forallb q l = true.
Proof.
  intros Hpq. induction l as [|x l IH]; simpl; [reflexivity|].
  intros [Hx Hl]%andb_prop. rewrite (Hpq _ Hx), (IH Hl). reflexivity.
Qed.

Lemma origin_received_app (l1 l2 : list event) :
  origin_received (l1 ++ l2) = origin_received l1 +:+ origin_received l2.
Proof.
  induction l1 as [|e l1 IH]; [reflexivity|].
  destruct e; cbn [app origin_received]; try exact IH.
  rewrite IH. symmetry. apply append_assoc.
Qed.

Lemma origin_received_logs (l : list event) :
  forallb is_log l = true -> origin_received l = ""%string.
Proof.
  induction l as [|e l IH]; [reflexivity|].
  destruct e; cbn; try discriminate. exact IH.
Qed.

Lemma client_view_app (t1 t2 : list event) :
  client_view (t1 ++ t2) = client_view t1 ++ client_view t2.
Proof. unfold client_view. apply List.filter_app. Qed.

Lemma client_view_quiet (t : list event) :
  forallb is_quiet t = true -> client_view t = [].
Proof.
  induction t as [|e t IH]; [reflexivity|]. cbn [forallb].
  intros [He Ht]%andb_prop. unfold client_view in *. cbn [List.filter].
  unfold is_quiet in He. apply andb_prop in He as [He _].
  apply negb_true_iff in He. rewrite He. auto.
Qed.

Lemma no_cache_no_store (t : list event) :
  forallb (fun e => negb (is_cache e)) t = true ->
  forall e, In e t -> is_store e = false.
Proof.
  intros Hall e Hin. rewrite forallb_forall in Hall. specialize (Hall _ Hin).
  destruct e; simpl in *; congruence.
Qed.

Lemma no_store_in (t : list event) (e : event) :
  forallb (fun e => negb (is_store e)) t = true ->
  In e t -> is_store e = true -> False.
Proof.
  intros Hall Hin He. rewrite forallb_forall in Hall.
  specialize (Hall _ Hin). rewrite He in Hall. discriminate.
Qed.

Lemma origin_writes_none (t : list event) :
  forallb (fun e => negb (is_origin_write e)) t = true -> origin_writes t = [].
Proof.
  induction t as [|e t IH]; [reflexivity|]. cbn [forallb].
  intros [He Ht]%andb_prop. destruct e; cbn in *; try discriminate; auto.
Qed.

Lemma keyed_by_spec (file : bytes) (t : list event) :
  forallb (keyed_by file) t = true ->
  forall e f, In e t -> cache_file_of e = Some f -> f = file.
Proof.
  intros Hall e f Hin Hf. rewrite forallb_forall in Hall.
  specialize (Hall _ Hin). unfold keyed_by in Hall. rewrite Hf in Hall.
  now apply String.eqb_eq.
Qed.

Lemma snoc_last {A} (x : A) : [x] = [] ++ [x].
Proof. reflexivity. Qed.

Lemma snoc_cons {A} (a x : A) (l t : list A) :
  l = t ++ [x] -> a :: l = (a :: t) ++ [x].
Proof. intros ->. reflexivity. Qed.

Lemma snoc_app {A} (x : A) (p l t : list A) :
  l = t ++ [x] -> p ++ l = (p ++ t) ++ [x].
Proof. intros ->. apply app_assoc. Qed.

(** ** Tactics *)

(** [l = ?t ++ [x]] for a right-nested [l] that ends in [x]. *)
Ltac snoc :=
  repeat lazymatch goal with
         | |- [?x] = _ ++ [?x] => exact (snoc_last x)
         | |- _ :: _ = _ ++ [_] => apply snoc_cons
         | |- _ ++ _ = _ ++ [_] => apply snoc_app
         end.

(** Lists built by the monad are brought to right-nested form. *)
Ltac norm_list := repeat (rewrite <- app_assoc || rewrite app_nil_r || cbn [app]).

(** The classes of events, unfolded on a constructor; the arguments of
    the event are left alone. *)
Ltac classes :=
  cbv beta iota delta
    [is_log is_quiet is_cache is_store is_client_write is_origin_recv
     is_relay is_close is_origin_write is_connect is_error keyed_by cache_file_of
     dials_to is_cache_read is_refused negb andb orb].

Ltac weaken H := revert H; apply forallb_weaken; intros []; classes; congruence.

(** [forallb p t = true] for a trace made of explicit events and of
    pieces known to lie in a smaller class. *)
Ltac events :=
  repeat first
    [ rewrite forallb_app
    | progress cbn [forallb andb]
    | rewrite String.eqb_refl
    | match goal with
      | H : forallb _ ?t = true |- context [forallb ?p ?t] =>
          replace (forallb p t) with true by (symmetry; weaken H)
      end ];
  classes; rewrite ?String.eqb_refl; reflexivity.

(** One step of the monad, at three depths: [exec_top] keeps the tunnel
    handler, the forwarder and the request builder folded, [exec] opens
    the forwarder, [exec_all] opens all of them. *)
Ltac exec_top :=
  cbv beta iota zeta delta
    [bind ret raise diverge get put emit lift try_except with_socket log
     client_recv client_sendall client_close origin_connect origin_wrap_tls
     origin_recv origin_sendall path_exists read_file write_file
     outcome_of world_of trace_of of_option fuel_for
     set_fs set_client_in set_client_out set_origin_in set_origin_out
     handle_client_request try_block unpack3];
  cbn [app env fs client_in client_out origin_in origin_out
       platform connect_ok tls_ok read_ok write_res fst snd List.hd List.tl
       String.eqb Ascii.eqb Bool.eqb Url.in_list existsb andb orb negb].

Ltac exec :=
  cbv beta iota zeta delta
    [bind ret raise diverge get put emit lift try_except with_socket log
     client_recv client_sendall client_close origin_connect origin_wrap_tls
     origin_recv origin_sendall path_exists read_file write_file
     outcome_of world_of trace_of of_option fuel_for
     set_fs set_client_in set_client_out set_origin_in set_origin_out
     handle_client_request try_block forward store_response unpack3];
  cbn [app env fs client_in client_out origin_in origin_out
       platform connect_ok tls_ok read_ok write_res fst snd List.hd List.tl
       String.eqb Ascii.eqb Bool.eqb Url.in_list existsb andb orb negb].

Ltac exec_all :=
  cbv beta iota zeta delta
    [bind ret raise diverge get put emit lift try_except with_socket log
     client_recv client_sendall client_close origin_connect origin_wrap_tls
     origin_recv origin_sendall path_exists read_file write_file
     outcome_of world_of trace_of of_option fuel_for
     set_fs set_client_in set_client_out set_origin_in set_origin_out
     handle_client_request try_block forward store_response unpack3
     handle_https_request build_request raises];
  cbn [app env fs client_in client_out origin_in origin_out
       platform connect_ok tls_ok read_ok write_res fst snd List.hd List.tl
       String.eqb Ascii.eqb Bool.eqb Url.in_list existsb andb orb negb].

(** Case analysis on the innermost scrutinee that blocks the run; the
    loops and the folded blocks are left to their own lemmas. *)
Ltac branch :=
  match goal with
  | |- context [match ?x with _ => _ end] =>
      lazymatch x with
      | context [match _ with _ => _ end] => fail
      | context [relay_loop] => fail
      | context [recv_loop] => fail
      | context [build_request] => fail
      | context [log_status] => fail
      | context [forward] => fail
      | context [handle_https_request] => fail
      | _ => destruct x eqn:?
      end
  end.


Ltac decode_norm :=
  match goal with
  | H : decode ?b = Ok ?u |- _ =>
      is_var u; let E := fresh in
      assert (E := decode_ok _ _ H); subst u
  end.

(** ** The loops *)

(** The gathering loop reads the origin socket and nothing else, returns
    what it read after the accumulator, and ends within its fuel. *)
Lemma recv_loop_run fuel : forall acc w,
  exists o oi' t,
    recv_loop fuel acc w = (o, set_origin_in oi' w, t) /\
    forallb is_origin_recv t = true /\
    (forall resp, o = Returns resp -> resp = acc +:+ origin_received t) /\
    ((List.length (origin_in w) < fuel)%nat -> o <> Diverges).
Proof.
  induction fuel as [|fuel IH]; intros acc w.
  - exists Diverges, (origin_in w), []. destruct w; repeat split; try reflexivity.
    + discriminate.
    + lia.
  - destruct w as [e f ci co oi oo]. cbn.
    destruct oi as [|[d|] oi]; cbn.
    + eexists _, _, _. repeat split; try reflexivity; try discriminate.
      intros resp [= <-]. cbn. now rewrite append_nil_r.
    + destruct (is_empty d) eqn:Hd; cbn.
      * apply is_empty_true in Hd. subst d.
        eexists _, _, _. repeat split; try reflexivity; try discriminate.
        intros resp [= <-]. cbn. now rewrite append_nil_r.
      * destruct (IH (acc +:+ d) (mkWorld e f ci co oi oo))
          as (o & oi' & t & Hrun & Ht & Hres & Hnd).
        unfold set_origin_in in *. cbn in *. rewrite Hrun.
        eexists _, _, _. repeat split; try reflexivity.
        -- cbn. exact Ht.
        -- intros resp ->. cbn. rewrite <- append_assoc. now apply Hres.
        -- intros Hlen. apply Hnd. lia.
    + eexists _, _, _. repeat split; try reflexivity; discriminate.
Qed.

(** The copy loop of the tunnel touches the two sockets only and ends
    within its fuel.  When it returns, the client has been sent the
    non-empty chunks read from the origin, in order; when it raises, one
    of its calls raised. *)
Lemma relay_loop_run fuel : forall w,
  exists o w' t,
    relay_loop fuel w = (o, w', t) /\
    forallb is_relay t = true /\ env w' = env w /\ fs w' = fs w /\
    ((List.length (client_in w) < fuel)%nat -> o <> Diverges) /\
    (o = Returns tt -> client_sent t = origin_chunks t) /\
    (forall ex, o = Raises ex -> forallb (fun e => negb (is_error e)) t = false).
Proof.
  induction fuel as [|fuel IH]; intros w.
  - exists Diverges, w, []. repeat split; try discriminate. lia.
  - destruct w as [e f ci co oi oo]. cbn.
    destruct ci as [|[d|] ci]; cbn;
      try (eexists _, _, _; repeat split; (discriminate || reflexivity)).
    destruct (is_empty d); cbn;
      try (eexists _, _, _; repeat split; discriminate).
    destruct oo as [|[] oo]; cbn;
      try (eexists _, _, _; repeat split; (discriminate || reflexivity)).
    all: destruct oi as [|[d'|] oi]; cbn;
      try (eexists _, _, _; repeat split; (discriminate || reflexivity)).
    all: destruct (is_empty d') eqn:Hd'; cbn;
      try (eexists _, _, _; repeat split; try discriminate;
           cbn; rewrite ?Hd'; reflexivity).
    all: destruct co as [|[] co]; cbn;
      try (eexists _, _, _; repeat split; (discriminate || reflexivity)).
    all: match goal with |- context [relay_loop _ ?w] =>
           destruct (IH w) as (o & w' & t & -> & Ht & He & Hf & Hd & Hs & Herr) end;
         cbn in *; eexists _, _, _; repeat split; try reflexivity; try assumption.
    all: try (intros Hlen; apply Hd; lia).
    all: try (intros Ho; cbn; rewrite Hd'; f_equal; apply Hs; exact Ho).
    all: intros ex Ho; apply (Herr ex Ho).
Qed.

(** ** The blocks of the forwarder *)

Ltac close_run :=
  eexists _, _; split; [reflexivity | split; [reflexivity | discriminate]].

Lemma build_request_run m req path host w :
  exists o t, build_request m req path host w = (o, w, t) /\
              forallb is_log t = true /\ o <> Diverges.
Proof.
  unfold build_request.
  destruct (String.eqb m "GET"); [close_run|].
  destruct (String.eqb m "POST"); [|close_run].
  cbn. destruct (scan_headers _ 0) as [n|e]; cbn; [|close_run].
  destruct (0 <? n)%Z; cbn; [|close_run].
  destruct (nth_error _ _); cbn; close_run.
Qed.

Lemma log_status_run resp w :
  exists t, log_status resp w = (Returns tt, w, t) /\ forallb is_log t = true.
Proof.
  unfold log_status.
  repeat (match goal with |- context [if ?c then _ else _] => destruct c end);
    eexists; split; reflexivity.
Qed.

(** A folded loop or block in the goal is replaced by its outcome. *)
Ltac block_step :=
  match goal with
  | |- context [build_request ?m ?r ?p ?h ?w] =>
      let o := fresh "o" in let t := fresh "tb" in
      let Ht := fresh "Htb" in let Hd := fresh "Hnd" in
      destruct (build_request_run m r p h w) as (o & t & -> & Ht & Hd);
      destruct o; [| |congruence]
  | |- context [recv_loop ?n ?a ?w] =>
      let o := fresh "o" in let oi := fresh "oi" in let t := fresh "tr" in
      let Ht := fresh "Htr" in let Hr := fresh "Hresp" in
      let Hd := fresh "Hfuel" in
      destruct (recv_loop_run n a w) as (o & oi & t & -> & Ht & Hr & Hd);
      destruct o;
      [ specialize (Hr _ eq_refl); clear Hd
      | clear Hr Hd
      | exfalso; apply Hd; [cbn; lia | reflexivity] ]
  | |- context [log_status ?r ?w] =>
      let t := fresh "tlog" in let Ht := fresh "Htlog" in
      destruct (log_status_run r w) as (t & -> & Ht)
  | |- context [relay_loop ?n ?w] =>
      let o := fresh "o" in let w' := fresh "w'" in let t := fresh "trel" in
      let Ht := fresh "Htrel" in let He := fresh "He" in let Hf := fresh "Hf" in
      let Hd := fresh "Hfuel" in let Hs := fresh "Hsent" in
      let Hr := fresh "Hraised" in
      let e' := fresh "e'" in let f' := fresh "f'" in let ci' := fresh "ci'" in
      let co' := fresh "co'" in let oi' := fresh "oi'" in let oo' := fresh "oo'" in
      destruct (relay_loop_run n w)
        as (o & w' & t & -> & Ht & He & Hf & Hd & Hs & Hr);
      destruct w' as [e' f' ci' co' oi' oo']; cbn [env fs] in He, Hf; subst;
      destruct o as [[]| |];
      [ specialize (Hs eq_refl); clear Hd Hr
      | specialize (Hr _ eq_refl); clear Hs Hd
      | exfalso; apply Hd; [cbn; lia | reflexivity] ]
  end.

(** ** The tunnel handler *)

(** Every run of [handle_https_request] ends, leaves the cache alone,
    and closes the client connection, once and last, exactly when it
    returns. *)
Lemma https_run m url w :
  exists o w' t,
    handle_https_request m url w = (o, w', t) /\
    forallb (fun e => negb (is_cache e)) t = true /\
    fs w' = fs w /\
    o <> Diverges /\
    match o with
    | Returns _ =>
        exists t', t = t' ++ [ClientClose] /\
                   forallb (fun e => negb (is_close e)) t' = true
    | _ => forallb (fun e => negb (is_close e)) t = true
    end.
Proof.
  destruct w as [[pf cok tok rok wr] f ci co oi oo].
  repeat (exec_all; first [block_step | branch]).
  all: exec_all.
  all: eexists _, _, _; split; [reflexivity|].
  all: split; [events|]; split; [reflexivity|]; split; [discriminate|].
  all: try (events; fail).
  all: norm_list; eexists; split; [snoc | events].
Qed.

(** ** The forwarder *)

(** A run of the forwarder for a GET or POST either raises before the
    reply, having touched neither the client socket nor the cache, or
    reaches the reply: the response gathered from the origin is stored
    when it is not empty, then written to the client, and the outcome is
    the outcome of that write. *)
Lemma forward_run m url req path host file w :
  Url.in_list m ["GET"; "POST"]%string = true ->
  decode url = Ok url ->
  exists o w' t,
    forward m url req path host file w = (o, w', t) /\
    env w' = env w /\ client_in w' = client_in w /\
    ((exists e, o = Raises e) /\ fs w' = fs w /\ client_out w' = client_out w /\
     forallb is_quiet t = true
     \/
     exists t1 send,
       let resp := origin_received t1 in
       t = t1 ++ store_trace (write_res (env w)) url file resp ++ [send; OriginClose] /\
       forallb is_quiet t1 = true /\
       fs w' = store_fs (write_res (env w)) file resp (fs w) /\
       client_out w' = tl (client_out w) /\
       (send = ClientSend resp /\ hd true (client_out w) = true /\ o = Returns tt \/
        send = ClientSendErr resp /\ hd true (client_out w) = false /\ o = Raises OSError)).
Proof.
  intros Hm Hdec. cbn [Url.in_list existsb] in Hm.
  destruct w as [[pf cok tok rok wr] f ci co oi oo].
  exec. rewrite Hm.
  destruct cok; exec.
  2: { eexists _, _, _; repeat split. left. repeat split. eexists; reflexivity. }
  block_step; exec.
  2: { eexists _, _, _; repeat split. left. repeat split; [eexists; reflexivity|events]. }
  destruct oo as [|[] oo]; exec.
  3: { eexists _, _, _; repeat split. left. repeat split; [eexists; reflexivity|events]. }
  all: block_step; exec.
  2, 4: eexists _, _, _; repeat split; left; repeat split; [eexists; reflexivity|events].
  all: change ("" +:+ origin_received tr) with (origin_received tr) in Hresp; subst.
  all: block_step; exec; rewrite Hdec; exec.
  all: match goal with |- context [OriginSend ?full :: _] =>
         set (t1 := OriginConnect host 80 :: Log INFO (MsgConnected host)
                      :: tb ++ OriginSend full :: tr ++ tlog)
       end.
  all: assert (Hrecv : origin_received t1 = origin_received tr)
         by (subst t1; cbn [origin_received]; rewrite origin_received_app;
             rewrite (origin_received_logs tb) by assumption;
             cbn [origin_received]; rewrite origin_received_app;
             rewrite (origin_received_logs tlog) by assumption;
             rewrite append_nil_r; reflexivity).
  all: assert (Hq : forallb is_quiet t1 = true) by (subst t1; events).
  all: destruct (is_empty (origin_received tr)) eqn:Hemp; exec.
  all: destruct wr; exec.
  all: destruct co as [|[] co]; exec.
  all: eexists _, _, _; split; [reflexivity|]; split; [reflexivity|]; split; [reflexivity|].
  all: right; exists t1; eexists; cbv zeta; rewrite Hrecv;
       unfold store_trace, store_fs, store_events; rewrite Hemp;
       cbn [write_res env fs client_out List.tl List.hd].
  all: split; [subst t1; norm_list; reflexivity|].
  all: split; [exact Hq|]; split; [reflexivity|]; split; [reflexivity|].
  all: first [left; repeat split; reflexivity | right; repeat split; reflexivity].
Qed.

Ltac forward_step :=
  match goal with
  | |- context [forward ?m ?url ?req ?path ?host ?file ?w] =>
      let o := fresh "o" in let w' := fresh "w'" in let t := fresh "tf" in
      let He := fresh "Henv" in let Hc := fresh "Hcin" in let Hcase := fresh "Hfwd" in
      let e' := fresh "e'" in let f' := fresh "f'" in let ci' := fresh "ci'" in
      let co' := fresh "co'" in let oi' := fresh "oi'" in let oo' := fresh "oo'" in
      destruct (forward_run m url req path host file w) as (o & w' & t & -> & He & Hc & Hcase);
      [ cbn [Url.in_list existsb]; apply negb_false_iff; assumption
      | assumption
      | destruct w' as [e' f' ci' co' oi' oo']; cbn [env client_in] in He, Hc; subst ]
  end.

Ltac https_step :=
  match goal with
  | |- context [handle_https_request ?m ?u ?w] =>
      let o := fresh "o" in let w' := fresh "w'" in let t := fresh "th" in
      let Ht := fresh "Hth" in let Hf := fresh "Hf" in
      let Hd := fresh "Hdiv" in let Hc := fresh "Hclose" in
      let e' := fresh "e'" in let f' := fresh "f'" in let ci' := fresh "ci'" in
      let co' := fresh "co'" in let oi' := fresh "oi'" in let oo' := fresh "oo'" in
      destruct (https_run m u w) as (o & w' & t & -> & Ht & Hf & Hd & Hc);
      destruct w' as [e' f' ci' co' oi' oo']; cbn [fs] in Hf; subst;
      destruct o as [[]|?|]; [| |congruence]
  end.

Lemma tokens_empty : split_ws (first_line "") = [].
Proof. reflexivity. Qed.

(** The dispatcher, run down to the tunnel handler and the forwarder. *)
Ltac run_top :=
  repeat (exec_top; rewrite ?tokens_empty;
          first [decode_norm | https_step | forward_step | branch]);
  exec_top.

(** The two cases of [forward_run], with the outcome they allow. *)
Ltac fwd_cases :=
  match goal with
  | H : (exists _, _ = Raises _) /\ _ \/ _ |- _ =>
      let t1 := fresh "t1" in let send := fresh "send" in
      let ex := fresh "ex" in let Hex := fresh "Hex" in
      let Hfs := fresh "Hfs" in let Hco := fresh "Hco" in let Hq := fresh "Hq" in
      let Htf := fresh "Htf" in let Hsend := fresh "Hsend" in
      let Hs := fresh "Hs" in let Hhd := fresh "Hhd" in let Ho := fresh "Ho" in
      destruct H as [([ex Hex] & Hfs & Hco & Hq)
                    | (t1 & send & Htf & Hq & Hfs & Hco & Hsend)];
      [ try discriminate Hex
      | cbv zeta in Htf, Hfs, Hsend;
        destruct Hsend as [(Hs & Hhd & Ho) | (Hs & Hhd & Ho)]; try discriminate Ho ]
  end.

(** ** The store step, found in a trace *)

(** A run whose trace holds a store event is a GET or POST whose target
    resolved and whose origin answered with a non-empty response: the
    trace is what preceded, the store step, the write to the client and
    what followed, and the cache directory has changed by that store
    step alone. *)
Lemma store_inversion w e :
  is_store e = true ->
  In e (trace_of (handle_client_request w)) ->
  exists req rest m url ver host path t1 send t2,
    let resp := origin_received t1 in
    let file := get_cache_filename url in
    client_in w = Data req :: rest /\
    split_ws (first_line req) = [m; url; ver] /\
    Url.in_list m ["GET"; "POST"]%string = true /\
    target_of (platform (env w)) url = Some (host, path) /\
    resp <> ""%string /\
    forallb is_quiet t1 = true /\
    trace_of (handle_client_request w) =
      t1 ++ Log INFO (MsgStoring url)
         :: store_events (write_res (env w)) file resp ++ send :: OriginClose :: t2 /\
    fs (world_of (handle_client_request w)) =
      store_fs (write_res (env w)) file resp (fs w) /\
    forallb (fun e => negb (is_cache e)) t2 = true /\
    (send = ClientSend resp /\ hd true (client_out w) = true /\
     t2 = [ClientClose] /\ outcome_of (handle_client_request w) = Returns tt
     \/
     send = ClientSendErr resp /\ hd true (client_out w) = false).
Proof.
  intros He.
  destruct w as [[pf cok tok rok wr] f ci co oi oo].
  run_top.
  all: try fwd_cases.
  all: intros Hin.
  all: try (exfalso; refine (no_store_in _ _ _ Hin He); events; fail).
  all: cbn [write_res env fs client_out] in *; subst.
  all: destruct (is_empty (origin_received t1)) eqn:Hemp;
       [ exfalso; unfold store_trace in Hin; rewrite Hemp in Hin;
         refine (no_store_in _ _ _ Hin He); events |].
  all: unfold store_trace; rewrite Hemp; clear Hin.
  all: match goal with
       | |- context [ClientRecv ?req :: ?lg :: _] =>
           exists req; do 6 eexists; exists (ClientRecv req :: lg :: t1); do 2 eexists
       end.
  all: cbv zeta; cbn [origin_received].
  all: split; [reflexivity|].
  all: split; [eassumption|].
  all: split; [cbn [Url.in_list existsb]; apply negb_false_iff; assumption|].
  all: split; [unfold target_of;
               repeat match goal with
                      | H : target_text _ = Ok _ |- _ => rewrite H; clear H
                      | H : Url.urlparse _ _ = Ok _ |- _ => rewrite H; clear H
                      | H : Url.hostname _ _ = Some _ |- _ => rewrite H; clear H
                      end; reflexivity|].
  all: split; [apply is_empty_false; assumption|].
  all: split; [events|].
  all: split; [norm_list; reflexivity|].
  all: split; [reflexivity|].
  all: split; [events|].
  all: first [ left; repeat split; (reflexivity || assumption)
             | right; repeat split; (reflexivity || assumption) ].
Qed.

(* ===================================================================== *)
(** * The dispatcher: how a run ends *)
(* ===================================================================== *)


(* ===================================================================== *)
(** * The cache store *)
(* ===================================================================== *)

Lemma target_text_decode (url text : bytes) :
  target_text url = Ok text -> decode url = Ok url.
Proof.
  unfold target_text. destruct (decode url) as [u|e] eqn:Hd.
  - rewrite (decode_ok _ _ Hd). reflexivity.
  - destruct (startswith url "http"); discriminate.
Qed.

Lemma target_of_decode (pf : Url.Platform) (url host path : bytes) :
  target_of pf url = Some (host, path) -> decode url = Ok url.
Proof.
  unfold target_of. destruct (target_text url) eqn:Ht; [|discriminate].
  intros _. eapply target_text_decode; eassumption.
Qed.

Lemma in_list_get_post (m : bytes) :
  Url.in_list m ["GET"; "POST"]%string = true -> m = "GET"%string \/ m = "POST"%string.
Proof.
  unfold Url.in_list. cbn [existsb]. rewrite orb_false_r.
  intros [H|H]%orb_prop; apply String.eqb_eq in H; auto.
Qed.

(** A GET whose target resolves and whose cache file exists and can be
    read is answered from the file. *)
Lemma cache_hit_run w req rest url ver host path payload :
  client_in w = Data req :: rest ->
  split_ws (first_line req) = ["GET"; url; ver]%string ->
  target_of (platform (env w)) url = Some (host, path) ->
  fs w !! get_cache_filename url = Some payload ->
  read_ok (env w) = true ->
  hd true (client_out w) = true ->
  handle_client_request w =
    (Returns tt,
     set_client_out (tl (client_out w)) (set_client_in rest w),
     [ClientRecv req; Log DEBUG (MsgReceived req); Log INFO (MsgCacheHit url);
      CacheRead (get_cache_filename url); ClientSend payload; ClientClose]).
Proof.
  intros Hci Htok Htgt Hfs Hrd Hhd.
  assert (Hdec := target_of_decode _ _ _ _ Htgt).
  destruct w as [[pf cok tok rok wr] f ci co oi oo].
  cbn [client_in env platform fs read_ok client_out] in *. subst ci rok.
  unfold target_of in Htgt.
  exec_top. rewrite Htok. exec_top.
  destruct (target_text url) as [text|]; [|discriminate]. exec_top.
  destruct (Url.urlparse pf text) as [r|]; [|discriminate]. exec_top.
  destruct (Url.hostname pf r) as [[|c h]|]; try discriminate. exec_top.
  rewrite Hdec. exec_top. rewrite Hfs.
  replace (bool_decide (is_Some (Some payload))) with true
    by (symmetry; apply bool_decide_eq_true; eauto).
  exec_top. rewrite Hfs. exec_top.
  destruct co as [|[] co]; try discriminate; exec_top; reflexivity.
Qed.

Lemma store_fs_lookup (file response : bytes) (f : gmap string bytes) :
  response <> ""%string ->
  store_fs Written file response f !! file = Some response.
Proof.
  intros Hne. unfold store_fs. destruct response; [congruence|].
  cbn [is_empty]. apply lookup_insert_eq.
Qed.

(** What a run stored: a [CacheWrite] event of a run is the store step
    of a GET or POST whose target resolved, it carries the bytes gathered
    from the origin, and the file holds them when the run ends. *)
Lemma stored_response w req rest m url ver f payload :
  client_in w = Data req :: rest ->
  split_ws (first_line req) = [m; url; ver] ->
  In (CacheWrite f payload) (trace_of (handle_client_request w)) ->
  (m = "GET"%string \/ m = "POST"%string) /\
  (exists host path, target_of (platform (env w)) url = Some (host, path)) /\
  f = get_cache_filename url /\
  payload <> ""%string /\
  fs (world_of (handle_client_request w)) !! f = Some payload.
Proof.
  intros Hci Htok Hin.
  destruct (store_inversion w (CacheWrite f payload) eq_refl Hin)
    as (req' & rest' & m' & url' & ver' & host & path & t1 & send & t2 & H).
  cbv zeta in H.
  destruct H as (Hci' & Htok' & Hm & Htgt & Hresp & Hq & Htr & Hfs & Ht2 & Hsend).
  rewrite Hci in Hci'. injection Hci' as <- <-.
  rewrite Htok in Htok'. injection Htok' as <- <- <-.
  assert (Hwr : write_res (env w) = Written /\ f = get_cache_filename url /\
                payload = origin_received t1).
  { rewrite Htr in Hin. apply in_app_or in Hin as [Hin|Hin].
    - rewrite forallb_forall in Hq. specialize (Hq _ Hin). discriminate.
    - destruct Hin as [Hin|Hin]; [discriminate|].
      apply in_app_or in Hin as [Hin|Hin].
      + destruct (write_res (env w)); simpl in Hin;
          destruct Hin as [Hin|[Hin|[]]]; try discriminate.
        injection Hin as <- <-. auto.
      + destruct Hin as [Hin|[Hin|Hin]].
        * destruct Hsend as [(-> & _)|(-> & _)]; discriminate.
        * discriminate.
        * apply (no_cache_no_store _ Ht2) in Hin. discriminate. }
  destruct Hwr as (Hwr & -> & ->).
  split; [apply in_list_get_post; exact Hm|].
  split; [eauto|]. split; [reflexivity|]. split; [exact Hresp|].
  rewrite Hfs, Hwr. apply store_fs_lookup. exact Hresp.
Qed.

(** C1 (amended).  When a first request, GET or POST, for a target URL
    stored the origin's response in the cache, a following GET for the
    same URL that finds the cache as the first run left it is answered
    with the stored bytes and nothing else, the connection is closed,
    and no connection to an origin is attempted, whatever the origin's
    state.  (The stored file must be readable and the client must accept
    the write.) *)
Theorem second_get_is_served_from_cache
    (w1 w2 : World) (req1 req2 : bytes) (rest1 rest2 : list recv_result)
    (m1 url ver1 ver2 f payload : bytes) :
  client_in w1 = Data req1 :: rest1 ->
  split_ws (first_line req1) = [m1; url; ver1] ->
  In (CacheWrite f payload) (trace_of (handle_client_request w1)) ->
  fs w2 = fs (world_of (handle_client_request w1)) ->
  platform (env w2) = platform (env w1) ->
  client_in w2 = Data req2 :: rest2 ->
  split_ws (first_line req2) = ["GET"%string; url; ver2] ->
  read_ok (env w2) = true ->
  hd true (client_out w2) = true ->
  (m1 = "GET"%string \/ m1 = "POST"%string) /\
  payload <> ""%string /\
  outcome_of (handle_client_request w2) = Returns tt /\
  trace_of (handle_client_request w2) =
    [ClientRecv req2; Log DEBUG (MsgReceived req2); Log INFO (MsgCacheHit url);
     CacheRead (get_cache_filename url); ClientSend payload; ClientClose] /\
  client_sent (trace_of (handle_client_request w2)) = [payload] /\
  origin_contacted (trace_of (handle_client_request w2)) = false.
Proof.
  intros Hci1 Htok1 Hin Hfs Hpf Hci2 Htok2 Hrd Hhd.
  destruct (stored_response _ _ _ _ _ _ _ _ Hci1 Htok1 Hin)
    as (Hm & (host & path & Htgt) & -> & Hne & Hlook).
  rewrite <- Hpf in Htgt. rewrite <- Hfs in Hlook.
  rewrite (cache_hit_run _ _ _ _ _ _ _ _ Hci2 Htok2 Htgt Hlook Hrd Hhd).
  repeat split; assumption.
Qed.

(** C6.  In every run of the dispatcher in which writing the cache file
    raises, the failure is followed by its log entry and then by the
    write to the client of exactly the bytes gathered from the origin,
    which are not empty; nothing was written to the client before, and
    when that write succeeds the client has received the origin's
    response and nothing else, the connection is closed and the
    dispatcher returns. *)
Theorem cache_write_failure_is_only_logged (w : World) (f : bytes) :
  In (CacheWriteErr f) (trace_of (handle_client_request w)) ->
  exists t1 send t2,
    let response := origin_received t1 in
    trace_of (handle_client_request w) =
      t1 ++ [CacheWriteErr f; Log ERROR (MsgSaveError OSError); send] ++ t2 /\
    response <> ""%string /\
    client_view t1 = [] /\
    (send = ClientSend response \/ send = ClientSendErr response) /\
    (hd true (client_out w) = true ->
       send = ClientSend response /\
       client_view (trace_of (handle_client_request w)) =
         [ClientSend response; ClientClose] /\
       outcome_of (handle_client_request w) = Returns tt).
Proof.
  intros Hin.
  destruct (store_inversion w (CacheWriteErr f) eq_refl Hin)
    as (req & rest & m & url & ver & host & path & t1 & send & t2 & H).
  cbv zeta in H.
  destruct H as (Hci & Htok & Hm & Htgt & Hresp & Hq & Htr & Hfs & Ht2 & Hsend).
  assert (Hwr : store_events (write_res (env w)) (get_cache_filename url)
                  (origin_received t1)
                = [CacheWriteErr f; Log ERROR (MsgSaveError OSError)]).
  { rewrite Htr in Hin. apply in_app_or in Hin as [Hin|Hin].
    - rewrite forallb_forall in Hq. specialize (Hq _ Hin). discriminate.
    - destruct Hin as [Hin|Hin]; [discriminate|].
      apply in_app_or in Hin as [Hin|Hin].
      + destruct (write_res (env w)); simpl in Hin;
          destruct Hin as [Hin|[Hin|[]]]; try discriminate;
          injection Hin as ->; reflexivity.
      + destruct Hin as [Hin|[Hin|Hin]].
        * destruct Hsend as [(-> & _)|(-> & _)]; discriminate.
        * discriminate.
        * apply (no_cache_no_store _ Ht2) in Hin. discriminate. }
  rewrite Hwr in Htr.
  exists (t1 ++ [Log INFO (MsgStoring url)]), send, (OriginClose :: t2).
  cbv zeta. rewrite origin_received_app. cbn [origin_received].
  rewrite append_nil_r.
  split; [rewrite Htr; norm_list; reflexivity|].
  split; [exact Hresp|].
  split; [rewrite client_view_app, client_view_quiet by assumption; reflexivity|].
  split; [destruct Hsend as [(-> & _)|(-> & _)]; auto|].
  intros Hhd. destruct Hsend as [(-> & _ & -> & Ho)|(_ & Hhd')]; [|congruence].
  split; [reflexivity|]. split; [|exact Ho].
  rewrite Htr, client_view_app, client_view_quiet by assumption. reflexivity.
Qed.

(* ===================================================================== *)
(** * Rejected requests *)
(* ===================================================================== *)



(* ===================================================================== *)
(** * The request written to the origin *)
(* ===================================================================== *)

Lemma mem_append (c : ascii) (a b : bytes) :
  mem c (a +:+ b) = mem c a || mem c b.
Proof.
  induction a as [|x a IH]; [reflexivity|].
  change (String x a +:+ b) with (String x (a +:+ b)).
  cbn [mem]. rewrite IH. apply orb_assoc.
Qed.

Lemma partition_before (c : ascii) (s : bytes) :
  mem c (fst (fst (partition c s))) = false.
Proof.
  induction s as [|d s IH]; [reflexivity|]. cbn [partition].
  destruct (Ascii.eqb c d) eqn:Hcd; [reflexivity|].
  destruct (partition c s) as [[a found] b]. cbn [fst mem] in *.
  rewrite Hcd, IH. reflexivity.
Qed.

Lemma partition_mem (c d : ascii) (s : bytes) :
  mem d s = false ->
  mem d (fst (fst (partition c s))) = false /\ mem d (snd (partition c s)) = false.
Proof.
  induction s as [|x s IH]; [auto|]. cbn [mem partition].
  intros [Hx Hs]%orb_false_elim.
  destruct (Ascii.eqb c x); [cbn; auto|].
  destruct (partition c s) as [[a found] b]. cbn [fst snd mem] in *.
  destruct (IH Hs) as [Ha Hb]. rewrite Hx, Ha. auto.
Qed.

Lemma rpartition_mem (c d : ascii) (s : bytes) :
  mem d s = false ->
  mem d (fst (fst (rpartition c s))) = false /\ mem d (snd (rpartition c s)) = false.
Proof.
  induction s as [|x s IH]; [auto|]. cbn [mem rpartition].
  intros [Hx Hs]%orb_false_elim.
  destruct (rpartition c s) as [[a found] b]. cbn [fst snd] in *.
  destruct (IH Hs) as [Ha Hb].
  destruct found; cbn [fst snd mem]; [rewrite Hx, Ha; auto|].
  destruct (Ascii.eqb c x); cbn [fst snd mem]; [auto|].
  rewrite Hx, Hb. auto.
Qed.

Lemma splitparams_mem (d : ascii) (s : bytes) :
  Ascii.eqb d "/" = false ->
  mem d s = false -> mem d (fst (Url.splitparams s)) = false.
Proof.
  intros Hd Hs. unfold Url.splitparams.
  destruct (rpartition_mem "/" d s Hs) as [Ha Hb].
  destruct (rpartition "/" s) as [[dir has_slash] last]. cbn [fst snd] in *.
  destruct has_slash.
  - destruct (partition_mem ";" d last Hb) as [Hc _].
    destruct (partition ";" last) as [[seg has_semi] prm]. cbn [fst snd] in *.
    destruct has_semi; cbn [fst]; [|assumption].
    rewrite !mem_append, Ha, Hc. cbn [mem]. rewrite Hd. reflexivity.
  - destruct (partition_mem ";" d s Hs) as [Hc _].
    destruct (partition ";" s) as [[seg f] prm]. exact Hc.
Qed.

Lemma urlsplit_path (pf : Url.Platform) (text : bytes) (r : Url.ParseResult) :
  Url.urlsplit pf text = Ok r ->
  mem "?" (Url.path r) = false /\ mem "#" (Url.path r) = false.
Proof.
  unfold Url.urlsplit. intros H.
  repeat match type of H with
         | context [match ?x with _ => _ end] =>
             lazymatch x with
             | context [match _ with _ => _ end] => fail
             | _ => destruct x eqn:?
             end
         end; try discriminate H.
  all: injection H as <-; cbn [Url.path].
  all: match goal with
       | Hf : partition "#" ?u = (?a, _, _), Hq : partition "?" ?a = (?p, _, _)
         |- mem _ ?p = false /\ _ =>
           pose proof (partition_before "#" u) as Hh; rewrite Hf in Hh;
           pose proof (partition_before "?" a) as Hq'; rewrite Hq in Hq';
           pose proof (partition_mem "?" "#" a Hh) as [Hh' _]; rewrite Hq in Hh';
           cbn [fst] in *; auto
       end.
Qed.

Lemma urlparse_path (pf : Url.Platform) (text : bytes) (r : Url.ParseResult) :
  Url.urlparse pf text = Ok r ->
  mem "?" (Url.path r) = false /\ mem "#" (Url.path r) = false.
Proof.
  unfold Url.urlparse. destruct (Url.urlsplit pf text) as [r0|] eqn:Hs; [|discriminate].
  destruct (urlsplit_path _ _ _ Hs) as [Hq Hh].
  destruct (_ && _); [|intros [= <-]; auto].
  pose proof (splitparams_mem "?" (Url.path r0) eq_refl Hq).
  pose proof (splitparams_mem "#" (Url.path r0) eq_refl Hh).
  destruct (Url.splitparams (Url.path r0)) as [u prm].
  intros [= <-]. cbn [Url.path fst] in *. auto.
Qed.

(** C10.  When a GET whose target resolves to a host misses the cache
    and the origin accepts the connection, the one thing written to the
    origin is a request whose first line carries the path component of
    the parsed target, or a slash when that path is empty.  The path holds
    neither a question mark nor a hash sign, so a query in the client's
    target does not reach the origin; the cache files the run touches
    are all the file named after the whole target text, query
    included. *)
Theorem get_forwards_the_path_without_the_query
    (w : World) (req : bytes) (rest : list recv_result)
    (url ver text host : bytes) (r : Url.ParseResult) :
  client_in w = Data req :: rest ->
  split_ws (first_line req) = ["GET"%string; url; ver] ->
  target_text url = Ok text ->
  Url.urlparse (platform (env w)) text = Ok r ->
  Url.hostname (platform (env w)) r = Some host ->
  host <> ""%string ->
  fs w !! get_cache_filename url = None ->
  connect_ok (env w) = true ->
  let path := if is_empty (Url.path r) then "/"%string else Url.path r in
  origin_writes (trace_of (handle_client_request w)) =
    ["GET " +:+ path +:+ " HTTP/1.1" +:+ CRLF +:+
     "Host: " +:+ host +:+ CRLF +:+
     "Connection: close" +:+ CRLF +:+ CRLF] /\
  mem "?" path = false /\
  mem "#" path = false /\
  (forall e f, In e (trace_of (handle_client_request w)) ->
               cache_file_of e = Some f -> f = get_cache_filename url).
Proof.
  intros Hci Htok Htext Hparse Hhost Hne Hmiss Hconn path.
  assert (Hdec := target_text_decode _ _ Htext).
  assert (Hpath : mem "?" path = false /\ mem "#" path = false).
  { destruct (urlparse_path _ _ _ Hparse) as [Hq Hh]. subst path.
    destruct (is_empty (Url.path r)); auto. }
  destruct Hpath as [Hq Hh].
  cut (origin_writes (trace_of (handle_client_request w))
         = [get_request path host] /\
       forallb (keyed_by (get_cache_filename url))
         (trace_of (handle_client_request w)) = true).
  { intros [Hw Hk]. split; [exact Hw|]. split; [exact Hq|]. split; [exact Hh|].
    apply keyed_by_spec. exact Hk. }
  destruct w as [[pf cok tok rok wr] f ci co oi oo].
  cbn [client_in env platform fs connect_ok] in *; subst ci cok.
  destruct host as [|c h]; [congruence|].
  exec_all; rewrite Htok; exec_all; rewrite Htext; exec_all.
  rewrite Hparse; exec_all; rewrite Hhost; exec_all.
  rewrite Hdec; exec_all; rewrite Hmiss.
  replace (bool_decide (is_Some None)) with false
    by (symmetry; apply bool_decide_eq_false; intros [? ?]; discriminate).
  exec_all.
  repeat (exec_all; first [block_step | branch]); exec_all.
  all: split; [cbn [origin_writes]; f_equal; apply origin_writes_none; events
              | events].
Qed.

(* ===================================================================== *)
(** * The tunnel *)
(* ===================================================================== *)

(** ** Targets without a slash have no host *)

Lemma prefix_slashes (s : bytes) :
  String.prefix "//" s = true -> mem "/" s = true.
Proof.
  destruct s as [|b s]; [discriminate|]. cbn [String.prefix mem].
  destruct (ascii_dec "/" b) as [<-|]; [reflexivity | discriminate].
Qed.

Lemma mem_lstrip (c : ascii) (p : ascii -> bool) (s : bytes) :
  mem c s = false -> mem c (lstrip p s) = false.
Proof.
  induction s as [|d s IH]; [auto|]. cbn [lstrip]. intros H.
  destruct (p d); [|exact H]. apply IH.
  cbn [mem] in H. now apply orb_false_elim in H.
Qed.

Lemma mem_filter (c : ascii) (p : ascii -> bool) (s : bytes) :
  mem c s = false -> mem c (filter p s) = false.
Proof.
  induction s as [|d s IH]; [auto|]. cbn [filter mem].
  intros [Hd Hs]%orb_false_elim.
  destruct (p d); cbn [mem]; rewrite ?Hd; auto.
Qed.

Lemma urlsplit_no_slash (pf : Url.Platform) (url : bytes) :
  mem "/" url = false ->
  exists r, Url.urlsplit pf url = Ok r /\ Url.netloc r = ""%string.
Proof.
  intros Hno. unfold Url.urlsplit.
  set (u0 := filter _ _).
  assert (H0 : mem "/" u0 = false) by (apply mem_filter, mem_lstrip, Hno).
  destruct (partition_mem ":" "/" u0 H0) as [_ Hpost].
  destruct (partition ":" u0) as [[pre found] post]. cbn [snd] in Hpost.
  destruct (_ && _ && _ && _).
  - destruct (String.prefix "//" post) eqn:Hp;
      [apply prefix_slashes in Hp; congruence|].
    cbn. destruct (partition "#" post) as [[u3 f3] frag].
    destruct (partition "?" u3) as [[u4 f4] q]. eexists; split; reflexivity.
  - destruct (String.prefix "//" u0) eqn:Hp;
      [apply prefix_slashes in Hp; congruence|].
    cbn. destruct (partition "#" u0) as [[u3 f3] frag].
    destruct (partition "?" u3) as [[u4 f4] q]. eexists; split; reflexivity.
Qed.

Lemma urlparse_no_slash (pf : Url.Platform) (url : bytes) :
  mem "/" url = false ->
  exists r, Url.urlparse pf url = Ok r /\ Url.netloc r = ""%string.
Proof.
  intros Hno. destruct (urlsplit_no_slash pf url Hno) as (r & Hr & Hn).
  unfold Url.urlparse. rewrite Hr.
  destruct (_ && _); [|eauto].
  destruct (Url.splitparams (Url.path r)). eexists; split; [reflexivity|exact Hn].
Qed.

Lemma no_netloc_no_host (pf : Url.Platform) (r : Url.ParseResult) :
  Url.netloc r = ""%string ->
  Url.hostname pf r = None /\ Url.port r = Ok None.
Proof.
  intros Hn. unfold Url.hostname, Url.port, Url.hostinfo. rewrite Hn.
  split; reflexivity.
Qed.

(** X1.  A CONNECT whose target holds no slash, which is every target
    of the form host or host:port, never makes the handler dial:
    [urlparse] yields no host, [connect] raises on [None], and an ASCII
    target gets the 500 response. *)
Lemma connect_without_slashes_is_never_dialled
    (w : World) (req : bytes) (rest : list recv_result) (url ver : bytes) :
  client_in w = Data req :: rest ->
  split_ws (first_line req) = ["CONNECT"%string; url; ver] ->
  mem "/" url = false ->
  origin_contacted (trace_of (handle_client_request w)) = false /\
  (all is_ascii url = true ->
   hd true (client_out w) = true ->
   trace_of (handle_client_request w) =
     [ClientRecv req; Log DEBUG (MsgReceived req); OriginClose;
      Log ERROR (MsgTunnelError None TypeError);
      ClientSend RESPONSE_500; ClientClose]).
Proof.
  intros Hci Htok Hno.
  destruct w as [[pf cok tok rok wr] f ci co oi oo].
  cbn [client_in client_out] in *. subst ci.
  destruct (urlparse_no_slash pf url Hno) as (r & Hr & Hn).
  destruct (no_netloc_no_host pf r Hn) as [Hh Hp].
  exec_all. rewrite Htok. exec_all. unfold Url.urlparse_bytes.
  destruct (all is_ascii url); exec_all.
  - rewrite Hr. exec_all. rewrite Hp. exec_all. rewrite Hh. exec_all.
    destruct co as [|[] co]; exec_all;
      [split; [reflexivity | intros _ _; reflexivity] ..|].
    destruct co as [|[] co]; exec_all; (split; [reflexivity | discriminate]).
  - destruct co as [|[] co]; exec_all; (split; [reflexivity | discriminate]).
Qed.

(** ** A tunnel in which no call raises *)

Lemma client_sent_app (l1 l2 : list event) :
  client_sent (l1 ++ l2) = client_sent l1 ++ client_sent l2.
Proof.
  induction l1 as [|[] l1 IH]; cbn [app client_sent]; rewrite ?IH; reflexivity.
Qed.

Lemma origin_chunks_app (l1 l2 : list event) :
  origin_chunks (l1 ++ l2) = origin_chunks l1 ++ origin_chunks l2.
Proof.
  induction l1 as [|[] l1 IH]; cbn [app origin_chunks]; rewrite ?IH;
    try reflexivity.
  destruct (is_empty _); reflexivity.
Qed.

(** A list of events that holds none of a kind does not hold one. *)
Ltac not_in H :=
  cbn [In] in H;
  repeat match type of H with
         | _ \/ _ => destruct H as [H|H]; [discriminate H|]
         end;
  try contradiction; try discriminate H.

(** X2.  When the TLS session with the origin was set up and no call
    raised, the client has been written the 200 reply and then the
    non-empty chunks read from the origin, in order, and nothing else,
    and the handler returns. *)
Lemma tunnel_without_errors_relays_verbatim (m url : bytes) (w : World) :
  In OriginTLS (trace_of (handle_https_request m url w)) ->
  forallb (fun e => negb (is_error e)) (trace_of (handle_https_request m url w)) = true ->
  client_sent (trace_of (handle_https_request m url w)) =
    RESPONSE_200 :: origin_chunks (trace_of (handle_https_request m url w)) /\
  outcome_of (handle_https_request m url w) = Returns tt.
Proof.
  destruct w as [[pf cok tok rok wr] f ci co oi oo].
  repeat (exec_all; first [block_step | branch]).
  all: exec_all.
  all: unfold trace_of, outcome_of; cbn [fst snd].
  all: intros Hin Hno.
  all: try (not_in Hin; fail).
  all: try (cbn [forallb is_error negb andb] in Hno; discriminate Hno).
  all: clear Hin; norm_list.
  all: repeat (rewrite <- app_assoc in Hno || cbn [app] in Hno).
  all: cbn [forallb is_error negb andb] in Hno; rewrite forallb_app in Hno.
  all: apply andb_prop in Hno; destruct Hno as [Hno _].
  all: try congruence.
  all: cbn [client_sent origin_chunks].
  all: rewrite client_sent_app, origin_chunks_app, Hsent.
  all: cbn [client_sent origin_chunks]; rewrite !app_nil_r.
  all: split; reflexivity.
Qed.

(** ** What the copy loop keeps *)

Lemma filter_none {A} (p q : A -> bool) (l : list A) :
  (forall x, q x = true -> p x = false) ->
  forallb q l = true -> List.filter p l = [].
Proof.
  intros Hpq. induction l as [|x l IH]; [reflexivity|]. cbn [forallb List.filter].
  intros [Hx Hl]%andb_prop. rewrite (Hpq _ Hx). auto.
Qed.

Lemma client_chunks_app (l1 l2 : list event) :
  client_chunks (l1 ++ l2) = client_chunks l1 ++ client_chunks l2.
Proof.
  induction l1 as [|[] l1 IH]; cbn [app client_chunks]; rewrite ?IH;
    try reflexivity.
  destruct (is_empty _); reflexivity.
Qed.

Lemma origin_writes_app (l1 l2 : list event) :
  origin_writes (l1 ++ l2) = origin_writes l1 ++ origin_writes l2.
Proof.
  induction l1 as [|[] l1 IH]; cbn [app origin_writes]; rewrite ?IH; reflexivity.
Qed.

(** Each round of the copy loop writes to the origin the chunk it read
    from the client, and reads the origin once after that. *)
Lemma relay_loop_pairs fuel : forall w,
  origin_writes (trace_of (relay_loop fuel w))
    = client_chunks (trace_of (relay_loop fuel w)) /\
  (List.length (origin_reads (trace_of (relay_loop fuel w)))
     <= List.length (client_chunks (trace_of (relay_loop fuel w))))%nat.
Proof.
  induction fuel as [|fuel IH]; intros w.
  - split; reflexivity.
  - destruct w as [e f ci co oi oo]. cbn.
    destruct ci as [|[d|] ci]; cbn; try (split; reflexivity).
    destruct (is_empty d) eqn:Hd; cbn; [rewrite Hd; split; reflexivity|].
    destruct oo as [|[] oo]; cbn; try (rewrite Hd; cbn; split; (reflexivity || lia)).
    all: destruct oi as [|[d'|] oi]; cbn;
      try (rewrite Hd; cbn; split; (reflexivity || lia)).
    all: destruct (is_empty d') eqn:Hd'; cbn;
      try (rewrite Hd; cbn; split; (reflexivity || lia)).
    all: destruct co as [|[] co]; cbn;
      try (rewrite Hd; cbn; split; (reflexivity || lia)).
    all: match goal with |- context [relay_loop _ ?w] =>
           destruct (IH w) as [Hw Hr]; destruct (relay_loop fuel w) as [[o w'] t]
         end; cbn in *; rewrite Hd; cbn; split; [f_equal; exact Hw | lia].
Qed.

(** The copy loop in the goal is replaced by its outcome, with the fact
    [lem] about its trace. *)
Ltac relay_with lem :=
  match goal with
  | |- context [relay_loop ?n ?w] =>
      let H := fresh "Hloop" in
      let o := fresh "o" in let w' := fresh "w'" in let t := fresh "trel" in
      pose proof (lem n w) as H;
      destruct (relay_loop n w) as [[o w'] t];
      unfold trace_of in H; cbn [snd] in H;
      destruct o as [[]| |]
  end.

Lemma origin_reads_app (l1 l2 : list event) :
  origin_reads (l1 ++ l2) = origin_reads l1 ++ origin_reads l2.
Proof. unfold origin_reads. apply List.filter_app. Qed.

(** X3.  In every run of the tunnel handler, what is written to the
    origin is exactly the non-empty chunks read from the client, in
    order and unchanged, whether or not the run later fails. *)
Theorem tunnel_forwards_client_chunks (m url : bytes) (w : World) :
  origin_writes (trace_of (handle_https_request m url w))
    = client_chunks (trace_of (handle_https_request m url w)).
Proof.
  destruct w as [[pf cok tok rok wr] f ci co oi oo].
  repeat (exec_all; first [relay_with relay_loop_pairs | branch]).
  all: exec_all; try reflexivity.
  all: destruct Hloop as [Hloop _].
  all: norm_list; cbn [origin_writes client_chunks].
  all: rewrite origin_writes_app, client_chunks_app, Hloop; reflexivity.
Qed.

(** X4.  The tunnel is copied in lock step: over a run the origin
    socket is read at most once for each non-empty chunk read from the
    client, so a tunnel on which the client sends nothing reads nothing
    from the origin. *)
Theorem tunnel_reads_origin_once_per_client_chunk (m url : bytes) (w : World) :
  (List.length (origin_reads (trace_of (handle_https_request m url w)))
     <= List.length (client_chunks (trace_of (handle_https_request m url w))))%nat.
Proof.
  destruct w as [[pf cok tok rok wr] f ci co oi oo].
  repeat (exec_all; first [relay_with relay_loop_pairs | branch]).
  all: exec_all; try (cbn; lia).
  all: destruct Hloop as [_ Hloop].
  all: norm_list; cbn [client_chunks].
  all: unfold origin_reads in *.
  all: cbn [List.filter is_origin_recv].
  all: rewrite ?List.filter_app, ?client_chunks_app, ?length_app.
  all: cbn [List.filter is_origin_recv client_chunks List.length].
  all: lia.
Qed.

Lemma connect_attempts_app (l1 l2 : list event) :
  connect_attempts (l1 ++ l2) = connect_attempts l1 ++ connect_attempts l2.
Proof. unfold connect_attempts. apply List.filter_app. Qed.

Lemma connect_attempts_relay (t : list event) :
  forallb is_relay t = true -> connect_attempts t = [].
Proof.
  apply filter_none. intros []; classes; congruence.
Qed.

(** X5.  When the target of a CONNECT parses and names a host, the
    tunnel handler makes exactly one attempt to connect, to that host
    and to the port of the target; a target without a port, or with port
    0, is dialled on port 443. *)
Theorem tunnel_dials_the_parsed_host_once
    (m url h : bytes) (w : World) (r : Url.ParseResult) (p : option Z) :
  Url.urlparse_bytes (platform (env w)) url = Ok r ->
  Url.hostname (platform (env w)) r = Some h ->
  Url.port r = Ok p ->
  let port := match p with
              | Some 0 | None => 443
              | Some n => n
              end in
  connect_attempts (trace_of (handle_https_request m url w)) =
    [if connect_ok (env w) then OriginConnect h port else OriginConnectErr h port].
Proof.
  intros Hparse Hhost Hport port.
  destruct w as [[pf cok tok rok wr] f ci co oi oo].
  cbn [env platform connect_ok] in *.
  exec_all. rewrite Hparse. exec_all. rewrite Hport. exec_all. rewrite Hhost.
  assert (Hp : match p with Some n => if n =? 0 then 443 else n | None => 443 end
               = port).
  { subst port. destruct p as [[| |]|]; reflexivity. }
  rewrite Hp. clear Hp.
  repeat (exec_all; first [block_step | branch]).
  all: exec_all; norm_list; unfold connect_attempts; cbn [List.filter is_connect].
  all: rewrite ?List.filter_app; cbn [List.filter is_connect].
  all: try reflexivity.
  all: fold (connect_attempts trel); rewrite (connect_attempts_relay trel) by assumption.
  all: reflexivity.
Qed.

(** X6.  When the target of a CONNECT names a host and the connection
    to it is refused, or the TLS handshake with it fails, the origin
    socket is closed, the error is logged, and a client that accepts the
    write is sent the 500 response and nothing else before its
    connection is closed: the 200 reply is never written. *)
Theorem upstream_failure_gets_500
    (m url h : bytes) (w : World) (r : Url.ParseResult) (p : option Z) :
  Url.urlparse_bytes (platform (env w)) url = Ok r ->
  Url.hostname (platform (env w)) r = Some h ->
  Url.port r = Ok p ->
  connect_ok (env w) = false \/ tls_ok (env w) = false ->
  hd true (client_out w) = true ->
  let port := match p with
              | Some 0 | None => 443
              | Some n => n
              end in
  outcome_of (handle_https_request m url w) = Returns tt /\
  trace_of (handle_https_request m url w) =
    (if connect_ok (env w) then [OriginConnect h port; OriginTLSErr]
     else [OriginConnectErr h port]) ++
    [OriginClose; Log ERROR (MsgTunnelError (Some h) OSError);
     ClientSend RESPONSE_500; ClientClose].
Proof.
  intros Hparse Hhost Hport Hfail Hhd port.
  destruct w as [[pf cok tok rok wr] f ci co oi oo].
  cbn [env platform connect_ok tls_ok client_out] in *.
  exec_all. rewrite Hparse. exec_all. rewrite Hport. exec_all. rewrite Hhost.
  assert (Hp : match p with Some n => if n =? 0 then 443 else n | None => 443 end
               = port).
  { subst port. destruct p as [[| |]|]; reflexivity. }
  rewrite Hp. clear Hp.
  destruct cok; [destruct tok; [destruct Hfail; discriminate|]|].
  all: exec_all; destruct co as [|[] co]; try discriminate; exec_all.
  all: split; reflexivity.
Qed.

(** X7.  A CONNECT request never reads or writes the cache: the trace
    of the dispatcher holds no cache access and the cache directory is
    left as it was, however the tunnel ends. *)
Theorem connect_leaves_the_cache_alone
    (w : World) (req : bytes) (rest : list recv_result) (url ver : bytes) :
  client_in w = Data req :: rest ->
  split_ws (first_line req) = ["CONNECT"%string; url; ver] ->
  forallb (fun e => negb (is_cache e)) (trace_of (handle_client_request w)) = true /\
  fs (world_of (handle_client_request w)) = fs w.
Proof.
  intros Hci Htok.
  destruct w as [[pf cok tok rok wr] f ci co oi oo].
  cbn [client_in] in *. subst ci.
  exec_top. rewrite Htok. exec_top.
  https_step; exec_top.
  - split; [events | reflexivity].
  - destruct co' as [|[] co']; exec_top; (split; [events | reflexivity]).
Qed.

(* ===================================================================== *)
(** * The dispatcher: requests that are not forwarded *)
(* ===================================================================== *)

(** X8.  A GET or POST whose target parses but names no host never
    reaches an origin or the cache; a client that accepts the write is
    sent the 400 response and its connection is closed. *)
Theorem target_without_host_gets_400
    (w : World) (req : bytes) (rest : list recv_result)
    (m url ver text : bytes) (r : Url.ParseResult) :
  client_in w = Data req :: rest ->
  split_ws (first_line req) = [m; url; ver] ->
  m = "GET"%string \/ m = "POST"%string ->
  target_text url = Ok text ->
  Url.urlparse (platform (env w)) text = Ok r ->
  Url.hostname (platform (env w)) r = None ->
  origin_contacted (trace_of (handle_client_request w)) = false /\
  forallb (fun e => negb (is_cache e)) (trace_of (handle_client_request w)) = true /\
  (hd true (client_out w) = true ->
   outcome_of (handle_client_request w) = Returns tt /\
   trace_of (handle_client_request w) =
     [ClientRecv req; Log DEBUG (MsgReceived req);
      ClientSend RESPONSE_400; ClientClose]).
Proof.
  intros Hci Htok Hm Htext Hparse Hhost.
  destruct w as [[pf cok tok rok wr] f ci co oi oo].
  cbn [client_in client_out env platform] in *. subst ci.
  exec_top. rewrite Htok. exec_top.
  destruct Hm; subst m; exec_top.
  all: rewrite Htext; exec_top; rewrite Hparse; exec_top; rewrite Hhost; exec_top.
  all: destruct co as [|[] co]; exec_top;
    [split; [reflexivity | split; [reflexivity | intros _; split; reflexivity]] ..|].
  all: destruct co as [|[] co]; exec_top;
    (split; [reflexivity | split; [reflexivity | discriminate]]).
Qed.

(** X9.  When the origin of a GET that misses the cache, or of a POST,
    refuses the connection, nothing is written to the cache, and a
    client that accepts the write is sent the 400 response (not a 5xx)
    and its connection is closed. *)
Theorem unreachable_origin_gets_400
    (w : World) (req : bytes) (rest : list recv_result)
    (m url ver host path : bytes) :
  client_in w = Data req :: rest ->
  split_ws (first_line req) = [m; url; ver] ->
  m = "GET"%string /\ fs w !! get_cache_filename url = None \/ m = "POST"%string ->
  target_of (platform (env w)) url = Some (host, path) ->
  connect_ok (env w) = false ->
  hd true (client_out w) = true ->
  handle_client_request w =
    (Returns tt,
     set_client_out (tl (client_out w)) (set_client_in rest w),
     [ClientRecv req; Log DEBUG (MsgReceived req);
      OriginConnectErr host 80; OriginClose;
      Log ERROR (MsgProcessError OSError);
      ClientSend RESPONSE_400; ClientClose]).
Proof.
  intros Hci Htok Hm Htgt Hconn Hhd.
  assert (Hdec := target_of_decode _ _ _ _ Htgt).
  destruct w as [[pf cok tok rok wr] f ci co oi oo].
  cbn [client_in client_out env platform fs connect_ok] in *. subst ci cok.
  unfold target_of in Htgt.
  exec. rewrite Htok.
  assert (Hcached : m = "POST"%string \/
                    bool_decide (is_Some (f !! get_cache_filename url)) = false).
  { destruct Hm as [[_ Hmiss]|]; [right|left; assumption].
    rewrite Hmiss. apply bool_decide_eq_false. intros [? ?]; discriminate. }
  assert (Hm' : m = "GET"%string \/ m = "POST"%string) by tauto. clear Hm.
  destruct Hm'; subst m; exec.
  all: destruct (target_text url) as [text|]; [|discriminate]; exec.
  all: destruct (Url.urlparse pf text) as [r|]; [|discriminate]; exec.
  all: destruct (Url.hostname pf r) as [[|c h]|]; try discriminate; exec.
  all: injection Htgt as <- <-.
  all: rewrite Hdec; exec.
  1: destruct Hcached as [|Hcached]; [discriminate|]; rewrite Hcached; exec.
  all: destruct co as [|[] co]; try discriminate; exec; reflexivity.
Qed.

(** X10.  A GET whose cache file exists but cannot be read is not
    forwarded to the origin: the read raises, and a client that accepts
    the write is sent the 400 response. *)
Theorem unreadable_cache_entry_gets_400
    (w : World) (req : bytes) (rest : list recv_result)
    (url ver host path payload : bytes) :
  client_in w = Data req :: rest ->
  split_ws (first_line req) = ["GET"%string; url; ver] ->
  target_of (platform (env w)) url = Some (host, path) ->
  fs w !! get_cache_filename url = Some payload ->
  read_ok (env w) = false ->
  hd true (client_out w) = true ->
  handle_client_request w =
    (Returns tt,
     set_client_out (tl (client_out w)) (set_client_in rest w),
     [ClientRecv req; Log DEBUG (MsgReceived req); Log INFO (MsgCacheHit url);
      CacheReadErr (get_cache_filename url);
      Log ERROR (MsgProcessError OSError);
      ClientSend RESPONSE_400; ClientClose]).
Proof.
  intros Hci Htok Htgt Hfs Hrd Hhd.
  assert (Hdec := target_of_decode _ _ _ _ Htgt).
  destruct w as [[pf cok tok rok wr] f ci co oi oo].
  cbn [client_in env platform fs read_ok client_out] in *. subst ci rok.
  unfold target_of in Htgt.
  exec_top. rewrite Htok. exec_top.
  destruct (target_text url) as [text|]; [|discriminate]. exec_top.
  destruct (Url.urlparse pf text) as [r|]; [|discriminate]. exec_top.
  destruct (Url.hostname pf r) as [[|c h]|]; try discriminate. exec_top.
  rewrite Hdec. exec_top. rewrite Hfs.
  replace (bool_decide (is_Some (Some payload))) with true
    by (symmetry; apply bool_decide_eq_true; eauto).
  exec_top. rewrite Hfs. exec_top.
  destruct co as [|[] co]; try discriminate; exec_top; reflexivity.
Qed.

(** X11.  A connection on which the first [recv] raises, or yields
    nothing because the client closed it at once, is answered like a
    malformed request: no origin is contacted, the cache is not touched,
    and a client that accepts the write is sent the 400 response before
    its connection is closed. *)
Theorem silent_client_gets_400 (w : World) :
  hd (Data "") (client_in w) = Data "" \/ hd (Data "") (client_in w) = RecvError ->
  origin_contacted (trace_of (handle_client_request w)) = false /\
  fs (world_of (handle_client_request w)) = fs w /\
  (hd true (client_out w) = true ->
   outcome_of (handle_client_request w) = Returns tt /\
   client_view (trace_of (handle_client_request w)) =
     [ClientSend RESPONSE_400; ClientClose]).
Proof.
  intros Hci.
  destruct w as [[pf cok tok rok wr] f ci co oi oo].
  cbn [client_in client_out] in *.
  destruct ci as [|[[|c d]|] ci]; cbn [hd] in Hci;
    try (destruct Hci; discriminate).
  all: exec_top; rewrite ?tokens_empty; exec_top.
  all: destruct co as [|[] co]; exec_top;
    [split; [reflexivity | split; [reflexivity | intros _; split; reflexivity]] ..|].
  all: split; [reflexivity | split; [reflexivity | discriminate]].
Qed.

(* ===================================================================== *)
(** * The forwarder, further *)
(* ===================================================================== *)

(** The forwarder in the goal is replaced by its outcome, with the fact
    [lem] about its run. *)
Ltac forward_with lem :=
  match goal with
  | |- context [forward ?m ?url ?req ?path ?host ?file ?w] =>
      let H := fresh "Hfwd" in
      let o := fresh "o" in let w' := fresh "w'" in let t := fresh "tf" in
      pose proof (lem m url req path host file w) as H;
      destruct (forward m url req path host file w) as [[o w'] t];
      unfold trace_of, world_of, outcome_of in H; cbn [fst snd] in H;
      destruct o as [[]| |]
  end.

Lemma forward_dials m url req path host file w :
  forallb (dials_to host 80) (trace_of (forward m url req path host file w)) = true.
Proof.
  destruct w as [[pf cok tok rok wr] f ci co oi oo].
  repeat (exec; first [block_step | branch]).
  all: exec; events.
Qed.

(** X12.  A GET or POST connects to no host but the one its target
    names, and always on port 80: a port written in the target is not
    used. *)
Theorem forwarder_dials_the_target_host_on_port_80
    (w : World) (req : bytes) (rest : list recv_result)
    (m url ver host path : bytes) :
  client_in w = Data req :: rest ->
  split_ws (first_line req) = [m; url; ver] ->
  m <> "CONNECT"%string ->
  target_of (platform (env w)) url = Some (host, path) ->
  forallb (dials_to host 80) (trace_of (handle_client_request w)) = true.
Proof.
  intros Hci Htok Hm Htgt.
  destruct w as [[pf cok tok rok wr] f ci co oi oo].
  cbn [client_in env platform] in *. subst ci.
  apply String.eqb_neq in Hm. unfold target_of in Htgt.
  exec_top. rewrite Htok. exec_top. rewrite Hm. exec_top.
  destruct (String.eqb m "GET" || (String.eqb m "POST" || false)) eqn:Hgp; exec_top.
  2: { destruct co as [|[] co]; exec_top; try reflexivity.
       destruct co as [|[] co]; exec_top; reflexivity. }
  destruct (target_text url) as [text|]; [|discriminate]. exec_top.
  destruct (Url.urlparse pf text) as [r|]; [|discriminate]. exec_top.
  destruct (Url.hostname pf r) as [[|c h]|]; try discriminate. exec_top.
  injection Htgt as <- <-.
  repeat (exec_top; first [forward_with forward_dials | branch]).
  all: exec_top; events.
Qed.

(** X13.  When the origin of a GET that misses the cache closes the
    connection without sending anything, nothing is stored: the cache
    directory is left as it was, the client is written the empty
    response and its connection is closed. *)
Theorem empty_response_is_not_stored
    (w : World) (req : bytes) (rest : list recv_result)
    (url ver host path : bytes) :
  client_in w = Data req :: rest ->
  split_ws (first_line req) = ["GET"%string; url; ver] ->
  target_of (platform (env w)) url = Some (host, path) ->
  fs w !! get_cache_filename url = None ->
  connect_ok (env w) = true ->
  hd true (origin_out w) = true ->
  hd (Data "") (origin_in w) = Data "" ->
  hd true (client_out w) = true ->
  outcome_of (handle_client_request w) = Returns tt /\
  fs (world_of (handle_client_request w)) = fs w /\
  trace_of (handle_client_request w) =
    [ClientRecv req; Log DEBUG (MsgReceived req);
     OriginConnect host 80; Log INFO (MsgConnected host);
     OriginSend (get_request path host); OriginRecv "";
     ClientSend ""; OriginClose; ClientClose].
Proof.
  intros Hci Htok Htgt Hmiss Hconn Hoo Hoi Hhd.
  assert (Hdec := target_of_decode _ _ _ _ Htgt).
  destruct w as [[pf cok tok rok wr] f ci co oi oo].
  cbn [client_in client_out origin_in origin_out env platform fs connect_ok] in *.
  subst ci cok. unfold target_of in Htgt.
  exec_all. rewrite Htok. exec_all.
  destruct (target_text url) as [text|]; [|discriminate]. exec_all.
  destruct (Url.urlparse pf text) as [r|]; [|discriminate]. exec_all.
  destruct (Url.hostname pf r) as [[|c h]|]; try discriminate. exec_all.
  injection Htgt as <- <-.
  rewrite Hdec. exec_all. rewrite Hmiss.
  replace (bool_decide (is_Some None)) with false
    by (symmetry; apply bool_decide_eq_false; intros [? ?]; discriminate).
  exec_all.
  destruct oo as [|[] oo]; try discriminate; exec_all.
  all: destruct oi as [|[[|] |] oi]; try discriminate; cbn [recv_loop]; exec_all.
  all: cbn [is_empty]; unfold log_status; cbn [contains String.prefix orb]; exec_all.
  all: cbn [is_empty negb andb]; exec_all.
  all: destruct co as [|[] co]; try discriminate; exec_all.
  all: repeat split; reflexivity.
Qed.

Lemma forward_reads_no_cache m url req path host file w :
  forallb (fun e => negb (is_cache_read e))
    (trace_of (forward m url req path host file w)) = true /\
  origin_contacted (trace_of (forward m url req path host file w)) = true.
Proof.
  destruct w as [[pf cok tok rok wr] f ci co oi oo].
  split.
  - repeat (exec; first [block_step | branch]).
    all: exec; events.
  - repeat (exec; first [block_step | branch]).
    all: exec; reflexivity.
Qed.

(** X14.  A POST is never answered from the cache: whatever the cache
    holds for its target, the run reads no cache file and tries to
    connect to the origin. *)
Theorem post_is_never_served_from_cache
    (w : World) (req : bytes) (rest : list recv_result)
    (url ver host path : bytes) :
  client_in w = Data req :: rest ->
  split_ws (first_line req) = ["POST"%string; url; ver] ->
  target_of (platform (env w)) url = Some (host, path) ->
  forallb (fun e => negb (is_cache_read e)) (trace_of (handle_client_request w)) = true /\
  origin_contacted (trace_of (handle_client_request w)) = true.
Proof.
  intros Hci Htok Htgt.
  assert (Hdec := target_of_decode _ _ _ _ Htgt).
  destruct w as [[pf cok tok rok wr] f ci co oi oo].
  cbn [client_in env platform] in *. subst ci. unfold target_of in Htgt.
  exec_top. rewrite Htok. exec_top.
  destruct (target_text url) as [text|]; [|discriminate]. exec_top.
  destruct (Url.urlparse pf text) as [r|]; [|discriminate]. exec_top.
  destruct (Url.hostname pf r) as [[|c h]|]; try discriminate. exec_top.
  rewrite Hdec. exec_top.
  repeat (exec_top; first [forward_with forward_reads_no_cache | branch]).
  all: exec_top; destruct Hfwd as [Hr Hc]; unfold origin_contacted in *.
  all: split; [events|].
  all: cbn [existsb is_connect orb]; rewrite ?existsb_app, Hc; reflexivity.
Qed.

(* ===================================================================== *)
(** * A GET that is forwarded *)
(* ===================================================================== *)

(** On an origin that sends the non-empty [chunks] and then closes, the
    gathering loop returns them joined, having read each chunk and the
    end of the stream. *)
Lemma recv_loop_gathers (chunks : list bytes) : forall fuel acc w tail,
  origin_in w = map Data chunks ++ tail ->
  Forall (fun c => is_empty c = false) chunks ->
  hd (Data "") tail = Data "" ->
  (List.length chunks < fuel)%nat ->
  recv_loop fuel acc w =
    (Returns (acc +:+ fold_right String.append ""%string chunks),
     set_origin_in (tl tail) w,
     map OriginRecv chunks ++ [OriginRecv ""]).
Proof.
  induction chunks as [|c chunks IH]; intros fuel acc w tail Hoi Hne Htail Hlen.
  - destruct fuel as [|fuel]; [cbn in Hlen; lia|].
    destruct w as [e f ci co oi oo]. cbn [origin_in map app] in Hoi. subst oi.
    cbn [fold_right]. rewrite append_nil_r.
    destruct tail as [|[[|a d]|] tail]; try discriminate; reflexivity.
  - destruct fuel as [|fuel]; [cbn in Hlen; lia|].
    destruct w as [e f ci co oi oo]. cbn [origin_in map app] in Hoi. subst oi.
    inversion Hne as [|? ? Hc Hcs]; subst.
    cbn [recv_loop]. exec_top. rewrite Hc.
    rewrite (IH fuel (acc +:+ c)
               (mkWorld e f ci co (map Data chunks ++ tail) oo) tail
               eq_refl Hcs Htail ltac:(cbn in Hlen; lia)).
    cbn [fold_right]. rewrite append_assoc. reflexivity.
Qed.

Lemma reads_are_reads (chunks : list bytes) :
  forallb is_origin_recv (map OriginRecv chunks) = true.
Proof. induction chunks; [reflexivity | exact IHchunks]. Qed.

Lemma client_sent_none (t : list event) :
  forallb (fun e => negb (is_client_write e)) t = true -> client_sent t = [].
Proof.
  induction t as [|e t IH]; [reflexivity|]. cbn [forallb].
  intros [He Ht]%andb_prop. destruct e; cbn in *; try discriminate; auto.
Qed.

Lemma joined_not_empty (chunks : list bytes) :
  Forall (fun c => is_empty c = false) chunks -> chunks <> [] ->
  is_empty (fold_right String.append ""%string chunks) = false.
Proof.
  intros Hne Hn. destruct chunks as [|c chunks]; [congruence|].
  inversion Hne as [|? ? Hc _]; subst. cbn [fold_right].
  destruct c; [discriminate | reflexivity].
Qed.

(** X28.  A GET that misses the cache and whose origin accepts the
    request, sends its response in chunks and closes, is answered with
    the chunks joined, unchanged: the origin is written the one request,
    the joined response is stored under the cache file of the target and
    then written to the client, and the connection is closed. *)
Theorem forwarded_get_is_stored_and_delivered
    (w : World) (req : bytes) (rest tail : list recv_result)
    (url ver host path : bytes) (chunks : list bytes) :
  client_in w = Data req :: rest ->
  split_ws (first_line req) = ["GET"%string; url; ver] ->
  target_of (platform (env w)) url = Some (host, path) ->
  fs w !! get_cache_filename url = None ->
  connect_ok (env w) = true ->
  hd true (origin_out w) = true ->
  origin_in w = map Data chunks ++ tail ->
  Forall (fun c => is_empty c = false) chunks ->
  chunks <> [] ->
  hd (Data "") tail = Data "" ->
  write_res (env w) = Written ->
  hd true (client_out w) = true ->
  let response := fold_right String.append ""%string chunks in
  outcome_of (handle_client_request w) = Returns tt /\
  origin_writes (trace_of (handle_client_request w)) = [get_request path host] /\
  client_view (trace_of (handle_client_request w))
    = [ClientSend response; ClientClose] /\
  fs (world_of (handle_client_request w))
    = <[get_cache_filename url := response]> (fs w).
Proof.
  intros Hci Htok Htgt Hmiss Hconn Hoo Hoi Hne Hn Htail Hwr Hhd response.
  assert (Hdec := target_of_decode _ _ _ _ Htgt).
  assert (Hresp := joined_not_empty chunks Hne Hn). fold response in Hresp.
  destruct w as [[pf cok tok rok wr] f ci co oi oo].
  cbn [client_in client_out origin_in origin_out env platform fs connect_ok
       write_res] in *.
  subst ci cok wr oi. unfold target_of in Htgt.
  exec_all. rewrite Htok. exec_all.
  destruct (target_text url) as [text|]; [|discriminate]. exec_all.
  destruct (Url.urlparse pf text) as [r|]; [|discriminate]. exec_all.
  destruct (Url.hostname pf r) as [[|c h]|]; try discriminate. exec_all.
  injection Htgt as <- <-.
  rewrite Hdec. exec_all. rewrite Hmiss.
  replace (bool_decide (is_Some None)) with false
    by (symmetry; apply bool_decide_eq_false; intros [? ?]; discriminate).
  exec_all.
  destruct oo as [|[] oo]; try discriminate; exec_all.
  all: match goal with
       | |- context [recv_loop ?n ?a ?w0] =>
           rewrite (recv_loop_gathers chunks n a w0 tail eq_refl Hne Htail)
             by (rewrite length_app, length_map; lia)
       end.
  all: change ("" +:+ fold_right String.append "" chunks) with response.
  all: exec_all; block_step; exec_all; rewrite Hresp; exec_all.
  all: destruct co as [|[] co]; try discriminate; exec_all.
  all: pose proof (reads_are_reads chunks) as Hreads.
  all: split; [reflexivity|].
  all: split;
    [cbn [origin_writes]; f_equal; apply origin_writes_none; events|].
  all: split; [|reflexivity].
  all: unfold client_view; cbn [List.filter is_client_write].
  all: rewrite !List.filter_app; cbn [List.filter is_client_write].
  all: rewrite (filter_none is_client_write is_origin_recv)
         by (assumption || (intros []; classes; congruence)).
  all: rewrite (filter_none is_client_write is_log)
         by (assumption || (intros []; classes; congruence)).
  all: reflexivity.
Qed.

(* ===================================================================== *)
(** * The cache directory over a run *)
(* ===================================================================== *)

Lemma store_fs_other (wr : write_result) (file response f' : bytes)
    (f : gmap string bytes) :
  f' <> file -> store_fs wr file response f !! f' = f !! f'.
Proof.
  intros Hne. unfold store_fs. destruct (is_empty response); [reflexivity|].
  destruct wr; try reflexivity; apply lookup_insert_ne; congruence.
Qed.

Lemma store_fs_keeps (wr : write_result) (file response f' : bytes)
    (f : gmap string bytes) :
  is_Some (f !! f') -> is_Some (store_fs wr file response f !! f').
Proof.
  intros Hs. unfold store_fs. destruct (is_empty response); [assumption|].
  destruct wr; try assumption.
  all: destruct (decide (f' = file)) as [->|Hne];
    [rewrite lookup_insert_eq; eauto | rewrite lookup_insert_ne by congruence; assumption].
Qed.

Lemma store_trace_touches (wr : write_result) (url file response : bytes) :
  response <> ""%string ->
  exists e, In e (store_trace wr url file response) /\
            is_store e = true /\ cache_file_of e = Some file.
Proof.
  intros Hne. unfold store_trace. destruct response; [congruence|]. cbn [is_empty].
  destruct wr; cbn [store_events].
  - exists (CacheWrite file (String a response)). cbn. auto.
  - exists (CacheWriteErr file). cbn. auto.
  - exists (CacheWriteErr file). cbn. auto.
Qed.

Lemma store_fs_empty (wr : write_result) (file : bytes) (f : gmap string bytes) :
  store_fs wr file "" f = f.
Proof. reflexivity. Qed.

(** A run of the dispatcher never removes a cache file. *)
Lemma cache_files_are_kept (w : World) (file : bytes) :
  is_Some (fs w !! file) ->
  is_Some (fs (world_of (handle_client_request w)) !! file).
Proof.
  revert file.
  destruct w as [[pf cok tok rok wr] f ci co oi oo].
  run_top.
  all: try fwd_cases.
  all: cbn [write_res env fs client_out] in *; subst.
  all: intros file Hs; first [assumption | apply store_fs_keeps; assumption].
Qed.

(** X15.  A run of the dispatcher never removes a cache file, and it
    changes a file only by the store step of that run: a file whose
    content differs after the run is the file of a store event of the
    trace. *)
Theorem cache_changes_only_by_the_store_step (w : World) :
  (forall file, is_Some (fs w !! file) ->
                is_Some (fs (world_of (handle_client_request w)) !! file)) /\
  (forall file,
     fs (world_of (handle_client_request w)) !! file <> fs w !! file ->
     exists e, In e (trace_of (handle_client_request w)) /\
               is_store e = true /\ cache_file_of e = Some file).
Proof.
  split; [intros file; apply cache_files_are_kept|].
  destruct w as [[pf cok tok rok wr] f ci co oi oo].
  run_top.
  all: try fwd_cases.
  all: cbn [write_res env fs client_out] in *; subst.
  all: intros file Hne; try congruence.
  all: match type of Hne with
       | store_fs ?wr ?fl ?resp ?f !! _ <> _ =>
           destruct (decide (file = fl)) as [->|Hother];
           [|rewrite store_fs_other in Hne by assumption; congruence];
           destruct (string_dec resp "") as [Hemp|Hemp];
           [rewrite Hemp, store_fs_empty in Hne; congruence|];
           match goal with
           | |- context [store_trace wr ?u fl resp] =>
               let ev := fresh "ev" in
               destruct (store_trace_touches wr u fl resp Hemp)
                 as (ev & Hin & Hst & Hfile);
               exists ev; split; [|split; assumption]
           end
       end.
  all: repeat (rewrite in_app_iff || cbn [In]); tauto.
Qed.

(* ===================================================================== *)
(** * The length header of a POST *)
(* ===================================================================== *)

Lemma scan_headers_cons (h : bytes) (l : list bytes) (n : Z) :
  scan_headers (h :: l) n =
    if contains "Content-Length" h then
      match nth_error (split ":" h) 1 with
      | None => Raise IndexError
      | Some v =>
          match int_of_bytes (strip v) with
          | None => Raise ValueError
          | Some k => scan_headers l k
          end
      end
    else scan_headers l n.
Proof. reflexivity. Qed.

Lemma scan_headers_app (l1 l2 : list bytes) (n : Z) :
  scan_headers (l1 ++ l2) n =
    match scan_headers l1 n with
    | Ok k => scan_headers l2 k
    | Raise e => Raise e
    end.
Proof.
  revert n. induction l1 as [|h l1 IH]; intros n; [reflexivity|].
  cbn [app]. rewrite !scan_headers_cons.
  destruct (contains "Content-Length" h); [|apply IH].
  destruct (nth_error (split ":" h) 1); [|reflexivity].
  destruct (int_of_bytes (strip b)); [apply IH | reflexivity].
Qed.

Lemma scan_headers_none (l : list bytes) (n : Z) :
  forallb (fun h => negb (contains "Content-Length" h)) l = true ->
  scan_headers l n = Ok n.
Proof.
  induction l as [|h l IH]; [reflexivity|]. cbn [forallb].
  intros [Hh Hl]%andb_prop. apply negb_true_iff in Hh.
  rewrite scan_headers_cons, Hh. auto.
Qed.

(** X16.  Of the lines of a POST that mention Content-Length it is the
    last one that sets the length: the lines before it only have to
    parse, and whatever number they gave is replaced. *)
Theorem last_length_header_wins
    (before after : list bytes) (h v : bytes) (n0 n1 n : Z) :
  scan_headers before n0 = Ok n1 ->
  contains "Content-Length" h = true ->
  nth_error (split ":" h) 1 = Some v ->
  int_of_bytes (strip v) = Some n ->
  forallb (fun l => negb (contains "Content-Length" l)) after = true ->
  scan_headers (before ++ h :: after) n0 = Ok n.
Proof.
  intros Hb Hh Hv Hn Ha. rewrite scan_headers_app, Hb.
  rewrite scan_headers_cons, Hh, Hv, Hn. apply scan_headers_none. exact Ha.
Qed.

(** X17.  A POST none of whose lines after the request line mentions
    Content-Length (the match is case-sensitive) is forwarded with a
    length header of 0 and no body, whatever follows the blank line of
    the client's request. *)
Theorem post_without_length_header_forwards_no_body
    (w : World) (req : bytes) (rest : list recv_result)
    (url ver host path : bytes) :
  client_in w = Data req :: rest ->
  split_ws (first_line req) = ["POST"%string; url; ver] ->
  target_of (platform (env w)) url = Some (host, path) ->
  connect_ok (env w) = true ->
  forallb (fun l => negb (contains "Content-Length" l))
    (tl (split (String LF "") req)) = true ->
  origin_writes (trace_of (handle_client_request w)) =
    ["POST " +:+ path +:+ " HTTP/1.1" +:+ CRLF +:+
     "Host: " +:+ host +:+ CRLF +:+
     "Content-Length: 0" +:+ CRLF +:+
     "Connection: close" +:+ CRLF +:+ CRLF].
Proof.
  intros Hci Htok Htgt Hconn Hnone.
  assert (Hdec := target_of_decode _ _ _ _ Htgt).
  assert (Hscan := scan_headers_none _ 0 Hnone).
  destruct w as [[pf cok tok rok wr] f ci co oi oo].
  cbn [client_in env platform connect_ok] in *. subst ci cok.
  unfold target_of in Htgt.
  exec_all. rewrite Htok. exec_all.
  destruct (target_text url) as [text|]; [|discriminate]. exec_all.
  destruct (Url.urlparse pf text) as [r|]; [|discriminate]. exec_all.
  destruct (Url.hostname pf r) as [[|c h]|]; try discriminate. exec_all.
  injection Htgt as <- <-.
  rewrite Hdec. exec_all. rewrite Hscan. exec_all.
  change (0 <? 0) with false. exec_all.
  repeat (exec_all; first [block_step | branch]); exec_all.
  all: cbn [origin_writes]; apply (f_equal2 cons); [reflexivity|].
  all: first [reflexivity | apply origin_writes_none; events].
Qed.

(* ===================================================================== *)
(** * A cache file left by a failed write *)
(* ===================================================================== *)

(** X18.  When the write of a cache file fails after the file was
    opened, what it left in the file is what a following GET for the
    same target is answered with, without any connection to the origin:
    the file exists, so the request is a cache hit. *)
Theorem truncated_cache_file_is_served
    (w1 w2 : World) (req1 req2 : bytes) (rest1 rest2 : list recv_result)
    (m1 url ver1 ver2 f partial : bytes) :
  client_in w1 = Data req1 :: rest1 ->
  split_ws (first_line req1) = [m1; url; ver1] ->
  write_res (env w1) = WriteFails partial ->
  In (CacheWriteErr f) (trace_of (handle_client_request w1)) ->
  fs w2 = fs (world_of (handle_client_request w1)) ->
  platform (env w2) = platform (env w1) ->
  client_in w2 = Data req2 :: rest2 ->
  split_ws (first_line req2) = ["GET"%string; url; ver2] ->
  read_ok (env w2) = true ->
  hd true (client_out w2) = true ->
  client_sent (trace_of (handle_client_request w2)) = [partial] /\
  origin_contacted (trace_of (handle_client_request w2)) = false.
Proof.
  intros Hci1 Htok1 Hwr Hin Hfs Hpf Hci2 Htok2 Hrd Hhd.
  destruct (store_inversion w1 (CacheWriteErr f) eq_refl Hin)
    as (req' & rest' & m' & url' & ver' & host & path & t1 & send & t2 & H).
  cbv zeta in H.
  destruct H as (Hci' & Htok' & Hm & Htgt & Hresp & Hq & Htr & Hfs' & Ht2 & Hsend).
  rewrite Hci1 in Hci'. injection Hci' as <- <-.
  rewrite Htok1 in Htok'. injection Htok' as <- <- <-.
  assert (Hlook : fs w2 !! get_cache_filename url = Some partial).
  { rewrite Hfs, Hfs', Hwr. unfold store_fs.
    destruct (origin_received t1); [congruence|]. cbn [is_empty].
    apply lookup_insert_eq. }
  rewrite <- Hpf in Htgt.
  rewrite (cache_hit_run _ _ _ _ _ _ _ _ Hci2 Htok2 Htgt Hlook Hrd Hhd).
  split; reflexivity.
Qed.

(* ===================================================================== *)
(** * A client that accepts every write *)
(* ===================================================================== *)










(* ===================================================================== *)
(** * The listener *)
(* ===================================================================== *)








Lemma accept_loop_keeps_files (coming : list arrival) : forall files file,
  is_Some (files !! file) ->
  is_Some (snd (fst (accept_loop files coming)) !! file).
Proof.
  induction coming as [|[c|] coming IH]; intros files file Hs;
    cbn [accept_loop]; try exact Hs.
  pose proof (cache_files_are_kept (connection_world files c) file Hs) as Hk.
  destruct (handle_client_request (connection_world files c)) as [[o w'] t].
  unfold world_of in Hk. cbn [fst snd] in Hk.
  destruct o as [[]|e|]; try exact Hk.
  specialize (IH (fs w') file Hk).
  destruct (accept_loop (fs w') coming) as [[r files'] ts]. exact IH.
Qed.

(** X23.  Over the life of the listener the cache directory only
    grows: a file that exists when the listener starts is still there
    however many connections are served and however the listener
    ends. *)
Theorem listener_never_removes_a_cache_file
    (ip : bytes) (port : Z) (s : Server) (file : bytes) :
  is_Some (cache s !! file) ->
  is_Some (snd (fst (start_proxy_server ip port s)) !! file).
Proof.
  intros Hs. unfold start_proxy_server.
  destruct (bind_ok s); [|exact Hs]. destruct (listen_ok s); [|exact Hs].
  pose proof (accept_loop_keeps_files (arrivals s) (cache s) file Hs) as H.
  destruct (accept_loop (cache s) (arrivals s)) as [[r files] ts]. exact H.
Qed.

(* ===================================================================== *)
(** * The primitives the handlers rely on *)
(* ===================================================================== *)

Lemma all_not_mem (p : ascii -> bool) (c : ascii) (s : bytes) :
  p c = false -> all p s = true -> mem c s = false.
Proof.
  intros Hc. induction s as [|d s IH]; [reflexivity|]. cbn [all mem].
  intros [Hd Hs]%andb_prop. rewrite (IH Hs), orb_false_r.
  destruct (Ascii.eqb_spec c d) as [->|]; [congruence | reflexivity].
Qed.

(** X24.  Whatever the target URL holds, its cache file lies directly
    in the cache directory: the name after the directory is thirty-two
    characters long and holds neither a slash nor a dot, so no target can
    name a file outside the directory. *)
Theorem cache_file_is_inside_the_cache_directory (u : bytes) :
  exists name,
    get_cache_filename u = cache_dir +:+ "/" +:+ name /\
    String.length name = 32%nat /\
    mem "/" name = false /\ mem "." name = false.
Proof.
  exists (MD5.hexdigest u). destruct (hexdigest_format u) as [Hlen Hhex].
  split; [reflexivity|]. split; [exact Hlen|].
  split; eapply all_not_mem; try exact Hhex; reflexivity.
Qed.

Lemma push_token_tokens (cur : bytes) (rest : list bytes) :
  all (fun c => negb (is_space c)) cur = true ->
  Forall (fun t => t <> ""%string /\ all (fun c => negb (is_space c)) t = true) rest ->
  Forall (fun t => t <> ""%string /\ all (fun c => negb (is_space c)) t = true)
         (push_token cur rest).
Proof.
  intros Hc Hr. unfold push_token. destruct cur; cbn [is_empty]; [exact Hr|].
  constructor; [split; [discriminate | exact Hc] | exact Hr].
Qed.

Lemma split_ws_go_tokens (s : bytes) :
  all (fun c => negb (is_space c)) (fst (split_ws_go s)) = true /\
  Forall (fun t => t <> ""%string /\ all (fun c => negb (is_space c)) t = true)
         (snd (split_ws_go s)).
Proof.
  induction s as [|c s [IHc IHr]]; [split; [reflexivity|constructor]|].
  cbn [split_ws_go]. destruct (split_ws_go s) as [cur rest]. cbn [fst snd] in *.
  destruct (is_space c) eqn:Hc; cbn [fst snd].
  - split; [reflexivity|]. apply push_token_tokens; assumption.
  - split; [|exact IHr]. cbn [all]. rewrite Hc. exact IHc.
Qed.

(** X25.  The tokens of a request line are never empty and hold no
    white space: the method and the target the dispatcher works on are
    non-empty words, however the line is spaced. *)
Theorem request_line_tokens_are_words (line : bytes) :
  Forall (fun t => t <> ""%string /\ all (fun c => negb (is_space c)) t = true)
         (split_ws line).
Proof.
  unfold split_ws. destruct (split_ws_go_tokens line) as [Hc Hr].
  destruct (split_ws_go line) as [cur rest]. apply push_token_tokens; assumption.
Qed.

(** ** [split] *)

Lemma append_cons (c : ascii) (a b : bytes) :
  String c a +:+ b = String c (a +:+ b).
Proof. reflexivity. Qed.

Lemma prefix_append (p s : bytes) :
  String.prefix p s = true -> exists t, s = p +:+ t.
Proof.
  revert s. induction p as [|a p IH]; intros s; [exists s; reflexivity|].
  destruct s as [|b s]; [discriminate|]. cbn [String.prefix].
  destruct (ascii_dec a b) as [<-|]; [|discriminate].
  intros H. destruct (IH s H) as [t ->]. exists t. reflexivity.
Qed.

Lemma split_go_skip (sep p s : bytes) :
  split_go sep (String.length p) (p +:+ s) = split_go sep 0 s.
Proof.
  induction p as [|a p IH]; [reflexivity|].
  rewrite append_cons. cbn [String.length split_go]. exact IH.
Qed.

Lemma split_go_nonempty (sep : bytes) (s : bytes) : forall k,
  split_go sep k s <> [].
Proof.
  induction s as [|c s IH]; intros k; [discriminate|]. cbn [split_go].
  destruct k; [|apply IH].
  destruct (String.prefix sep (String c s)); [discriminate|].
  destruct (split_go sep 0 s); discriminate.
Qed.

Lemma concat_cons (sep x : bytes) (l : list bytes) :
  l <> [] -> String.concat sep (x :: l) = x +:+ sep +:+ String.concat sep l.
Proof. destruct l; [congruence | reflexivity]. Qed.

Lemma length_append (a b : bytes) :
  String.length (a +:+ b) = (String.length a + String.length b)%nat.
Proof.
  induction a as [|c a IH]; [reflexivity|].
  rewrite append_cons. cbn [String.length]. rewrite IH. reflexivity.
Qed.

Lemma split_go_join (sep : bytes) (n : nat) : forall s,
  sep <> ""%string -> (String.length s <= n)%nat ->
  String.concat sep (split_go sep 0 s) = s.
Proof.
  induction n as [|n IH]; intros s Hsep Hlen.
  - destruct s; [reflexivity | cbn in Hlen; lia].
  - destruct s as [|c s]; [reflexivity|]. cbn [split_go].
    destruct (String.prefix sep (String c s)) eqn:Hp.
    + destruct (prefix_append _ _ Hp) as [t Ht].
      destruct sep as [|a sep']; [congruence|].
      rewrite append_cons in Ht. injection Ht as <- ->.
      cbn [String.length Nat.pred]. rewrite split_go_skip.
      rewrite concat_cons by apply split_go_nonempty.
      rewrite IH; [reflexivity | assumption |].
      cbn [String.length] in Hlen. rewrite length_append in Hlen. lia.
    + pose proof (IH s Hsep) as Hs. cbn [String.length] in Hlen.
      specialize (Hs ltac:(lia)).
      destruct (split_go sep 0 s) as [|seg rest] eqn:Hgo;
        [exfalso; exact (split_go_nonempty _ _ _ Hgo)|].
      destruct rest as [|y rest]; cbn [String.concat] in *.
      * rewrite Hs. reflexivity.
      * rewrite append_cons, Hs. reflexivity.
Qed.

(** X26.  Splitting a byte string at a non-empty separator loses
    nothing: there is always a first piece, and joining the pieces with
    the separator gives the string back.  So the first line of a request
    and the lines after it, joined by LF, are the request. *)
Theorem split_then_join_is_the_identity (sep s : bytes) :
  sep <> ""%string ->
  split sep s <> [] /\ String.concat sep (split sep s) = s.
Proof.
  intros Hsep. unfold split. split; [apply split_go_nonempty|].
  apply (split_go_join sep (String.length s)); [exact Hsep | lia].
Qed.

(** ** [int] and the rendering of a number *)

Lemma rstrip_none (p : ascii -> bool) (s : bytes) :
  all (fun c => negb (p c)) s = true -> rstrip p s = s.
Proof.
  induction s as [|c s IH]; [reflexivity|]. cbn [all rstrip].
  intros [Hc Hs]%andb_prop. apply negb_true_iff in Hc.
  rewrite (IH Hs), Hc. reflexivity.
Qed.

Lemma strip_none (s : bytes) :
  all (fun c => negb (is_space c)) s = true -> strip s = s.
Proof.
  intros H. unfold strip.
  assert (Hl : lstrip is_space s = s).
  { destruct s as [|c s]; [reflexivity|]. cbn [all lstrip] in *.
    apply andb_prop in H as [Hc _]. apply negb_true_iff in Hc.
    rewrite Hc. reflexivity. }
  rewrite Hl. apply rstrip_none. exact H.
Qed.

Lemma digits_no_space (d : Decimal.uint) :
  all (fun c => negb (is_space c)) (DecimalString.NilEmpty.string_of_uint d) = true.
Proof.
  induction d; cbn [DecimalString.NilEmpty.string_of_uint all];
    [reflexivity | rewrite IHd; reflexivity ..].
Qed.

(** The digits of a decimal numeral, read by [int_digits] after the
    value [acc], give the value [Pos.of_uint_acc] gives. *)
Lemma int_digits_uint (d : Decimal.uint) : forall (acc : positive),
  int_digits true (Z.pos acc) (DecimalString.NilEmpty.string_of_uint d)
    = Some (Z.pos (Pos.of_uint_acc d acc)).
Proof.
  induction d; intros acc;
    cbn [DecimalString.NilEmpty.string_of_uint Pos.of_uint_acc];
    [reflexivity|..].
  all: match goal with
       | |- int_digits true ?a (String ?c ?s) = _ =>
           let v := eval vm_compute in (code c - 48) in
           change (int_digits true a (String c s))
             with (int_digits true (10 * a + v) s)
       end.
  all: match goal with
       | |- int_digits true ?a _ = Some (Z.pos (Pos.of_uint_acc _ ?q)) =>
           replace a with (Z.pos q) by lia
       end.
  all: apply IHd.
Qed.

Lemma int_digits_uint0 (d : Decimal.uint) : forall b,
  b = true \/ d <> Decimal.Nil ->
  int_digits b 0 (DecimalString.NilEmpty.string_of_uint d)
    = Some (Z.of_N (Pos.of_uint d)).
Proof.
  induction d; intros b Hb;
    cbn [DecimalString.NilEmpty.string_of_uint Pos.of_uint].
  - destruct Hb as [->|]; [reflexivity | congruence].
  - change (int_digits b 0 (String "0" ?s)) with (int_digits true 0 s).
    apply IHd. left; reflexivity.
  - change (int_digits b 0 (String "1" ?s)) with (int_digits true 1 s).
    apply int_digits_uint.
  - change (int_digits b 0 (String "2" ?s)) with (int_digits true 2 s).
    apply int_digits_uint.
  - change (int_digits b 0 (String "3" ?s)) with (int_digits true 3 s).
    apply int_digits_uint.
  - change (int_digits b 0 (String "4" ?s)) with (int_digits true 4 s).
    apply int_digits_uint.
  - change (int_digits b 0 (String "5" ?s)) with (int_digits true 5 s).
    apply int_digits_uint.
  - change (int_digits b 0 (String "6" ?s)) with (int_digits true 6 s).
    apply int_digits_uint.
  - change (int_digits b 0 (String "7" ?s)) with (int_digits true 7 s).
    apply int_digits_uint.
  - change (int_digits b 0 (String "8" ?s)) with (int_digits true 8 s).
    apply int_digits_uint.
  - change (int_digits b 0 (String "9" ?s)) with (int_digits true 9 s).
    apply int_digits_uint.
Qed.

Lemma positive_digits (p : positive) :
  let s := DecimalString.NilEmpty.string_of_uint (Pos.to_uint p) in
  DecimalString.NilZero.string_of_uint (Pos.to_uint p) = s /\
  int_digits false 0 s = Some (Z.pos p) /\
  all (fun c => negb (is_space c)) s = true /\
  exists c s', s = String c s' /\ is_digit c = true.
Proof.
  cbv zeta. pose proof (DecimalPos.Unsigned.to_uint_nonnil p) as Hnn.
  pose proof (DecimalPos.Unsigned.of_to p) as Hof.
  destruct (Pos.to_uint p) as [|d|d|d|d|d|d|d|d|d|d] eqn:Hd; [congruence|..].
  all: split; [reflexivity|].
  all: split; [rewrite int_digits_uint0 by (right; discriminate);
               rewrite Hof; reflexivity|].
  all: split; [apply digits_no_space|].
  all: cbn [DecimalString.NilEmpty.string_of_uint]; eexists _, _;
       split; reflexivity.
Qed.

(** X27.  A number rendered as the forwarder renders the length header
    is read back by [int] as the same number: the Content-Length line the
    proxy writes carries the value the proxy parsed. *)
Theorem rendered_number_is_read_back (n : Z) :
  int_of_bytes (of_Z n) = Some n.
Proof.
  unfold of_Z, int_of_bytes. destruct n as [|p|p]; [reflexivity| |].
  - cbn [Z.to_int DecimalString.NilZero.string_of_int].
    destruct (positive_digits p) as (-> & Hv & Hsp & c & s' & Hs & Hc).
    rewrite (strip_none _ Hsp). rewrite Hs in *.
    destruct (Ascii.eqb_spec c "-") as [->|Hm]; [discriminate|].
    destruct (Ascii.eqb_spec c "+") as [->|Hp]; [discriminate|].
    destruct c as [[] [] [] [] [] [] [] []]; try discriminate Hc;
      try congruence; exact Hv.
  - cbn [Z.to_int DecimalString.NilZero.string_of_int].
    destruct (positive_digits p) as (-> & Hv & Hsp & _).
    rewrite strip_none by (cbn [all]; rewrite Hsp; reflexivity).
    rewrite Hv. reflexivity.
Qed.

(* ===================================================================== *)
(** * Runs on concrete requests *)
(* ===================================================================== *)

Ltac in_list := repeat first [left; reflexivity | right].

(** C1, as stated, fails: after a GET stored the response for a URL, a
    POST for the same URL is not answered from the cache.  With the
    origin out of reach it tries to connect all the same, and the client
    gets the 400 response, not the stored bytes. *)
Lemma second_post_is_not_served_from_cache :
  In (CacheWrite (get_cache_filename Example.url) Example.response)
     (trace_of (handle_client_request Example.first_get)) /\
  Example.cache_after_first_get !! get_cache_filename Example.url
    = Some Example.response /\
  origin_contacted (trace_of (handle_client_request Example.second_post)) = true /\
  client_sent (trace_of (handle_client_request Example.second_post))
    = [RESPONSE_400].
Proof.
  split; [vm_compute; in_list|].
  split; [vm_compute; reflexivity|].
  split; vm_compute; reflexivity.
Qed.

(** C2.  For the CONNECT target [example.com:8443] the handler gets no
    host out of [urlparse] (the target has no network location without
    two slashes before it): nothing is dialled, [connect] raises a
    [TypeError] on the host [None], and the client is sent the 500
    response although the origin accepts connections.  The same target
    written [//example.com:8443] is dialled. *)
Theorem connect_target_host_port_is_not_dialled :
  trace_of (handle_client_request Example.tunnel_request) =
    [ClientRecv Example.connect; Log DEBUG (MsgReceived Example.connect);
     OriginClose; Log ERROR (MsgTunnelError None TypeError);
     ClientSend RESPONSE_500; ClientClose] /\
  origin_contacted (trace_of (handle_client_request Example.tunnel_request)) = false /\
  In (OriginConnect "example.com" 8443)
     (trace_of (handle_client_request Example.broken_tunnel)).
Proof.
  split; [vm_compute; reflexivity|].
  split; [vm_compute; reflexivity|].
  vm_compute; in_list.
Qed.


(** C4.  A POST announcing five bytes whose buffered read holds ten
    after the blank line is forwarded with all ten under a length header
    of five; and of two length headers the last one is used. *)
Theorem post_body_is_not_cut_to_content_length :
  origin_writes
    (trace_of (handle_client_request Example.post_request_with_trailing_bytes)) =
    ["POST /search HTTP/1.1" +:+ CRLF +:+
     "Host: example.com" +:+ CRLF +:+
     "Content-Length: 5" +:+ CRLF +:+
     "Connection: close" +:+ CRLF +:+ CRLF +:+ "helloEXTRA"] /\
  origin_writes
    (trace_of (handle_client_request Example.post_request_with_two_lengths)) =
    ["POST /search HTTP/1.1" +:+ CRLF +:+
     "Host: example.com" +:+ CRLF +:+
     "Content-Length: 3" +:+ CRLF +:+
     "Connection: close" +:+ CRLF +:+ CRLF +:+ "hello"].
Proof. split; vm_compute; reflexivity. Qed.

(** C5.  When the client is gone by the time the response is written,
    that write raises, the write of the 400 response in the [except]
    clause raises as well, and the exception leaves the dispatcher: the
    client connection is never closed. *)
Theorem connection_left_open_when_error_reply_fails :
  outcome_of (handle_client_request Example.client_gone) = Raises OSError /\
  client_closed (trace_of (handle_client_request Example.client_gone)) = false /\
  client_view (trace_of (handle_client_request Example.client_gone)) =
    [ClientSendErr Example.response; ClientSendErr RESPONSE_400].
Proof. repeat split; vm_compute; reflexivity. Qed.

(** ** Instances of the general theorems *)

Lemma second_get_is_served_from_cache_witness :
  client_in Example.first_get = [Data Example.get] /\
  split_ws (first_line Example.get) = ["GET"; Example.url; "HTTP/1.1"]%string /\
  In (CacheWrite (get_cache_filename Example.url) Example.response)
     (trace_of (handle_client_request Example.first_get)) /\
  fs Example.second_get = fs (world_of (handle_client_request Example.first_get)) /\
  platform (env Example.second_get) = platform (env Example.first_get) /\
  client_in Example.second_get = [Data Example.get] /\
  read_ok (env Example.second_get) = true /\
  hd true (client_out Example.second_get) = true /\
  client_sent (trace_of (handle_client_request Example.second_get))
    = [Example.response] /\
  origin_contacted (trace_of (handle_client_request Example.second_get)) = false.
Proof.
  assert (Hci : client_in Example.first_get = [Data Example.get]) by reflexivity.
  assert (Htok : split_ws (first_line Example.get)
                 = ["GET"; Example.url; "HTTP/1.1"]%string)
    by (vm_compute; reflexivity).
  assert (Hin : In (CacheWrite (get_cache_filename Example.url) Example.response)
                   (trace_of (handle_client_request Example.first_get)))
    by (vm_compute; in_list).
  assert (Hfs : fs Example.second_get
                = fs (world_of (handle_client_request Example.first_get)))
    by reflexivity.
  assert (Hpf : platform (env Example.second_get)
                = platform (env Example.first_get)) by reflexivity.
  assert (Hci2 : client_in Example.second_get = [Data Example.get]) by reflexivity.
  assert (Hrd : read_ok (env Example.second_get) = true) by reflexivity.
  assert (Hhd : hd true (client_out Example.second_get) = true) by reflexivity.
  repeat (split; [assumption|]).
  apply (second_get_is_served_from_cache
           Example.first_get Example.second_get Example.get Example.get [] []
           "GET" Example.url "HTTP/1.1" "HTTP/1.1"
           (get_cache_filename Example.url) Example.response
           Hci Htok Hin Hfs Hpf Hci2 Htok Hrd Hhd).
Defined.

Lemma cache_write_failure_is_only_logged_witness :
  In (CacheWriteErr (get_cache_filename Example.url))
     (trace_of (handle_client_request Example.failed_store)) /\
  exists t1 send t2,
    trace_of (handle_client_request Example.failed_store) =
      t1 ++ [CacheWriteErr (get_cache_filename Example.url);
             Log ERROR (MsgSaveError OSError); send] ++ t2 /\
    origin_received t1 <> ""%string /\
    client_view t1 = [] /\
    (send = ClientSend (origin_received t1) \/
     send = ClientSendErr (origin_received t1)).
Proof.
  assert (Hin : In (CacheWriteErr (get_cache_filename Example.url))
                   (trace_of (handle_client_request Example.failed_store)))
    by (vm_compute; in_list).
  split; [exact Hin|].
  destruct (cache_write_failure_is_only_logged Example.failed_store _ Hin)
    as (t1 & send & t2 & Htr & Hne & Hcv & Hsend & _).
  exists t1, send, t2. repeat split; assumption.
Defined.



Lemma get_forwards_the_path_without_the_query_witness :
  client_in Example.first_get = [Data Example.get] /\
  split_ws (first_line Example.get) = ["GET"; Example.url; "HTTP/1.1"]%string /\
  target_text Example.url = Ok Example.url /\
  Url.urlparse Example.platform Example.url
    = Ok (Url.mkParseResult "http" "example.com" "/search" "" "q=1" "") /\
  origin_writes (trace_of (handle_client_request Example.first_get)) =
    ["GET /search HTTP/1.1" +:+ CRLF +:+
     "Host: example.com" +:+ CRLF +:+
     "Connection: close" +:+ CRLF +:+ CRLF] /\
  get_cache_filename Example.url = "cache/4843d10117b97eaca16d4b3d42ad1719"%string /\
  get_cache_filename "http://example.com/search"
    <> get_cache_filename Example.url.
Proof.
  assert (Hci : client_in Example.first_get = [Data Example.get]) by reflexivity.
  assert (Htok : split_ws (first_line Example.get)
                 = ["GET"; Example.url; "HTTP/1.1"]%string)
    by (vm_compute; reflexivity).
  assert (Htext : target_text Example.url = Ok Example.url)
    by (vm_compute; reflexivity).
  assert (Hparse : Url.urlparse (platform (env Example.first_get)) Example.url
                   = Ok (Url.mkParseResult "http" "example.com" "/search" "" "q=1" ""))
    by (vm_compute; reflexivity).
  assert (Hhost : Url.hostname (platform (env Example.first_get))
                    (Url.mkParseResult "http" "example.com" "/search" "" "q=1" "")
                  = Some "example.com"%string)
    by (vm_compute; reflexivity).
  assert (Hmiss : fs Example.first_get !! get_cache_filename Example.url = None)
    by (vm_compute; reflexivity).
  split; [exact Hci|]. split; [exact Htok|]. split; [exact Htext|].
  split; [exact Hparse|].
  destruct (get_forwards_the_path_without_the_query
              Example.first_get Example.get [] Example.url "HTTP/1.1"
              Example.url "example.com" _ Hci Htok Htext Hparse Hhost
              ltac:(discriminate) Hmiss eq_refl)
    as (Hw & _).
  split; [exact Hw|].
  split; [vm_compute; reflexivity|].
  vm_compute. discriminate.
Defined.

Lemma connect_without_slashes_is_never_dialled_witness :
  client_in Example.tunnel_request = [Data Example.connect] /\
  split_ws (first_line Example.connect)
    = ["CONNECT"; "example.com:8443"; "HTTP/1.1"]%string /\
  mem "/" "example.com:8443" = false /\
  origin_contacted (trace_of (handle_client_request Example.tunnel_request)) = false /\
  trace_of (handle_client_request Example.tunnel_request) =
    [ClientRecv Example.connect; Log DEBUG (MsgReceived Example.connect);
     OriginClose; Log ERROR (MsgTunnelError None TypeError);
     ClientSend RESPONSE_500; ClientClose].
Proof.
  assert (Hci : client_in Example.tunnel_request = [Data Example.connect])
    by reflexivity.
  assert (Htok : split_ws (first_line Example.connect)
                 = ["CONNECT"; "example.com:8443"; "HTTP/1.1"]%string)
    by (vm_compute; reflexivity).
  assert (Hno : mem "/" "example.com:8443" = false) by reflexivity.
  split; [exact Hci|]. split; [exact Htok|]. split; [exact Hno|].
  destruct (connect_without_slashes_is_never_dialled
              Example.tunnel_request Example.connect []
              "example.com:8443" "HTTP/1.1" Hci Htok Hno) as [Hnc Htr].
  split; [exact Hnc|]. apply Htr; reflexivity.
Defined.

Lemma tunnel_without_errors_relays_verbatim_witness :
  In OriginTLS
     (trace_of (handle_https_request "CONNECT" "//example.com:8443"
                  Example.open_tunnel)) /\
  forallb (fun e => negb (is_error e))
    (trace_of (handle_https_request "CONNECT" "//example.com:8443"
                 Example.open_tunnel)) = true /\
  client_sent
    (trace_of (handle_https_request "CONNECT" "//example.com:8443"
                 Example.open_tunnel))
  = RESPONSE_200 ::
    origin_chunks
      (trace_of (handle_https_request "CONNECT" "//example.com:8443"
                   Example.open_tunnel)) /\
  origin_chunks
    (trace_of (handle_https_request "CONNECT" "//example.com:8443"
                 Example.open_tunnel)) = ["pong"%string].
Proof.
  assert (Hin : In OriginTLS
                  (trace_of (handle_https_request "CONNECT" "//example.com:8443"
                               Example.open_tunnel)))
    by (vm_compute; in_list).
  assert (Hno : forallb (fun e => negb (is_error e))
                  (trace_of (handle_https_request "CONNECT" "//example.com:8443"
                               Example.open_tunnel)) = true)
    by (vm_compute; reflexivity).
  split; [exact Hin|]. split; [exact Hno|].
  split; [|vm_compute; reflexivity].
  apply (tunnel_without_errors_relays_verbatim
           "CONNECT" "//example.com:8443" Example.open_tunnel Hin Hno).
Defined.

Lemma tunnel_dials_the_parsed_host_once_witness :
  Url.urlparse_bytes (platform (env Example.open_tunnel)) "//example.com:8443"
    = Ok (Url.mkParseResult "" "example.com:8443" "" "" "" "") /\
  Url.hostname (platform (env Example.open_tunnel))
    (Url.mkParseResult "" "example.com:8443" "" "" "" "")
    = Some "example.com"%string /\
  Url.port (Url.mkParseResult "" "example.com:8443" "" "" "" "") = Ok (Some 8443) /\
  connect_attempts
    (trace_of (handle_https_request "CONNECT" "//example.com:8443"
                 Example.open_tunnel))
  = [OriginConnect "example.com" 8443].
Proof.
  assert (Hparse : Url.urlparse_bytes (platform (env Example.open_tunnel))
                     "//example.com:8443"
                   = Ok (Url.mkParseResult "" "example.com:8443" "" "" "" ""))
    by (vm_compute; reflexivity).
  assert (Hhost : Url.hostname (platform (env Example.open_tunnel))
                    (Url.mkParseResult "" "example.com:8443" "" "" "" "")
                  = Some "example.com"%string)
    by (vm_compute; reflexivity).
  assert (Hport : Url.port (Url.mkParseResult "" "example.com:8443" "" "" "" "")
                  = Ok (Some 8443))
    by (vm_compute; reflexivity).
  split; [exact Hparse|]. split; [exact Hhost|]. split; [exact Hport|].
  apply (tunnel_dials_the_parsed_host_once
           "CONNECT" "//example.com:8443" "example.com" Example.open_tunnel
           _ _ Hparse Hhost Hport).
Defined.

Lemma upstream_failure_gets_500_witness :
  Url.urlparse_bytes (platform (env Example.refused_tunnel)) "//example.com"
    = Ok (Url.mkParseResult "" "example.com" "" "" "" "") /\
  Url.hostname (platform (env Example.refused_tunnel))
    (Url.mkParseResult "" "example.com" "" "" "" "")
    = Some "example.com"%string /\
  Url.port (Url.mkParseResult "" "example.com" "" "" "" "") = Ok None /\
  connect_ok (env Example.refused_tunnel) = false /\
  hd true (client_out Example.refused_tunnel) = true /\
  outcome_of (handle_https_request "CONNECT" "//example.com" Example.refused_tunnel)
    = Returns tt /\
  trace_of (handle_https_request "CONNECT" "//example.com" Example.refused_tunnel)
    = [OriginConnectErr "example.com" 443; OriginClose;
       Log ERROR (MsgTunnelError (Some "example.com"%string) OSError);
       ClientSend RESPONSE_500; ClientClose].
Proof.
  assert (Hparse : Url.urlparse_bytes (platform (env Example.refused_tunnel))
                     "//example.com"
                   = Ok (Url.mkParseResult "" "example.com" "" "" "" ""))
    by (vm_compute; reflexivity).
  assert (Hhost : Url.hostname (platform (env Example.refused_tunnel))
                    (Url.mkParseResult "" "example.com" "" "" "" "")
                  = Some "example.com"%string)
    by (vm_compute; reflexivity).
  assert (Hport : Url.port (Url.mkParseResult "" "example.com" "" "" "" "")
                  = Ok None)
    by (vm_compute; reflexivity).
  assert (Hconn : connect_ok (env Example.refused_tunnel) = false) by reflexivity.
  assert (Hhd : hd true (client_out Example.refused_tunnel) = true) by reflexivity.
  split; [exact Hparse|]. split; [exact Hhost|]. split; [exact Hport|].
  split; [exact Hconn|]. split; [exact Hhd|].
  apply (upstream_failure_gets_500
           "CONNECT" "//example.com" "example.com" Example.refused_tunnel
           _ _ Hparse Hhost Hport (or_introl Hconn) Hhd).
Defined.

Lemma connect_leaves_the_cache_alone_witness :
  client_in Example.broken_tunnel
    = [Data Example.connect_slashes; Data "ping"; RecvError] /\
  split_ws (first_line Example.connect_slashes)
    = ["CONNECT"; "//example.com:8443"; "HTTP/1.1"]%string /\
  forallb (fun e => negb (is_cache e))
    (trace_of (handle_client_request Example.broken_tunnel)) = true /\
  fs (world_of (handle_client_request Example.broken_tunnel))
    = fs Example.broken_tunnel.
Proof.
  assert (Hci : client_in Example.broken_tunnel
                = [Data Example.connect_slashes; Data "ping"; RecvError])
    by reflexivity.
  assert (Htok : split_ws (first_line Example.connect_slashes)
                 = ["CONNECT"; "//example.com:8443"; "HTTP/1.1"]%string)
    by (vm_compute; reflexivity).
  split; [exact Hci|]. split; [exact Htok|].
  apply (connect_leaves_the_cache_alone Example.broken_tunnel
           Example.connect_slashes _ "//example.com:8443" "HTTP/1.1" Hci Htok).
Defined.

Lemma target_without_host_gets_400_witness :
  client_in Example.root_request = [Data Example.root] /\
  split_ws (first_line Example.root) = ["GET"; "/"; "HTTP/1.1"]%string /\
  target_text "/" = Ok "http://"%string /\
  Url.urlparse (platform (env Example.root_request)) "http://"
    = Ok (Url.mkParseResult "http" "" "" "" "" "") /\
  Url.hostname (platform (env Example.root_request))
    (Url.mkParseResult "http" "" "" "" "" "") = None /\
  hd true (client_out Example.root_request) = true /\
  origin_contacted (trace_of (handle_client_request Example.root_request)) = false /\
  trace_of (handle_client_request Example.root_request) =
    [ClientRecv Example.root; Log DEBUG (MsgReceived Example.root);
     ClientSend RESPONSE_400; ClientClose].
Proof.
  assert (Hci : client_in Example.root_request = [Data Example.root])
    by reflexivity.
  assert (Htok : split_ws (first_line Example.root)
                 = ["GET"; "/"; "HTTP/1.1"]%string)
    by (vm_compute; reflexivity).
  assert (Htext : target_text "/" = Ok "http://"%string)
    by (vm_compute; reflexivity).
  assert (Hparse : Url.urlparse (platform (env Example.root_request)) "http://"
                   = Ok (Url.mkParseResult "http" "" "" "" "" ""))
    by (vm_compute; reflexivity).
  assert (Hhost : Url.hostname (platform (env Example.root_request))
                    (Url.mkParseResult "http" "" "" "" "" "") = None)
    by (vm_compute; reflexivity).
  assert (Hhd : hd true (client_out Example.root_request) = true) by reflexivity.
  split; [exact Hci|]. split; [exact Htok|]. split; [exact Htext|].
  split; [exact Hparse|]. split; [exact Hhost|]. split; [exact Hhd|].
  destruct (target_without_host_gets_400
              Example.root_request Example.root [] "GET" "/" "HTTP/1.1"
              "http://" _ Hci Htok (or_introl eq_refl) Htext Hparse Hhost)
    as (Hno & _ & Hsent).
  split; [exact Hno|]. apply (Hsent Hhd).
Defined.

Lemma unreachable_origin_gets_400_witness :
  client_in Example.unreachable_get = [Data Example.get] /\
  split_ws (first_line Example.get) = ["GET"; Example.url; "HTTP/1.1"]%string /\
  fs Example.unreachable_get !! get_cache_filename Example.url = None /\
  target_of (platform (env Example.unreachable_get)) Example.url
    = Some ("example.com", "/search")%string /\
  connect_ok (env Example.unreachable_get) = false /\
  hd true (client_out Example.unreachable_get) = true /\
  trace_of (handle_client_request Example.unreachable_get) =
    [ClientRecv Example.get; Log DEBUG (MsgReceived Example.get);
     OriginConnectErr "example.com" 80; OriginClose;
     Log ERROR (MsgProcessError OSError);
     ClientSend RESPONSE_400; ClientClose].
Proof.
  assert (Hci : client_in Example.unreachable_get = [Data Example.get])
    by reflexivity.
  assert (Htok : split_ws (first_line Example.get)
                 = ["GET"; Example.url; "HTTP/1.1"]%string)
    by (vm_compute; reflexivity).
  assert (Hmiss : fs Example.unreachable_get !! get_cache_filename Example.url = None)
    by (vm_compute; reflexivity).
  assert (Htgt : target_of (platform (env Example.unreachable_get)) Example.url
                 = Some ("example.com", "/search")%string)
    by (vm_compute; reflexivity).
  assert (Hconn : connect_ok (env Example.unreachable_get) = false) by reflexivity.
  assert (Hhd : hd true (client_out Example.unreachable_get) = true) by reflexivity.
  split; [exact Hci|]. split; [exact Htok|]. split; [exact Hmiss|].
  split; [exact Htgt|]. split; [exact Hconn|]. split; [exact Hhd|].
  rewrite (unreachable_origin_gets_400
             Example.unreachable_get Example.get [] "GET" Example.url "HTTP/1.1"
             "example.com" "/search" Hci Htok (or_introl (conj eq_refl Hmiss))
             Htgt Hconn Hhd).
  reflexivity.
Defined.

Lemma unreadable_cache_entry_gets_400_witness :
  client_in Example.unreadable_get = [Data Example.get] /\
  split_ws (first_line Example.get) = ["GET"; Example.url; "HTTP/1.1"]%string /\
  target_of (platform (env Example.unreadable_get)) Example.url
    = Some ("example.com", "/search")%string /\
  fs Example.unreadable_get !! get_cache_filename Example.url
    = Some Example.response /\
  read_ok (env Example.unreadable_get) = false /\
  hd true (client_out Example.unreadable_get) = true /\
  trace_of (handle_client_request Example.unreadable_get) =
    [ClientRecv Example.get; Log DEBUG (MsgReceived Example.get);
     Log INFO (MsgCacheHit Example.url);
     CacheReadErr (get_cache_filename Example.url);
     Log ERROR (MsgProcessError OSError);
     ClientSend RESPONSE_400; ClientClose].
Proof.
  assert (Hci : client_in Example.unreadable_get = [Data Example.get])
    by reflexivity.
  assert (Htok : split_ws (first_line Example.get)
                 = ["GET"; Example.url; "HTTP/1.1"]%string)
    by (vm_compute; reflexivity).
  assert (Htgt : target_of (platform (env Example.unreadable_get)) Example.url
                 = Some ("example.com", "/search")%string)
    by (vm_compute; reflexivity).
  assert (Hfs : fs Example.unreadable_get !! get_cache_filename Example.url
                = Some Example.response)
    by (vm_compute; reflexivity).
  assert (Hrd : read_ok (env Example.unreadable_get) = false) by reflexivity.
  assert (Hhd : hd true (client_out Example.unreadable_get) = true) by reflexivity.
  split; [exact Hci|]. split; [exact Htok|]. split; [exact Htgt|].
  split; [exact Hfs|]. split; [exact Hrd|]. split; [exact Hhd|].
  rewrite (unreadable_cache_entry_gets_400
             Example.unreadable_get Example.get [] Example.url "HTTP/1.1"
             "example.com" "/search" Example.response Hci Htok Htgt Hfs Hrd Hhd).
  reflexivity.
Defined.

Lemma silent_client_gets_400_witness :
  hd (Data "") (client_in Example.silent_client) = Data "" /\
  hd true (client_out Example.silent_client) = true /\
  origin_contacted (trace_of (handle_client_request Example.silent_client)) = false /\
  outcome_of (handle_client_request Example.silent_client) = Returns tt /\
  client_view (trace_of (handle_client_request Example.silent_client)) =
    [ClientSend RESPONSE_400; ClientClose].
Proof.
  assert (Hci : hd (Data "") (client_in Example.silent_client) = Data "")
    by reflexivity.
  assert (Hhd : hd true (client_out Example.silent_client) = true) by reflexivity.
  split; [exact Hci|]. split; [exact Hhd|].
  destruct (silent_client_gets_400 Example.silent_client (or_introl Hci))
    as (Hno & _ & Hsent).
  split; [exact Hno|]. apply (Hsent Hhd).
Defined.

Lemma forwarder_dials_the_target_host_on_port_80_witness :
  client_in Example.get_with_port_request = [Data Example.get_with_port] /\
  split_ws (first_line Example.get_with_port)
    = ["GET"; Example.url_with_port; "HTTP/1.1"]%string /\
  target_of (platform (env Example.get_with_port_request)) Example.url_with_port
    = Some ("example.com", "/x")%string /\
  forallb (dials_to "example.com" 80)
    (trace_of (handle_client_request Example.get_with_port_request)) = true /\
  connect_attempts (trace_of (handle_client_request Example.get_with_port_request))
    = [OriginConnect "example.com" 80].
Proof.
  assert (Hci : client_in Example.get_with_port_request
                = [Data Example.get_with_port]) by reflexivity.
  assert (Htok : split_ws (first_line Example.get_with_port)
                 = ["GET"; Example.url_with_port; "HTTP/1.1"]%string)
    by (vm_compute; reflexivity).
  assert (Htgt : target_of (platform (env Example.get_with_port_request))
                   Example.url_with_port
                 = Some ("example.com", "/x")%string)
    by (vm_compute; reflexivity).
  split; [exact Hci|]. split; [exact Htok|]. split; [exact Htgt|].
  split; [|vm_compute; reflexivity].
  apply (forwarder_dials_the_target_host_on_port_80
           Example.get_with_port_request Example.get_with_port []
           "GET" Example.url_with_port "HTTP/1.1" "example.com" "/x"
           Hci Htok ltac:(discriminate) Htgt).
Defined.

Lemma empty_response_is_not_stored_witness :
  client_in Example.silent_origin = [Data Example.get] /\
  split_ws (first_line Example.get) = ["GET"; Example.url; "HTTP/1.1"]%string /\
  target_of (platform (env Example.silent_origin)) Example.url
    = Some ("example.com", "/search")%string /\
  fs Example.silent_origin !! get_cache_filename Example.url = None /\
  connect_ok (env Example.silent_origin) = true /\
  hd true (origin_out Example.silent_origin) = true /\
  hd (Data "") (origin_in Example.silent_origin) = Data "" /\
  hd true (client_out Example.silent_origin) = true /\
  outcome_of (handle_client_request Example.silent_origin) = Returns tt /\
  fs (world_of (handle_client_request Example.silent_origin))
    = fs Example.silent_origin /\
  trace_of (handle_client_request Example.silent_origin) =
    [ClientRecv Example.get; Log DEBUG (MsgReceived Example.get);
     OriginConnect "example.com" 80; Log INFO (MsgConnected "example.com");
     OriginSend (get_request "/search" "example.com"); OriginRecv "";
     ClientSend ""; OriginClose; ClientClose].
Proof.
  assert (Hci : client_in Example.silent_origin = [Data Example.get])
    by reflexivity.
  assert (Htok : split_ws (first_line Example.get)
                 = ["GET"; Example.url; "HTTP/1.1"]%string)
    by (vm_compute; reflexivity).
  assert (Htgt : target_of (platform (env Example.silent_origin)) Example.url
                 = Some ("example.com", "/search")%string)
    by (vm_compute; reflexivity).
  assert (Hmiss : fs Example.silent_origin !! get_cache_filename Example.url = None)
    by (vm_compute; reflexivity).
  assert (Hconn : connect_ok (env Example.silent_origin) = true) by reflexivity.
  assert (Hoo : hd true (origin_out Example.silent_origin) = true) by reflexivity.
  assert (Hoi : hd (Data "") (origin_in Example.silent_origin) = Data "")
    by reflexivity.
  assert (Hhd : hd true (client_out Example.silent_origin) = true) by reflexivity.
  split; [exact Hci|]. split; [exact Htok|]. split; [exact Htgt|].
  split; [exact Hmiss|]. split; [exact Hconn|]. split; [exact Hoo|].
  split; [exact Hoi|]. split; [exact Hhd|].
  apply (empty_response_is_not_stored
           Example.silent_origin Example.get [] Example.url "HTTP/1.1"
           "example.com" "/search" Hci Htok Htgt Hmiss Hconn Hoo Hoi Hhd).
Defined.

Lemma post_is_never_served_from_cache_witness :
  client_in Example.second_post = [Data Example.post] /\
  split_ws (first_line Example.post) = ["POST"; Example.url; "HTTP/1.1"]%string /\
  target_of (platform (env Example.second_post)) Example.url
    = Some ("example.com", "/search")%string /\
  fs Example.second_post !! get_cache_filename Example.url
    = Some Example.response /\
  forallb (fun e => negb (is_cache_read e))
    (trace_of (handle_client_request Example.second_post)) = true /\
  origin_contacted (trace_of (handle_client_request Example.second_post)) = true.
Proof.
  assert (Hci : client_in Example.second_post = [Data Example.post])
    by reflexivity.
  assert (Htok : split_ws (first_line Example.post)
                 = ["POST"; Example.url; "HTTP/1.1"]%string)
    by (vm_compute; reflexivity).
  assert (Htgt : target_of (platform (env Example.second_post)) Example.url
                 = Some ("example.com", "/search")%string)
    by (vm_compute; reflexivity).
  split; [exact Hci|]. split; [exact Htok|]. split; [exact Htgt|].
  split; [vm_compute; reflexivity|].
  apply (post_is_never_served_from_cache
           Example.second_post Example.post [] Example.url "HTTP/1.1"
           "example.com" "/search" Hci Htok Htgt).
Defined.

Lemma last_length_header_wins_witness :
  scan_headers ["Content-Length: 5"%string] 0 = Ok 5 /\
  contains "Content-Length" "Content-Length: 3" = true /\
  nth_error (split ":" "Content-Length: 3") 1 = Some " 3"%string /\
  int_of_bytes (strip " 3") = Some 3 /\
  forallb (fun l => negb (contains "Content-Length" l)) ["Host: a"%string] = true /\
  scan_headers
    (["Content-Length: 5"%string] ++ "Content-Length: 3"%string :: ["Host: a"%string])
    0 = Ok 3.
Proof.
  assert (Hb : scan_headers ["Content-Length: 5"%string] 0 = Ok 5)
    by (vm_compute; reflexivity).
  assert (Hh : contains "Content-Length" "Content-Length: 3" = true)
    by (vm_compute; reflexivity).
  assert (Hv : nth_error (split ":" "Content-Length: 3") 1 = Some " 3"%string)
    by (vm_compute; reflexivity).
  assert (Hn : int_of_bytes (strip " 3") = Some 3) by (vm_compute; reflexivity).
  assert (Ha : forallb (fun l => negb (contains "Content-Length" l))
                 ["Host: a"%string] = true)
    by (vm_compute; reflexivity).
  split; [exact Hb|]. split; [exact Hh|]. split; [exact Hv|].
  split; [exact Hn|]. split; [exact Ha|].
  apply (last_length_header_wins
           ["Content-Length: 5"%string] ["Host: a"%string]
           "Content-Length: 3" " 3" 0 5 3 Hb Hh Hv Hn Ha).
Defined.

Lemma post_without_length_header_forwards_no_body_witness :
  client_in Example.post_lower_case_request
    = [Data Example.post_lower_case_length] /\
  split_ws (first_line Example.post_lower_case_length)
    = ["POST"; Example.url; "HTTP/1.1"]%string /\
  target_of (platform (env Example.post_lower_case_request)) Example.url
    = Some ("example.com", "/search")%string /\
  connect_ok (env Example.post_lower_case_request) = true /\
  forallb (fun l => negb (contains "Content-Length" l))
    (tl (split (String LF "") Example.post_lower_case_length)) = true /\
  origin_writes (trace_of (handle_client_request Example.post_lower_case_request)) =
    ["POST " +:+ "/search" +:+ " HTTP/1.1" +:+ CRLF +:+
     "Host: " +:+ "example.com" +:+ CRLF +:+
     "Content-Length: 0" +:+ CRLF +:+
     "Connection: close" +:+ CRLF +:+ CRLF].
Proof.
  assert (Hci : client_in Example.post_lower_case_request
                = [Data Example.post_lower_case_length]) by reflexivity.
  assert (Htok : split_ws (first_line Example.post_lower_case_length)
                 = ["POST"; Example.url; "HTTP/1.1"]%string)
    by (vm_compute; reflexivity).
  assert (Htgt : target_of (platform (env Example.post_lower_case_request))
                   Example.url
                 = Some ("example.com", "/search")%string)
    by (vm_compute; reflexivity).
  assert (Hconn : connect_ok (env Example.post_lower_case_request) = true)
    by reflexivity.
  assert (Hnone : forallb (fun l => negb (contains "Content-Length" l))
                    (tl (split (String LF "") Example.post_lower_case_length))
                  = true)
    by (vm_compute; reflexivity).
  split; [exact Hci|]. split; [exact Htok|]. split; [exact Htgt|].
  split; [exact Hconn|]. split; [exact Hnone|].
  apply (post_without_length_header_forwards_no_body
           Example.post_lower_case_request Example.post_lower_case_length []
           Example.url "HTTP/1.1" "example.com" "/search"
           Hci Htok Htgt Hconn Hnone).
Defined.

Lemma truncated_cache_file_is_served_witness :
  client_in Example.truncated_store = [Data Example.get] /\
  split_ws (first_line Example.get) = ["GET"; Example.url; "HTTP/1.1"]%string /\
  write_res (env Example.truncated_store) = WriteFails "HTTP/1.1 2" /\
  In (CacheWriteErr (get_cache_filename Example.url))
     (trace_of (handle_client_request Example.truncated_store)) /\
  fs Example.get_after_truncated_store
    = fs (world_of (handle_client_request Example.truncated_store)) /\
  platform (env Example.get_after_truncated_store)
    = platform (env Example.truncated_store) /\
  client_in Example.get_after_truncated_store = [Data Example.get] /\
  read_ok (env Example.get_after_truncated_store) = true /\
  hd true (client_out Example.get_after_truncated_store) = true /\
  client_sent (trace_of (handle_client_request Example.get_after_truncated_store))
    = ["HTTP/1.1 2"%string] /\
  origin_contacted
    (trace_of (handle_client_request Example.get_after_truncated_store)) = false.
Proof.
  assert (Hci : client_in Example.truncated_store = [Data Example.get])
    by reflexivity.
  assert (Htok : split_ws (first_line Example.get)
                 = ["GET"; Example.url; "HTTP/1.1"]%string)
    by (vm_compute; reflexivity).
  assert (Hwr : write_res (env Example.truncated_store) = WriteFails "HTTP/1.1 2")
    by reflexivity.
  assert (Hin : In (CacheWriteErr (get_cache_filename Example.url))
                   (trace_of (handle_client_request Example.truncated_store)))
    by (vm_compute; in_list).
  assert (Hfs : fs Example.get_after_truncated_store
                = fs (world_of (handle_client_request Example.truncated_store)))
    by reflexivity.
  assert (Hpf : platform (env Example.get_after_truncated_store)
                = platform (env Example.truncated_store)) by reflexivity.
  assert (Hci2 : client_in Example.get_after_truncated_store = [Data Example.get])
    by reflexivity.
  assert (Hrd : read_ok (env Example.get_after_truncated_store) = true)
    by reflexivity.
  assert (Hhd : hd true (client_out Example.get_after_truncated_store) = true)
    by reflexivity.
  split; [exact Hci|]. split; [exact Htok|]. split; [exact Hwr|].
  split; [exact Hin|]. split; [exact Hfs|]. split; [exact Hpf|].
  split; [exact Hci2|]. split; [exact Hrd|]. split; [exact Hhd|].
  apply (truncated_cache_file_is_served
           Example.truncated_store Example.get_after_truncated_store
           Example.get Example.get [] [] "GET" Example.url "HTTP/1.1" "HTTP/1.1"
           (get_cache_filename Example.url) "HTTP/1.1 2"
           Hci Htok Hwr Hin Hfs Hpf Hci2 Htok Hrd Hhd).
Defined.



Lemma listener_never_removes_a_cache_file_witness :
  is_Some (cache (mkServer true true Example.cache_after_first_get
                    [Arrives Example.second_connection])
           !! get_cache_filename Example.url) /\
  is_Some (snd (fst (start_proxy_server "0.0.0.0" 8080
                       (mkServer true true Example.cache_after_first_get
                          [Arrives Example.second_connection])))
           !! get_cache_filename Example.url).
Proof.
  assert (Hs : is_Some (cache (mkServer true true Example.cache_after_first_get
                                 [Arrives Example.second_connection])
                        !! get_cache_filename Example.url)).
  { exists Example.response. vm_compute. reflexivity. }
  split; [exact Hs|].
  apply (listener_never_removes_a_cache_file
           "0.0.0.0" 8080
           (mkServer true true Example.cache_after_first_get
              [Arrives Example.second_connection])
           (get_cache_filename Example.url) Hs).
Defined.

Lemma split_then_join_is_the_identity_witness :
  CRLFCRLF <> ""%string /\
  split CRLFCRLF Example.post <> [] /\
  String.concat CRLFCRLF (split CRLFCRLF Example.post) = Example.post.
Proof.
  assert (Hsep : CRLFCRLF <> ""%string) by discriminate.
  split; [exact Hsep|].
  apply (split_then_join_is_the_identity CRLFCRLF Example.post Hsep).
Defined.

Lemma forwarded_get_is_stored_and_delivered_witness :
  client_in Example.chunked_get = [Data Example.get] /\
  split_ws (first_line Example.get) = ["GET"; Example.url; "HTTP/1.1"]%string /\
  target_of (platform (env Example.chunked_get)) Example.url
    = Some ("example.com", "/search")%string /\
  fs Example.chunked_get !! get_cache_filename Example.url = None /\
  connect_ok (env Example.chunked_get) = true /\
  hd true (origin_out Example.chunked_get) = true /\
  origin_in Example.chunked_get
    = map Data ["HTTP/1.1 200 OK" +:+ CRLFCRLF; "hello"%string]
      ++ [Data ""; Data "late"] /\
  write_res (env Example.chunked_get) = Written /\
  hd true (client_out Example.chunked_get) = true /\
  outcome_of (handle_client_request Example.chunked_get) = Returns tt /\
  client_view (trace_of (handle_client_request Example.chunked_get))
    = [ClientSend Example.response; ClientClose] /\
  fs (world_of (handle_client_request Example.chunked_get))
    = <[get_cache_filename Example.url := Example.response]>
        (fs Example.chunked_get).
Proof.
  assert (Hci : client_in Example.chunked_get = [Data Example.get])
    by reflexivity.
  assert (Htok : split_ws (first_line Example.get)
                 = ["GET"; Example.url; "HTTP/1.1"]%string)
    by (vm_compute; reflexivity).
  assert (Htgt : target_of (platform (env Example.chunked_get)) Example.url
                 = Some ("example.com", "/search")%string)
    by (vm_compute; reflexivity).
  assert (Hmiss : fs Example.chunked_get !! get_cache_filename Example.url = None)
    by (vm_compute; reflexivity).
  assert (Hconn : connect_ok (env Example.chunked_get) = true) by reflexivity.
  assert (Hoo : hd true (origin_out Example.chunked_get) = true) by reflexivity.
  assert (Hoi : origin_in Example.chunked_get
                = map Data ["HTTP/1.1 200 OK" +:+ CRLFCRLF; "hello"%string]
                  ++ [Data ""; Data "late"]) by reflexivity.
  assert (Hne : Forall (fun c => is_empty c = false)
                  ["HTTP/1.1 200 OK" +:+ CRLFCRLF; "hello"%string])
    by (repeat constructor).
  assert (Hn : ["HTTP/1.1 200 OK" +:+ CRLFCRLF; "hello"%string] <> [])
    by discriminate.
  assert (Htail : hd (Data "") [Data ""; Data "late"] = Data "") by reflexivity.
  assert (Hwr : write_res (env Example.chunked_get) = Written) by reflexivity.
  assert (Hhd : hd true (client_out Example.chunked_get) = true) by reflexivity.
  split; [exact Hci|]. split; [exact Htok|]. split; [exact Htgt|].
  split; [exact Hmiss|]. split; [exact Hconn|]. split; [exact Hoo|].
  split; [exact Hoi|]. split; [exact Hwr|]. split; [exact Hhd|].
  destruct (forwarded_get_is_stored_and_delivered
              Example.chunked_get Example.get [] [Data ""; Data "late"]
              Example.url "HTTP/1.1" "example.com" "/search"
              ["HTTP/1.1 200 OK" +:+ CRLFCRLF; "hello"%string]
              Hci Htok Htgt Hmiss Hconn Hoo Hoi Hne Hn Htail Hwr Hhd)
    as (Ho & _ & Hv & Hfs).
  split; [exact Ho|]. split; [exact Hv | exact Hfs].
Defined.
